(** * ADJD survey backend: email communication and conditional questions

    A shallow embedding of [email_communication/models.py],
    [email_communication/managers.py] and
    [email_communication/services.py], together with the save-time
    validation of [QuestionCondition] exercised by
    [surveys/tests_conditional.py].

    Conventions of the embedding:
    - a database table is the list of its rows, in the order a query
      enumerates them; primary keys are [Z] and are handed out by a
      counter kept with the table;
    - a nullable column is an [option]; columns no modelled function
      reads (names, descriptions, creation and update timestamps) are
      left out of the rows;
    - Python exceptions are values of [Exception]; service code lives
      in the monad [M], which threads the database, the messages handed
      to the mail backend, and an exception-or-value result;
    - the mail backend is a parameter of the service: it decides, from
      the message and the attempts made so far, whether [msg.send()]
      returns or raises;
    - text is [string] over ASCII characters;
    - the database is SQLite, the engine Django uses by default: its
      integers are 64 bits wide and signed, the driver refuses to bind
      an integer outside them, and the engine refuses such a row limit
      or offset. *)

From Stdlib Require Import List ZArith String Ascii Bool Lia Arith.
From Stdlib Require Import Decimal DecimalString DecimalZ DecimalPos DecimalN.
Import ListNotations.
Local Open Scope string_scope.
Local Open Scope Z_scope.

(** ** Exceptions *)

Inductive Exception : Type :=
| ValueError (msg : string)
| IntegrityError (msg : string)
| DatabaseError (msg : string)
| OverflowError (msg : string)
| ValidationError (messages : list string).

Definition exception_str (e : Exception) : string :=
  match e with
  | ValueError m => m
  | IntegrityError m => m
  | DatabaseError m => m
  | OverflowError m => m
  | ValidationError ms => String.concat ", " ms
  end.

Inductive Result (A : Type) : Type :=
| Ok (a : A)
| Raise (e : Exception).
Arguments Ok {A} a.
Arguments Raise {A} e.

(** ** The Python string operations used by the models *)

Module Py.

(** Truthiness of a [str]. *)
Definition truthy (s : string) : bool :=
  match s with
  | EmptyString => false
  | String _ _ => true
  end.

(** [sep.join(l)] *)
Fixpoint join (sep : string) (l : list string) : string :=
  match l with
  | [] => EmptyString
  | x :: rest =>
      match rest with
      | [] => x
      | _ :: _ => x ++ sep ++ join sep rest
      end
  end.

(** [s.split(sep)] for a one-character separator: never the empty list. *)
Fixpoint split (sep : ascii) (s : string) : list string :=
  match s with
  | EmptyString => [EmptyString]
  | String c r =>
      if Ascii.eqb c sep then EmptyString :: split sep r
      else match split sep r with
           | [] => [String c EmptyString]
           | h :: t => String c h :: t
           end
  end.

(** [str.isspace] on an ASCII character: TAB..CR, FS..US and the blank. *)
Definition isspace (c : ascii) : bool :=
  let n := nat_of_ascii c in
  (((9 <=? n) && (n <=? 13)) || ((28 <=? n) && (n <=? 32)))%nat.

Fixpoint lstrip (s : string) : string :=
  match s with
  | EmptyString => EmptyString
  | String c r => if isspace c then lstrip r else s
  end.

Fixpoint rstrip (s : string) : string :=
  match s with
  | EmptyString => EmptyString
  | String c r =>
      match rstrip r with
      | EmptyString => if isspace c then EmptyString else String c EmptyString
      | String _ _ as r' => String c r'
      end
  end.

(** [s.strip()] *)
Definition strip (s : string) : string := rstrip (lstrip s).

Definition digit_of (c : ascii) : option Z :=
  let n := nat_of_ascii c in
  if ((48 <=? n) && (n <=? 57))%nat then Some (Z.of_nat (n - 48)) else None.

(** The digit part of an integer literal: decimal digits, with single
    underscores allowed between digits. *)
Fixpoint parse_digits (s : string) (acc : Z) (prev_digit : bool) : option Z :=
  match s with
  | EmptyString => if prev_digit then Some acc else None
  | String c r =>
      match digit_of c with
      | Some d => parse_digits r (10 * acc + d) true
      | None =>
          if Ascii.eqb c "_" then
            if prev_digit then parse_digits r acc false else None
          else None
      end
  end.

(** The blanks [int] skips around a literal: TAB..CR and the blank
    (not FS..US, which [str.strip] removes). *)
Definition int_space (c : ascii) : bool :=
  let n := nat_of_ascii c in
  (((9 <=? n) && (n <=? 13)) || (n =? 32))%nat.

Fixpoint ltrim (blank : ascii -> bool) (s : string) : string :=
  match s with
  | EmptyString => EmptyString
  | String c r => if blank c then ltrim blank r else s
  end.

Fixpoint rtrim (blank : ascii -> bool) (s : string) : string :=
  match s with
  | EmptyString => EmptyString
  | String c r =>
      match rtrim blank r with
      | EmptyString => if blank c then EmptyString else String c EmptyString
      | String _ _ as r' => String c r'
      end
  end.

(** [c in s] *)
Fixpoint occurs (c : ascii) (s : string) : bool :=
  match s with
  | EmptyString => false
  | String a r => Ascii.eqb a c || occurs c r
  end.

Definition squote : ascii := ascii_of_nat 39.
Definition dquote : ascii := ascii_of_nat 34.
Definition backslash : ascii := ascii_of_nat 92.

Definition hex_digit (n : nat) : ascii :=
  match get n "0123456789abcdef" with
  | Some c => c
  | None => "0"%char
  end.

(** One character of [repr(s)] inside the quotes [quote]. *)
Definition repr_char (quote c : ascii) : string :=
  let n := nat_of_ascii c in
  if Ascii.eqb c quote || Ascii.eqb c backslash
  then String backslash (String c EmptyString)
  else if (n =? 9)%nat then String backslash "t"
  else if (n =? 10)%nat then String backslash "n"
  else if (n =? 13)%nat then String backslash "r"
  else if ((n <? 32) || (n =? 127))%nat
  then String backslash
         (String "x" (String (hex_digit (n / 16))
                        (String (hex_digit (n mod 16)) EmptyString)))
  else String c EmptyString.

Fixpoint repr_body (quote : ascii) (s : string) : string :=
  match s with
  | EmptyString => String quote EmptyString
  | String c r => repr_char quote c ++ repr_body quote r
  end.

(** [repr(s)] of ASCII text: in single quotes, or in double quotes when
    the text has a single quote and no double quote. *)
Definition repr (s : string) : string :=
  let quote := if occurs squote s && negb (occurs dquote s)
               then dquote else squote in
  String quote (repr_body quote s).

(** The message of the [ValueError] of [int(s)]: the literal is shown
    as [repr] prints it, cut after 200 characters. *)
Definition int_error (s : string) : Exception :=
  ValueError ("invalid literal for int() with base 10: "
              ++ substring 0 200 (repr s)).

(** [int(s)] on ASCII text: blanks around the literal are skipped, then
    an optional sign and the digits; anything else raises
    [ValueError].  (Python also reads the decimal digits and blanks of
    other scripts; text outside ASCII is not modelled.) *)
Definition int (s : string) : Result Z :=
  let bad := Raise (int_error s) in
  match rtrim int_space (ltrim int_space s) with
  | String "+" r =>
      match parse_digits r 0 false with Some n => Ok n | None => bad end
  | String "-" r =>
      match parse_digits r 0 false with Some n => Ok (- n) | None => bad end
  | r =>
      match parse_digits r 0 false with Some n => Ok n | None => bad end
  end.

(** [str(n)] for an [int]. *)
Definition str (n : Z) : string := NilZero.string_of_int (Z.to_int n).

(** [c.lower()] on an ASCII character. *)
Definition lower_char (c : ascii) : ascii :=
  let n := nat_of_ascii c in
  if ((65 <=? n) && (n <=? 90))%nat then ascii_of_nat (n + 32) else c.

(** [s.lower()] *)
Fixpoint lower (s : string) : string :=
  match s with
  | EmptyString => EmptyString
  | String c r => String (lower_char c) (lower r)
  end.

(** [s.startswith(p)] *)
Fixpoint startswith (p s : string) : bool :=
  match p, s with
  | EmptyString, _ => true
  | String _ _, EmptyString => false
  | String a p', String b s' => Ascii.eqb a b && startswith p' s'
  end.

(** [sub in s] *)
Fixpoint contains (sub s : string) : bool :=
  startswith sub s
  || match s with
     | EmptyString => false
     | String _ r => contains sub r
     end.


(** The text on which the functions above are Python's: ASCII, and no
    longer than the number of digits [int] converts (4300). *)
Fixpoint is_ascii (s : string) : bool :=
  match s with
  | EmptyString => true
  | String c r => (nat_of_ascii c <? 128)%nat && is_ascii r
  end.

Definition MAX_STR_DIGITS : nat := 4300.

Definition plain (s : string) : bool :=
  is_ascii s && (String.length s <=? MAX_STR_DIGITS)%nat.
End Py.

(** ** Email communication: the data model ([models.py]) *)

Module Email.

(** Rows of [email_costcenter]. *)
Record CostCenter : Type := {
  cc_id : Z;
  cost_center_code : string;
  cc_is_active : bool
}.

(** Rows of [email_costcenter_email]; [cce_email_type] is ['recipient']
    or ['cc']. *)
Record CostCenterEmail : Type := {
  cce_cost_center : Z;
  cce_email : string;
  cce_email_type : string
}.

(** Rows of the user table, as far as the service reads them. *)
Record User : Type := {
  user_id : Z;
  user_email : string
}.

Record EmailTemplate : Type := {
  tmpl_id : Z;
  tmpl_name : string
}.

Record EmailDraft : Type := {
  draft_pk : Z;
  draft_user : Z;
  draft_template : option Z;
  draft_send_type : string;
  draft_subject : string;
  draft_body_html : string;
  cost_center_ids : option string;
  draft_name : option string;
  draft_is_deleted : bool
}.

Record EmailLog : Type := {
  log_id : Z;
  log_user : option Z;
  log_cost_center : option Z;
  log_template : option Z;
  log_draft : option Z;
  log_send_type : string;
  email_type : string;
  log_subject : string;
  log_body_html : string;
  recipient_emails : string;
  cc_emails : option string;
  email_status : string;
  email_error : option string
}.

(** Rows of [email_recipient_view]; [read_at] is a timestamp. *)
Record EmailRecipientView : Type := {
  rv_id : Z;
  rv_email_log : Z;
  recipient_user : Z;
  is_to : bool;
  is_read : bool;
  read_at : option Z;
  is_starred : bool;
  is_archived : bool
}.

(** *** Model methods *)

(** [EmailDraft.get_cost_center_list] *)
Fixpoint parse_ids (parts : list string) : Result (list Z) :=
  match parts with
  | [] => Ok []
  | id :: rest =>
      if Py.truthy (Py.strip id) then
        match Py.int (Py.strip id) with
        | Raise e => Raise e
        | Ok n =>
            match parse_ids rest with
            | Raise e => Raise e
            | Ok ns => Ok (n :: ns)
            end
        end
      else parse_ids rest
  end.

Definition get_cost_center_list (self : EmailDraft) : Result (list Z) :=
  match cost_center_ids self with
  | None => Ok []
  | Some s =>
      if negb (Py.truthy s) then Ok []
      else parse_ids (Py.split "," s)
  end.

(** [EmailDraft.set_cost_center_list] *)
Definition set_cost_center_list (self : EmailDraft) (ids : list Z) : EmailDraft :=
  {| draft_pk := draft_pk self;
     draft_user := draft_user self;
     draft_template := draft_template self;
     draft_send_type := draft_send_type self;
     draft_subject := draft_subject self;
     draft_body_html := draft_body_html self;
     cost_center_ids := Some (Py.join "," (map Py.str ids));
     draft_name := draft_name self;
     draft_is_deleted := draft_is_deleted self |}.

(** [EmailLog.get_recipient_list] *)
Definition get_recipient_list (self : EmailLog) : list string :=
  if negb (Py.truthy (recipient_emails self)) then []
  else filter Py.truthy (map Py.strip (Py.split "," (recipient_emails self))).

(** [EmailLog.set_recipient_list] *)
Definition set_recipient_list (self : EmailLog) (emails : list string) : EmailLog :=
  {| log_id := log_id self;
     log_user := log_user self;
     log_cost_center := log_cost_center self;
     log_template := log_template self;
     log_draft := log_draft self;
     log_send_type := log_send_type self;
     email_type := email_type self;
     log_subject := log_subject self;
     log_body_html := log_body_html self;
     recipient_emails := Py.join "," emails;
     cc_emails := cc_emails self;
     email_status := email_status self;
     email_error := email_error self |}.

(** The row [self] with [is_read] and [read_at] assigned. *)
Definition set_read (self : EmailRecipientView) (r : bool) (at_ : option Z)
  : EmailRecipientView :=
  {| rv_id := rv_id self;
     rv_email_log := rv_email_log self;
     recipient_user := recipient_user self;
     is_to := is_to self;
     is_read := r;
     read_at := at_;
     is_starred := is_starred self;
     is_archived := is_archived self |}.

(** *** The database and the monad of the service layer *)

Record DB : Type := {
  cost_centers : list CostCenter;
  cost_center_emails : list CostCenterEmail;
  users : list User;
  email_templates : list EmailTemplate;
  email_drafts : list EmailDraft;
  email_logs : list EmailLog;
  recipient_views : list EmailRecipientView;
  next_log_id : Z;
  next_view_id : Z
}.

(** A message handed to the mail backend.  The HTML alternative that
    [_send_actual_email] attaches is [wrap_html_with_rtl body_html], a
    function of [msg_body], and is not kept as a field. *)
Record EmailMessage : Type := {
  msg_subject : string;
  msg_body : string;
  msg_from_email : string;
  msg_to : list string;
  msg_cc : option (list string)
}.

(** The state a service call runs in: the database, and the messages
    handed to the mail backend so far (a rollback does not unsend). *)
Record World : Type := {
  database : DB;
  mail_attempts : list EmailMessage
}.

(** A computation of the service layer: from a state to the state it
    leaves and the value it returns or the exception it raises. *)
Definition M (A : Type) : Type := World -> World * Result A.

Definition ret {A} (a : A) : M A := fun w => (w, Ok a).

Definition bind {A B} (c : M A) (k : A -> M B) : M B :=
  fun w =>
    match c w with
    | (w', Ok a) => k a w'
    | (w', Raise e) => (w', Raise e)
    end.

(** [raise e] *)
Definition raise {A} (e : Exception) : M A := fun w => (w, Raise e).

(** [try: body except Exception as e: handler(e)] *)
Definition try_except {A} (body : M A) (handler : Exception -> M A) : M A :=
  fun w =>
    match body w with
    | (w', Ok a) => (w', Ok a)
    | (w', Raise e) => handler e w'
    end.

(** [with transaction.atomic(): body]: an exception leaving the block
    restores the database of the block's entry and propagates. *)
Definition atomic {A} (body : M A) : M A :=
  fun w =>
    match body w with
    | (w', Ok a) => (w', Ok a)
    | (w', Raise e) =>
        ({| database := database w; mail_attempts := mail_attempts w' |}, Raise e)
    end.

(** Evaluate a query on the current database. *)
Definition query {A} (q : DB -> A) : M A := fun w => (w, Ok (q (database w))).

(** Evaluate a query the database may refuse. *)
Definition fetch {A} (q : DB -> Result A) : M A := fun w => (w, q (database w)).

Declare Scope py_scope.
Notation "x <- c ;; k" := (bind c (fun x => k))
  (at level 61, c at next level, right associativity) : py_scope.
Notation "c ;; k" := (bind c (fun _ => k))
  (at level 61, right associativity) : py_scope.
Local Open Scope py_scope.

(** [for x in l: body(x)] *)
Fixpoint for_each {A} (l : list A) (body : A -> M unit) : M unit :=
  match l with
  | [] => ret tt
  | x :: rest => body x ;; for_each rest body
  end.

(** Truthiness of a list and of an optional integer. *)
Definition nonempty {A} (l : list A) : bool :=
  match l with [] => false | _ :: _ => true end.

Definition truthy_id (i : option Z) : bool :=
  match i with None => false | Some n => negb (n =? 0) end.

Definition str_in (e : string) (l : list string) : bool :=
  existsb (String.eqb e) l.

Definition id_in (i : Z) (l : list Z) : bool := existsb (Z.eqb i) l.

(** *** Table updates *)

Definition with_email_logs (d : DB) (logs : list EmailLog) (next : Z) : DB :=
  {| cost_centers := cost_centers d;
     cost_center_emails := cost_center_emails d;
     users := users d;
     email_templates := email_templates d;
     email_drafts := email_drafts d;
     email_logs := logs;
     recipient_views := recipient_views d;
     next_log_id := next;
     next_view_id := next_view_id d |}.

Definition with_recipient_views (d : DB) (views : list EmailRecipientView) (next : Z)
  : DB :=
  {| cost_centers := cost_centers d;
     cost_center_emails := cost_center_emails d;
     users := users d;
     email_templates := email_templates d;
     email_drafts := email_drafts d;
     email_logs := email_logs d;
     recipient_views := views;
     next_log_id := next_log_id d;
     next_view_id := next |}.

Definition with_database (w : World) (d : DB) : World :=
  {| database := d; mail_attempts := mail_attempts w |}.

(** *** Managers and queries ([managers.py]) *)

(** [CostCenter.objects.active()] *)
Definition active (d : DB) : list CostCenter :=
  filter cc_is_active (cost_centers d).

(** The integers of the database: 64 bits, signed. *)
Definition DB_INT_MAX : Z := 2 ^ 63 - 1.

Definition db_int (i : Z) : bool := (- 2 ^ 63 <=? i) && (i <=? DB_INT_MAX).

(** What the driver raises when asked to bind an integer outside
    them. *)
Definition id_overflow : Exception :=
  OverflowError "Python int too large to convert to SQLite INTEGER".

(** [CostCenter.objects.filter(id__in=ids, is_active=True)], when the
    queryset is evaluated: every id is bound as a parameter of the
    query, and the driver raises on one it cannot bind. *)
Definition filter_id_in_active (ids : list Z) (d : DB) : Result (list CostCenter) :=
  if forallb db_int ids
  then Ok (filter (fun c => id_in (cc_id c) ids && cc_is_active c) (cost_centers d))
  else Raise id_overflow.

(** [CostCenter.get_recipient_emails] *)
Definition get_recipient_emails (d : DB) (self : CostCenter) : list string :=
  map cce_email
    (filter (fun e => (cce_cost_center e =? cc_id self)
                      && String.eqb (cce_email_type e) "recipient")
       (cost_center_emails d)).

(** [CostCenter.get_cc_emails] *)
Definition get_cc_emails (d : DB) (self : CostCenter) : list string :=
  map cce_email
    (filter (fun e => (cce_cost_center e =? cc_id self)
                      && String.eqb (cce_email_type e) "cc")
       (cost_center_emails d)).

(** [User.objects.filter(email__in=emails)] *)
Definition users_with_email_in (emails : list string) (d : DB) : list User :=
  filter (fun u => str_in (user_email u) emails) (users d).

(** [EmailTemplate.objects.get(id=i)], [None] for [DoesNotExist]. *)
Definition get_template (i : Z) (d : DB) : option EmailTemplate :=
  find (fun t => tmpl_id t =? i) (email_templates d).

(** [EmailDraft.objects.get(id=i, user=user)] through the manager that
    hides soft-deleted drafts, [None] for [DoesNotExist]. *)
Definition get_draft (i : Z) (user : User) (d : DB) : option EmailDraft :=
  find (fun x => negb (draft_is_deleted x)
                 && (draft_pk x =? i) && (draft_user x =? user_id user))
    (email_drafts d).

(** [EmailRecipientView.objects.filter(email_log=l, recipient_user=u).exists()] *)
Definition view_exists (l : Z) (u : Z) (d : DB) : bool :=
  existsb (fun v => (rv_email_log v =? l) && (recipient_user v =? u))
    (recipient_views d).

(** [EmailLog.objects.create(...)]: the row gets the next primary key. *)
Definition EmailLog_create (user : User) (cost_center : option CostCenter)
    (template : option EmailTemplate) (draft : option EmailDraft)
    (send_type etype subject body_html recipients : string) (cc : option string)
    (status : string) (error : option string) : M EmailLog :=
  fun w =>
    let d := database w in
    let row :=
      {| log_id := next_log_id d;
         log_user := Some (user_id user);
         log_cost_center := option_map cc_id cost_center;
         log_template := option_map tmpl_id template;
         log_draft := option_map draft_pk draft;
         log_send_type := send_type;
         email_type := etype;
         log_subject := subject;
         log_body_html := body_html;
         recipient_emails := recipients;
         cc_emails := cc;
         email_status := status;
         email_error := error |} in
    (with_database w (with_email_logs d (email_logs d ++ [row]) (next_log_id d + 1)),
     Ok row).

(** [EmailRecipientView.objects.create(...)]: [unique_together] on
    (email_log, recipient_user) makes a second row for a pair an
    [IntegrityError]. *)
Definition EmailRecipientView_create (email_log : EmailLog) (user : User)
    (to : bool) (read : bool) : M EmailRecipientView :=
  fun w =>
    let d := database w in
    if view_exists (log_id email_log) (user_id user) d then
      (w, Raise (IntegrityError "UNIQUE constraint failed: email_recipient_view"))
    else
      let row :=
        {| rv_id := next_view_id d;
           rv_email_log := log_id email_log;
           recipient_user := user_id user;
           is_to := to;
           is_read := read;
           read_at := None;
           is_starred := false;
           is_archived := false |} in
      (with_database w
         (with_recipient_views d (recipient_views d ++ [row]) (next_view_id d + 1)),
       Ok row).

(** [self.save(update_fields=['is_read', 'read_at'])]: writes the two
    columns of the row with the object's primary key; Django raises
    [DatabaseError] when no row was updated. *)
Definition save_read_fields (self : EmailRecipientView) : M unit :=
  fun w =>
    let d := database w in
    if existsb (fun v => rv_id v =? rv_id self) (recipient_views d) then
      (with_database w
         (with_recipient_views d
            (map (fun v => if rv_id v =? rv_id self
                           then set_read v (is_read self) (read_at self)
                           else v)
               (recipient_views d))
            (next_view_id d)),
       Ok tt)
    else
      (w, Raise (DatabaseError "Save with update_fields did not affect any rows.")).

(** [EmailRecipientView.mark_as_read], called at time [now].  The first
    component is the Python object after the call, the second the
    effect of the call on the database. *)
Definition mark_as_read (now : Z) (self : EmailRecipientView)
  : EmailRecipientView * M unit :=
  if negb (is_read self) then
    let self' := set_read self true (Some now) in
    (self', save_read_fields self')
  else (self, ret tt).

(** [EmailLog.get_cc_list] *)
Definition get_cc_list (self : EmailLog) : list string :=
  match cc_emails self with
  | None => []
  | Some s =>
      if negb (Py.truthy s) then []
      else filter Py.truthy (map Py.strip (Py.split "," s))
  end.

(** [EmailLog.set_cc_list] *)
Definition set_cc_list (self : EmailLog) (emails : list string) : EmailLog :=
  {| log_id := log_id self;
     log_user := log_user self;
     log_cost_center := log_cost_center self;
     log_template := log_template self;
     log_draft := log_draft self;
     log_send_type := log_send_type self;
     email_type := email_type self;
     log_subject := log_subject self;
     log_body_html := log_body_html self;
     recipient_emails := recipient_emails self;
     cc_emails := Some (Py.join "," emails);
     email_status := email_status self;
     email_error := email_error self |}.

(** The row [self] with [is_starred] assigned. *)
Definition set_starred (self : EmailRecipientView) (b : bool) : EmailRecipientView :=
  {| rv_id := rv_id self;
     rv_email_log := rv_email_log self;
     recipient_user := recipient_user self;
     is_to := is_to self;
     is_read := is_read self;
     read_at := read_at self;
     is_starred := b;
     is_archived := is_archived self |}.

(** The row [self] with [is_archived] assigned. *)
Definition set_archived (self : EmailRecipientView) (b : bool) : EmailRecipientView :=
  {| rv_id := rv_id self;
     rv_email_log := rv_email_log self;
     recipient_user := recipient_user self;
     is_to := is_to self;
     is_read := is_read self;
     read_at := read_at self;
     is_starred := is_starred self;
     is_archived := b |}.

(** [self.save(update_fields=[...])] in general: [write] copies the
    named columns of [self] into the stored row of the same primary
    key; Django raises [DatabaseError] when no row was updated. *)
Definition save_update_fields
    (write : EmailRecipientView -> EmailRecipientView -> EmailRecipientView)
    (self : EmailRecipientView) : M unit :=
  fun w =>
    let d := database w in
    if existsb (fun v => rv_id v =? rv_id self) (recipient_views d) then
      (with_database w
         (with_recipient_views d
            (map (fun v => if rv_id v =? rv_id self then write self v else v)
               (recipient_views d))
            (next_view_id d)),
       Ok tt)
    else
      (w, Raise (DatabaseError "Save with update_fields did not affect any rows.")).

(** [EmailRecipientView.toggle_starred]: the object after the call and
    the effect on the database. *)
Definition toggle_starred (self : EmailRecipientView)
  : EmailRecipientView * M unit :=
  let self' := set_starred self (negb (is_starred self)) in
  (self', save_update_fields (fun o v => set_starred v (is_starred o)) self').

(** [EmailRecipientView.toggle_archived] *)
Definition toggle_archived (self : EmailRecipientView)
  : EmailRecipientView * M unit :=
  let self' := set_archived self (negb (is_archived self)) in
  (self', save_update_fields (fun o v => set_archived v (is_archived o)) self').

(** *** More managers ([managers.py]) *)

(** A queryset is given by the rows it selects, listed as the table
    holds them; the order in which the database returns them (the
    [ordering] of the model's [Meta], by time stamp) is left out, and
    what is proved of these querysets is about membership and
    counts. *)

(** [EmailRecipientViewManager.inbox_for_user] *)
Definition inbox_for_user (user : User) (d : DB) : list EmailRecipientView :=
  filter (fun v => (recipient_user v =? user_id user) && negb (is_archived v))
    (recipient_views d).

(** [EmailRecipientViewManager.unread_for_user] *)
Definition unread_for_user (user : User) (d : DB) : list EmailRecipientView :=
  filter (fun v => (recipient_user v =? user_id user)
                   && negb (is_read v) && negb (is_archived v))
    (recipient_views d).

(** [EmailRecipientViewManager.starred_for_user] *)
Definition starred_for_user (user : User) (d : DB) : list EmailRecipientView :=
  filter (fun v => (recipient_user v =? user_id user)
                   && is_starred v && negb (is_archived v))
    (recipient_views d).

(** [EmailRecipientViewManager.archived_for_user] *)
Definition archived_for_user (user : User) (d : DB) : list EmailRecipientView :=
  filter (fun v => (recipient_user v =? user_id user) && is_archived v)
    (recipient_views d).

(** [EmailRecipientViewManager.unread_count] *)
Definition unread_count (user : User) (d : DB) : Z :=
  Z.of_nat (List.length (unread_for_user user d)).

(** A nullable foreign key equals the given key. *)
Definition fk_is (fk : option Z) (k : Z) : bool :=
  match fk with Some i => i =? k | None => false end.

(** [EmailLogManager.sent_by_user] *)
Definition sent_by_user (user : User) (d : DB) : list EmailLog :=
  filter (fun l => fk_is (log_user l) (user_id user)
                   && String.eqb (email_type l) "SENT")
    (email_logs d).

(** [EmailDraftManager.get_queryset]: soft-deleted drafts are hidden. *)
Definition drafts_queryset (d : DB) : list EmailDraft :=
  filter (fun x => negb (draft_is_deleted x)) (email_drafts d).

(** [EmailDraftManager.for_user] *)
Definition for_user (user : User) (d : DB) : list EmailDraft :=
  filter (fun x => (draft_user x =? user_id user) && negb (draft_is_deleted x))
    (drafts_queryset d).

(** *** The email service ([services.py]) *)

(** One entry of ['details']: the dict [_send_to_cost_center] returns. *)
Record CostCenterResult : Type := {
  r_success : bool;
  r_cost_center : string;
  r_error : option string;
  r_recipients_count : option Z;
  r_log_id : option Z
}.

(** The dict [send_email] returns: either [success: False] with an
    ['error'], or the summary of the per-cost-center loop. *)
Record Summary : Type := {
  success : bool;
  sent_count : Z;
  failed_count : Z;
  total_cost_centers : Z;
  details : list CostCenterResult;
  sent_log_id : option Z
}.

Inductive SendResult : Type :=
| Failure (error : string)
| Sent (summary : Summary).

Definition failed_result (cc : CostCenter) (err : string) : CostCenterResult :=
  {| r_success := false;
     r_cost_center := cost_center_code cc;
     r_error := Some err;
     r_recipients_count := None;
     r_log_id := None |}.

Section Service.

(** [settings.DEFAULT_FROM_EMAIL] *)
Variable DEFAULT_FROM_EMAIL : string.

(** The mail backend: given the messages attempted so far and the
    message, whether [msg.send()] returns ([true]) or raises. *)
Variable backend : list EmailMessage -> EmailMessage -> bool.

(** [EmailService._send_actual_email] *)
Definition _send_actual_email (subject body_html : string)
    (to_emails cc_emails : list string) (from_email : string) : M bool :=
  fun w =>
    let msg :=
      {| msg_subject := subject;
         msg_body := body_html;
         msg_from_email := from_email;
         msg_to := to_emails;
         msg_cc := if nonempty cc_emails then Some cc_emails else None |} in
    ({| database := database w; mail_attempts := mail_attempts w ++ [msg] |},
     Ok (backend (mail_attempts w) msg)).

(** [EmailService._create_recipient_tracking] *)
Definition _create_recipient_tracking (email_log : EmailLog)
    (to_emails cc_emails : list string) : M unit :=
  to_users <- query (users_with_email_in to_emails) ;;
  cc_users <- (if nonempty cc_emails
               then query (users_with_email_in cc_emails)
               else ret []) ;;
  for_each to_users (fun user =>
    EmailRecipientView_create email_log user true false ;; ret tt) ;;
  for_each cc_users (fun user =>
    dup <- query (view_exists (log_id email_log) (user_id user)) ;;
    if negb dup
    then EmailRecipientView_create email_log user false false ;; ret tt
    else ret tt).

(** [EmailService._send_to_cost_center] *)
Definition _send_to_cost_center (user : User) (cost_center : CostCenter)
    (send_type subject body_html : string)
    (template : option EmailTemplate) (draft : option EmailDraft)
  : M CostCenterResult :=
  try_except
    (to_emails <- query (fun d => get_recipient_emails d cost_center) ;;
     cc_emails <- query (fun d => get_cc_emails d cost_center) ;;
     if negb (nonempty to_emails) then
       ret (failed_result cost_center "No users in cost center")
     else
       email_sent <- _send_actual_email subject body_html to_emails cc_emails
                       DEFAULT_FROM_EMAIL ;;
       received_log <- EmailLog_create user (Some cost_center) template draft
                         send_type "RECEIVED" subject body_html
                         (Py.join "," to_emails)
                         (if nonempty cc_emails
                          then Some (Py.join "," cc_emails) else None)
                         (if email_sent then "SUCCESS" else "FAILED")
                         (if email_sent then None
                          else Some "Email sending failed") ;;
       (if email_sent
        then _create_recipient_tracking received_log to_emails cc_emails
        else ret tt) ;;
       ret {| r_success := email_sent;
              r_cost_center := cost_center_code cost_center;
              r_error := None;
              r_recipients_count := Some (Z.of_nat (List.length to_emails));
              r_log_id := Some (log_id received_log) |})
    (fun e => ret (failed_result cost_center (exception_str e))).

(** [EmailService._create_sent_log] *)
Definition _create_sent_log (user : User) (send_type subject body_html : string)
    (cost_centers : list CostCenter)
    (template : option EmailTemplate) (draft : option EmailDraft)
    (status : string) (error : option string) : M EmailLog :=
  all_to_emails <- query (fun d => flat_map (get_recipient_emails d) cost_centers) ;;
  all_cc_emails <- query (fun d => flat_map (get_cc_emails d) cost_centers) ;;
  EmailLog_create user None template draft send_type "SENT" subject body_html
    (Py.join "," all_to_emails)
    (if nonempty all_cc_emails then Some (Py.join "," all_cc_emails) else None)
    status error.

(** The head of [send_email]: the cost centers addressed by
    [send_type], or the error the call returns instead; the query for
    the listed ids raises when the database refuses an id. *)
Definition determine_targets (send_type : string)
    (cost_center_ids : option (list Z)) (d : DB)
  : Result (string + list CostCenter) :=
  if String.eqb send_type "ANNOUNCEMENT" then Ok (inr (active d))
  else if String.eqb send_type "SPECIFIC" then
    match cost_center_ids with
    | Some ids =>
        if nonempty ids then
          match filter_id_in_active ids d with
          | Ok cost_centers => Ok (inr cost_centers)
          | Raise e => Raise e
          end
        else Ok (inl "Cost center IDs required for SPECIFIC send type")
    | None => Ok (inl "Cost center IDs required for SPECIFIC send type")
    end
  else Ok (inl "Invalid send type").

(** The loop [for cost_center in cost_centers] of [send_email], with
    its two locals [results] and [sent_log]. *)
Fixpoint send_loop (user : User) (send_type subject body_html : string)
    (template : option EmailTemplate) (draft : option EmailDraft)
    (cost_centers remaining : list CostCenter)
    (results : list CostCenterResult) (sent_log : option EmailLog)
  : M (list CostCenterResult * option EmailLog) :=
  match remaining with
  | [] => ret (results, sent_log)
  | cost_center :: rest =>
      result <- _send_to_cost_center user cost_center send_type subject
                  body_html template draft ;;
      sent_log' <- match sent_log with
                   | None =>
                       l <- _create_sent_log user send_type subject body_html
                              cost_centers template draft
                              (if r_success result then "SUCCESS" else "FAILED")
                              (r_error result) ;;
                       ret (Some l)
                   | Some l => ret (Some l)
                   end ;;
      send_loop user send_type subject body_html template draft
        cost_centers rest (results ++ [result]) sent_log'
  end.

(** [EmailService.send_email] *)
Definition send_email (user : User) (send_type subject body_html : string)
    (cost_center_ids : option (list Z)) (template_id draft_id : option Z)
  : M SendResult :=
  try_except
    (atomic
       (targets <- fetch (determine_targets send_type cost_center_ids) ;;
        match targets with
        | inl err => ret (Failure err)
        | inr cost_centers =>
            if negb (nonempty cost_centers) then
              ret (Failure "No active cost centers found")
            else
              template <- match template_id with
                          | Some i =>
                              if truthy_id template_id
                              then query (get_template i) else ret None
                          | None => ret None
                          end ;;
              draft <- match draft_id with
                       | Some i =>
                           if truthy_id draft_id
                           then query (get_draft i user) else ret None
                       | None => ret None
                       end ;;
              out <- send_loop user send_type subject body_html template draft
                       cost_centers cost_centers [] None ;;
              let results := fst out in
              let sent_log := snd out in
              let successful := Z.of_nat (List.length (filter r_success results)) in
              let failed := Z.of_nat (List.length results) - successful in
              ret (Sent {| success := 0 <? successful;
                           sent_count := successful;
                           failed_count := failed;
                           total_cost_centers := Z.of_nat (List.length results);
                           details := results;
                           sent_log_id := option_map log_id sent_log |})
        end))
    (fun e => ret (Failure (exception_str e))).

(** *** The rest of the service *)

Definition dq : string := String (ascii_of_nat 34) EmptyString.
Definition nl : string := String (ascii_of_nat 10) EmptyString.

(** The text [wrap_html_with_rtl] puts before and after the body. *)
Definition RTL_HEAD : string :=
  String.concat EmptyString
    [ "<html dir="; dq; "rtl"; dq; ">"; nl;
      "<head>"; nl;
      "<meta http-equiv="; dq; "Content-Type"; dq;
      " content="; dq; "text/html; charset=utf-8"; dq; ">"; nl;
      "<style type="; dq; "text/css"; dq; ">"; nl;
      "body { direction: rtl; }"; nl;
      "</style>"; nl;
      "</head>"; nl;
      "<body text="; dq; "#404040"; dq; " lang="; dq; "EN-US"; dq;
      " link="; dq; "blue"; dq; " vlink="; dq; "purple"; dq;
      " style="; dq; "word-wrap:break-word; direction:rtl;"; dq; ">"; nl;
      "<div class="; dq; "WordSection1"; dq; " dir="; dq; "rtl"; dq; ">"; nl ].

Definition RTL_TAIL : string :=
  String.concat EmptyString [ nl; "</div>"; nl; "</body>"; nl; "</html>" ].

(** [wrap_html_with_rtl] *)
Definition wrap_html_with_rtl (body_html : string) : string :=
  if Py.contains "<html" (Py.lower body_html) then body_html
  else RTL_HEAD ++ body_html ++ RTL_TAIL.

(** The dict [save_draft] returns. *)
Inductive DraftResult : Type :=
| DraftFailure (error : string)
| DraftSaved (draft : EmailDraft).

Definition with_email_drafts (d : DB) (drafts : list EmailDraft) : DB :=
  {| cost_centers := cost_centers d;
     cost_center_emails := cost_center_emails d;
     users := users d;
     email_templates := email_templates d;
     email_drafts := drafts;
     email_logs := email_logs d;
     recipient_views := recipient_views d;
     next_log_id := next_log_id d;
     next_view_id := next_view_id d |}.

(** [EmailDraft.objects.create(...)]; [pk] is the key the database
    assigns to the new row. *)
Definition EmailDraft_create (pk : Z) (user : User)
    (template : option EmailTemplate)
    (send_type subject body_html : string) (name : option string)
  : M EmailDraft :=
  fun w =>
    let d := database w in
    let row :=
      {| draft_pk := pk;
         draft_user := user_id user;
         draft_template := option_map tmpl_id template;
         draft_send_type := send_type;
         draft_subject := subject;
         draft_body_html := body_html;
         cost_center_ids := None;
         draft_name := name;
         draft_is_deleted := false |} in
    (with_database w (with_email_drafts d (email_drafts d ++ [row])), Ok row).

(** [draft.save()]: the stored row of the same key is overwritten, and
    the row is inserted when there is none. *)
Definition EmailDraft_save (self : EmailDraft) : M unit :=
  fun w =>
    let d := database w in
    if existsb (fun x => draft_pk x =? draft_pk self) (email_drafts d) then
      (with_database w
         (with_email_drafts d
            (map (fun x => if draft_pk x =? draft_pk self then self else x)
               (email_drafts d))),
       Ok tt)
    else
      (with_database w (with_email_drafts d (email_drafts d ++ [self])), Ok tt).

(** The assignments [save_draft] makes to a draft it updates. *)
Definition assign_draft (draft : EmailDraft) (send_type subject body_html : string)
    (template : option EmailTemplate) (name : option string) : EmailDraft :=
  {| draft_pk := draft_pk draft;
     draft_user := draft_user draft;
     draft_template := option_map tmpl_id template;
     draft_send_type := send_type;
     draft_subject := subject;
     draft_body_html := body_html;
     cost_center_ids := cost_center_ids draft;
     draft_name := name;
     draft_is_deleted := draft_is_deleted draft |}.

(** [if cost_center_ids: draft.set_cost_center_list(cost_center_ids)] *)
Definition set_ids_if_given (draft : EmailDraft) (ids : option (list Z)) : EmailDraft :=
  match ids with
  | Some l => if nonempty l then set_cost_center_list draft l else draft
  | None => draft
  end.

(** [EmailService.save_draft]; [new_pk] is the key the database would
    assign to a new draft. *)
Definition save_draft (new_pk : Z) (user : User)
    (send_type subject body_html : string)
    (ids : option (list Z)) (template_id : option Z)
    (name : option string) (draft_id : option Z) : M DraftResult :=
  try_except
    (template <- match template_id with
                 | Some i =>
                     if truthy_id template_id
                     then query (get_template i) else ret None
                 | None => ret None
                 end ;;
     existing <- match draft_id with
                 | Some i =>
                     if truthy_id draft_id
                     then found <- query (get_draft i user) ;; ret (Some found)
                     else ret None
                 | None => ret None
                 end ;;
     match existing with
     | Some None => ret (DraftFailure "Draft not found")
     | Some (Some draft) =>
         let draft := assign_draft draft send_type subject body_html template name in
         let draft := set_ids_if_given draft ids in
         EmailDraft_save draft ;;
         ret (DraftSaved draft)
     | None =>
         draft <- EmailDraft_create new_pk user template send_type subject
                    body_html name ;;
         match ids with
         | Some l =>
             if nonempty l then
               let draft := set_cost_center_list draft l in
               EmailDraft_save draft ;;
               ret (DraftSaved draft)
             else ret (DraftSaved draft)
         | None => ret (DraftSaved draft)
         end
     end)
    (fun e => ret (DraftFailure (exception_str e))).

(** The [overrides] dict of [send_from_draft]: each key may be absent. *)
Record Overrides : Type := {
  ov_subject : option string;
  ov_body_html : option string
}.

(** [overrides.get(key, default) if overrides else default] *)
Definition override (overrides : option Overrides)
    (key : Overrides -> option string) (default : string) : string :=
  match overrides with
  | Some o => match key o with Some s => s | None => default end
  | None => default
  end.

(** A value or exception of pure code, as a computation. *)
Definition lift {A} (r : Result A) : M A := fun w => (w, r).

(** [EmailService.send_from_draft] *)
Definition send_from_draft (user : User) (draft_id : Z)
    (overrides : option Overrides) : M SendResult :=
  try_except
    (found <- query (get_draft draft_id user) ;;
     match found with
     | None => ret (Failure "Draft not found")
     | Some draft =>
         let subject := override overrides ov_subject (draft_subject draft) in
         let body_html := override overrides ov_body_html (draft_body_html draft) in
         ids <- (if String.eqb (draft_send_type draft) "SPECIFIC"
                 then l <- lift (get_cost_center_list draft) ;; ret (Some l)
                 else ret None) ;;
         send_email user (draft_send_type draft) subject body_html ids
           (draft_template draft) (Some (draft_pk draft))
     end)
    (fun e => ret (Failure (exception_str e))).

End Service.

End Email.

(** ** The API views ([views.py]) and the send serializer *)

Module Views.
Import Email.
Local Open Scope py_scope.

(** [queryset[start:stop]], when the rows are read.  Django refuses a
    negative bound; a slice that ends where it starts, or before, is
    empty and no query is made; otherwise the query asks for
    [stop - start] rows from offset [start], which the database
    refuses when either number is beyond its integers, and answers
    with the rows from offset [start] up to, not including, offset
    [stop]. *)
Definition slice {A} (start stop : Z) (queryset : list A) : Result (list A) :=
  if (start <? 0) || (stop <? 0)
  then Raise (ValueError "Negative indexing is not supported.")
  else if stop <=? start then Ok []
  else if (DB_INT_MAX <? stop - start) || (DB_INT_MAX <? start)
  then Raise (IntegrityError "datatype mismatch")
  else Ok (firstn (Z.to_nat (stop - start)) (skipn (Z.to_nat start) queryset)).

(** [int(request.query_params.get(name, default))] *)
Definition int_param (value : option string) (default : Z) : Result Z :=
  match value with
  | None => Ok default
  | Some s => Py.int s
  end.

(** The body of a paginated response, before serialization. *)
Record Page (A : Type) : Type := {
  count : Z;
  page : Z;
  page_size : Z;
  results : list A
}.
Arguments count {A} _.
Arguments page {A} _.
Arguments page_size {A} _.
Arguments results {A} _.

(** The pagination block shared by [InboxView], [OutboxView] and
    [TransactionsView]. *)
Definition paginate {A} (page_param page_size_param : option string)
    (queryset : list A) : Result (Page A) :=
  match int_param page_param 1 with
  | Raise e => Raise e
  | Ok page =>
      match int_param page_size_param 6 with
      | Raise e => Raise e
      | Ok page_size =>
          let start := (page - 1) * page_size in
          let stop := start + page_size in
          let total_count := Z.of_nat (List.length queryset) in
          match slice start stop queryset with
          | Raise e => Raise e
          | Ok results =>
              Ok {| count := total_count; page := page;
                    page_size := page_size; results := results |}
          end
      end
  end.

(** What a detail view answers. *)
Inductive Response (A : Type) : Type :=
| Http404
| Http200 (body : A).
Arguments Http404 {A}.
Arguments Http200 {A} body.

(** [get_object_or_404(EmailRecipientView, pk=pk, recipient_user=user)] *)
Definition get_recipient_view (pk : Z) (user : User) (d : DB)
  : option EmailRecipientView :=
  find (fun v => (rv_id v =? pk) && (recipient_user v =? user_id user))
    (recipient_views d).

(** [MarkEmailReadView.post] and the marking step of
    [InboxDetailView.get], at time [now]; the body is the row object
    after the call. *)
Definition mark_email_read_view (now : Z) (user : User) (pk : Z)
  : M (Response EmailRecipientView) :=
  found <- query (get_recipient_view pk user) ;;
  match found with
  | None => ret Http404
  | Some recipient_view =>
      snd (mark_as_read now recipient_view) ;;
      ret (Http200 (fst (mark_as_read now recipient_view)))
  end.

(** [ToggleStarView.post]; the body is ['is_starred']. *)
Definition toggle_star_view (user : User) (pk : Z) : M (Response bool) :=
  found <- query (get_recipient_view pk user) ;;
  match found with
  | None => ret Http404
  | Some recipient_view =>
      snd (toggle_starred recipient_view) ;;
      ret (Http200 (is_starred (fst (toggle_starred recipient_view))))
  end.

(** [ToggleArchiveView.post]; the body is ['is_archived']. *)
Definition toggle_archive_view (user : User) (pk : Z) : M (Response bool) :=
  found <- query (get_recipient_view pk user) ;;
  match found with
  | None => ret Http404
  | Some recipient_view =>
      snd (toggle_archived recipient_view) ;;
      ret (Http200 (is_archived (fst (toggle_archived recipient_view))))
  end.






Section SendView.

Variable DEFAULT_FROM_EMAIL : string.
Variable backend : list EmailMessage -> EmailMessage -> bool.


End SendView.

End Views.

(** ** Conditional questions ([surveys]) *)

Module Surveys.

(** Modelled from the spec: the [Question] model of [surveys/models.py],
    which is not among the sources; the fields are the ones the tests
    of [tests_conditional.py] set and the validation reads. *)
Record Question : Type := {
  question_id : Z;
  survey : Z;
  question_type : string;
  order : Z
}.

(** Modelled from the spec: the [QuestionCondition] model of
    [surveys/models.py], which is not among the sources; the fields
    are the constructor arguments used in [tests_conditional.py]. *)
Record QuestionCondition : Type := {
  trigger_question : Question;
  trigger_answer_value : string;
  dependent_question : Question
}.

(** The texts [tests_conditional.py] looks for in the raised errors. *)
Definition TRIGGER_TYPE_MESSAGE : string :=
  "Only yes/no and single choice questions can be triggers".
Definition SAME_SURVEY_MESSAGE : string :=
  "must be in the same survey".
Definition ORDER_MESSAGE : string :=
  "Trigger question must appear before the dependent question".

(** Modelled from the spec: the validation [QuestionCondition.save]
    runs, absent from the sources.  The spec names three rules
    (trigger type, same survey, trigger before dependent) and, for
    each, the text the raised [ValidationError] contains when the
    rule is broken; the error is modelled as carrying the text of
    every broken rule. *)
Definition clean (self : QuestionCondition) : list string :=
  (if String.eqb (question_type (trigger_question self)) "yes_no"
      || String.eqb (question_type (trigger_question self)) "single_choice"
   then [] else [TRIGGER_TYPE_MESSAGE])
  ++ (if survey (trigger_question self) =? survey (dependent_question self)
      then [] else [SAME_SURVEY_MESSAGE])
  ++ (if order (trigger_question self) <? order (dependent_question self)
      then [] else [ORDER_MESSAGE]).

(** Modelled from the spec: [QuestionCondition.save], absent from the
    sources: validate, then insert the row into the table of
    conditions. *)
Definition save (table : list QuestionCondition) (self : QuestionCondition)
  : Result (list QuestionCondition) :=
  match clean self with
  | [] => Ok (table ++ [self])%list
  | m :: ms => Raise (ValidationError (m :: ms))
  end.

(** The text of a raised exception contains [m]. *)
Definition raises_containing {A} (r : Result A) (m : string) : Prop :=
  exists ms, r = Raise (ValidationError ms) /\ In m ms.

(** A pair of conditions in which each question triggers the other. *)
Definition circular (c1 c2 : QuestionCondition) : Prop :=
  trigger_question c1 = dependent_question c2
  /\ dependent_question c1 = trigger_question c2.

(** Tables reachable from the empty one through successful saves. *)
Inductive saved : list QuestionCondition -> Prop :=
| saved_nil : saved []
| saved_step : forall t c t', saved t -> save t c = Ok t' -> saved t'.

End Surveys.

(** * Properties *)

(** ** Python strings *)

Module PyProps.
Import Py.

(** [c in s] *)
Fixpoint has_char (c : ascii) (s : string) : bool :=
  match s with
  | EmptyString => false
  | String a r => Ascii.eqb a c || has_char c r
  end.

(** The value of a decimal numeral read after the prefix [acc]. *)
Fixpoint uint_val (d : Decimal.uint) (acc : Z) : Z :=
  match d with
  | Decimal.Nil => acc
  | Decimal.D0 d => uint_val d (10 * acc)
  | Decimal.D1 d => uint_val d (10 * acc + 1)
  | Decimal.D2 d => uint_val d (10 * acc + 2)
  | Decimal.D3 d => uint_val d (10 * acc + 3)
  | Decimal.D4 d => uint_val d (10 * acc + 4)
  | Decimal.D5 d => uint_val d (10 * acc + 5)
  | Decimal.D6 d => uint_val d (10 * acc + 6)
  | Decimal.D7 d => uint_val d (10 * acc + 7)
  | Decimal.D8 d => uint_val d (10 * acc + 8)
  | Decimal.D9 d => uint_val d (10 * acc + 9)
  end.

Definition is_digit (c : ascii) : bool :=
  match digit_of c with Some _ => true | None => false end.

Fixpoint all_digits (s : string) : bool :=
  match s with
  | EmptyString => true
  | String c r => is_digit c && all_digits r
  end.

Example split_example : split "," "1,,2" = ["1"; ""; "2"].
Proof. reflexivity. Qed.

Example str_example : map str [0; 12; -7] = ["0"; "12"; "-7"].
Proof. reflexivity. Qed.

Example int_example : int " -1_0 " = Ok (-10).
Proof. reflexivity. Qed.

Example int_error_example :
  int "1__0" = Raise (ValueError "invalid literal for int() with base 10: '1__0'").
Proof. reflexivity. Qed.

Example int_control_example :
  strip (String (ascii_of_nat 28) "5") = "5"
  /\ exists e, int (String (ascii_of_nat 28) "5") = Raise e.
Proof. split; [reflexivity | eexists; reflexivity]. Qed.

Example strip_example : strip "  a b  " = "a b".
Proof. reflexivity. Qed.

Lemma split_no_sep : forall sep s,
  has_char sep s = false -> split sep s = [s].
Proof.
  induction s as [|c r IH]; simpl; intros H; [reflexivity|].
  apply orb_false_iff in H as [Hc Hr].
  rewrite Hc, (IH Hr). reflexivity.
Qed.

Lemma split_app_sep : forall sep s t,
  has_char sep s = false ->
  split sep (s ++ String sep t) = s :: split sep t.
Proof.
  induction s as [|c r IH]; simpl; intros t H.
  - rewrite Ascii.eqb_refl. reflexivity.
  - apply orb_false_iff in H as [Hc Hr].
    rewrite Hc, (IH t Hr). reflexivity.
Qed.

Lemma split_join : forall sep l,
  Forall (fun s => has_char sep s = false) l ->
  l <> [] ->
  split sep (join (String sep EmptyString) l) = l.
Proof.
  induction l as [|x rest IH]; intros Hall Hne; [congruence|].
  inversion Hall as [|? ? Hx Hrest]; subst.
  destruct rest as [|y rest'].
  - simpl. apply split_no_sep; exact Hx.
  - change (join (String sep EmptyString) (x :: y :: rest'))
      with (x ++ String sep (join (String sep EmptyString) (y :: rest'))).
    rewrite (split_app_sep _ _ _ Hx), IH; [reflexivity | exact Hrest | discriminate].
Qed.

Lemma join_truthy : forall sep x rest,
  truthy x = true -> truthy (join sep (x :: rest)) = true.
Proof.
  intros sep x rest H. destruct x as [|c r]; [discriminate|].
  destruct rest; reflexivity.
Qed.

Lemma lstrip_first : forall c r, isspace c = false -> lstrip (String c r) = String c r.
Proof. intros c r H; simpl; rewrite H; reflexivity. Qed.

Lemma all_digits_nospace : forall c, is_digit c = true -> isspace c = false.
Proof.
  intros c. unfold is_digit, digit_of, isspace.
  destruct ((48 <=? nat_of_ascii c)%nat && (nat_of_ascii c <=? 57)%nat) eqn:E;
    [intros _ | discriminate].
  apply andb_true_iff in E as [E1 E2].
  apply Nat.leb_le in E1, E2.
  apply orb_false_iff; split; apply andb_false_iff.
  - right. apply Nat.leb_gt. lia.
  - right. apply Nat.leb_gt. lia.
Qed.

Lemma rstrip_digits : forall s, all_digits s = true -> rstrip s = s.
Proof.
  induction s as [|c r IH]; simpl; intros H; [reflexivity|].
  apply andb_true_iff in H as [Hc Hr].
  rewrite (IH Hr). destruct r; [|reflexivity].
  rewrite (all_digits_nospace _ Hc). reflexivity.
Qed.

Lemma has_char_digits : forall c s,
  is_digit c = false -> all_digits s = true -> has_char c s = false.
Proof.
  induction s as [|a r IH]; simpl; intros Hc H; [reflexivity|].
  apply andb_true_iff in H as [Ha Hr].
  rewrite (IH Hc Hr), orb_false_r.
  destruct (Ascii.eqb a c) eqn:E; [|reflexivity].
  apply Ascii.eqb_eq in E; subst. congruence.
Qed.

Lemma string_of_uint_digits : forall d,
  all_digits (NilEmpty.string_of_uint d) = true.
Proof. induction d; simpl; auto. Qed.

Lemma parse_uint : forall d acc b,
  parse_digits (NilEmpty.string_of_uint d) acc b
  = match d with
    | Decimal.Nil => if b then Some acc else None
    | _ => Some (uint_val d acc)
    end.
Proof.
  induction d; intros acc b; try reflexivity;
    cbn [NilEmpty.string_of_uint parse_digits];
    match goal with
    | |- context [digit_of ?c] =>
        let v := eval vm_compute in (digit_of c) in
        change (digit_of c) with v
    end; cbv iota; rewrite IHd; destruct d; cbn [uint_val];
    repeat rewrite Z.add_0_r; reflexivity.
Qed.

Lemma uint_val_pos : forall d p,
  uint_val d (Z.pos p) = Z.pos (Pos.of_uint_acc d p).
Proof.
  induction d; intros p; cbn [uint_val Pos.of_uint_acc]; try reflexivity;
    rewrite <- IHd; f_equal; lia.
Qed.

Lemma uint_val_0 : forall d, uint_val d 0 = Z.of_N (Pos.of_uint d).
Proof.
  induction d; cbn [uint_val Pos.of_uint]; try reflexivity;
    try (change (10 * 0) with 0; exact IHd);
    match goal with
    | |- uint_val _ ?a = _ =>
        let v := eval vm_compute in a in change a with v
    end; rewrite uint_val_pos; reflexivity.
Qed.

Lemma parse_uint_value : forall d,
  parse_digits (NilZero.string_of_uint d) 0 false = Some (Z.of_uint d).
Proof.
  intros d. unfold Z.of_uint. rewrite <- uint_val_0.
  destruct d; try reflexivity;
    unfold NilZero.string_of_uint; rewrite parse_uint; reflexivity.
Qed.

Lemma nilzero_digits : forall d,
  all_digits (NilZero.string_of_uint d) = true
  /\ truthy (NilZero.string_of_uint d) = true.
Proof.
  intros d; destruct d; split; try reflexivity;
    unfold NilZero.string_of_uint;
    try apply (string_of_uint_digits (_ d)).
Qed.

Lemma strip_digits : forall s, all_digits s = true -> strip s = s.
Proof.
  intros s H. unfold strip.
  destruct s as [|c r]; [reflexivity|].
  pose proof H as H'. simpl in H'. apply andb_true_iff in H' as [Hc _].
  rewrite (lstrip_first c r (all_digits_nospace _ Hc)).
  apply rstrip_digits; exact H.
Qed.

Lemma strip_minus_digits : forall s,
  all_digits s = true -> truthy s = true ->
  strip (String "-" s) = String "-" s.
Proof.
  intros s H Ht. unfold strip.
  rewrite lstrip_first by reflexivity.
  cbn [rstrip]. rewrite (rstrip_digits _ H).
  destruct s; [discriminate | reflexivity].
Qed.

Lemma digit_not_int_space : forall c, is_digit c = true -> int_space c = false.
Proof.
  intros c. unfold is_digit, digit_of, int_space.
  destruct ((48 <=? nat_of_ascii c)%nat && (nat_of_ascii c <=? 57)%nat) eqn:E;
    [intros _ | discriminate].
  apply andb_true_iff in E as [E1 E2].
  apply Nat.leb_le in E1, E2.
  apply orb_false_iff; split.
  - apply andb_false_iff. right. apply Nat.leb_gt. lia.
  - apply Nat.eqb_neq. lia.
Qed.

Lemma rtrim_digits : forall s, all_digits s = true -> rtrim int_space s = s.
Proof.
  induction s as [|c r IH]; simpl; intros H; [reflexivity|].
  apply andb_true_iff in H as [Hc Hr].
  rewrite (IH Hr). destruct r; [|reflexivity].
  rewrite (digit_not_int_space _ Hc). reflexivity.
Qed.

Lemma trim_digits : forall s,
  all_digits s = true -> rtrim int_space (ltrim int_space s) = s.
Proof.
  intros s H. destruct s as [|c r]; [reflexivity|].
  pose proof H as H'. simpl in H'. apply andb_true_iff in H' as [Hc _].
  cbn [ltrim]. rewrite (digit_not_int_space _ Hc).
  apply rtrim_digits; exact H.
Qed.

Lemma trim_minus_digits : forall s,
  all_digits s = true -> truthy s = true ->
  rtrim int_space (ltrim int_space (String "-" s)) = String "-" s.
Proof.
  intros s H Ht. cbn [ltrim].
  change (int_space "-") with false. cbv iota.
  cbn [rtrim]. rewrite (rtrim_digits _ H).
  destruct s; [discriminate | reflexivity].
Qed.

(** [int(str(n)) == n], and [str(n)] is non-empty, has no comma and no
    surrounding whitespace. *)
Lemma int_str : forall n, int (str n) = Ok n.
Proof.
  intros n. unfold str.
  rewrite <- (DecimalZ.of_to n) at 2.
  destruct (Z.to_int n) as [d|d]; cbn [NilZero.string_of_int Z.of_int].
  - destruct (nilzero_digits d) as [Hd Ht].
    unfold int. rewrite (trim_digits _ Hd).
    pose proof (parse_uint_value d) as Hp.
    destruct (NilZero.string_of_uint d) as [|c r] eqn:E; [discriminate|].
    simpl in Hd. apply andb_true_iff in Hd as [Hc _].
    assert (Hplus : c <> "+"%char) by (intros ->; discriminate).
    assert (Hminus : c <> "-"%char) by (intros ->; discriminate).
    destruct c as [[] [] [] [] [] [] [] []];
      try (exfalso; apply Hplus; reflexivity);
      try (exfalso; apply Hminus; reflexivity);
      rewrite Hp; reflexivity.
  - destruct (nilzero_digits d) as [Hd Ht].
    unfold int. rewrite (trim_minus_digits _ Hd Ht).
    rewrite parse_uint_value. reflexivity.
Qed.

Lemma str_shape : forall n,
  truthy (str n) = true /\ has_char "," (str n) = false /\ strip (str n) = str n.
Proof.
  intros n. unfold str.
  destruct (Z.to_int n) as [d|d]; cbn [NilZero.string_of_int];
    destruct (nilzero_digits d) as [Hd Ht].
  - split; [exact Ht | split].
    + apply has_char_digits; [reflexivity | exact Hd].
    + apply strip_digits; exact Hd.
  - split; [reflexivity | split].
    + cbn [has_char]. rewrite has_char_digits; [reflexivity | reflexivity | exact Hd].
    + apply strip_minus_digits; assumption.
Qed.

End PyProps.

(** ** Email models *)

Module ModelProps.
Import Py PyProps Email.

Lemma parse_ids_str : forall ids, parse_ids (map str ids) = Ok ids.
Proof.
  induction ids as [|n rest IH]; [reflexivity|].
  cbn [map parse_ids].
  destruct (str_shape n) as [Ht [_ Hs]].
  rewrite Hs, Ht, int_str, IH. reflexivity.
Qed.

Lemma strip_filter_id : forall emails,
  Forall (fun e => truthy e = true /\ has_char "," e = false /\ strip e = e) emails ->
  filter truthy (map strip emails) = emails.
Proof.
  induction 1 as [|e rest [Ht [_ Hs]] _ IH]; [reflexivity|].
  cbn [map filter]. rewrite Hs, Ht, IH. reflexivity.
Qed.

Example get_cost_center_list_example :
  get_cost_center_list
    {| draft_pk := 1; draft_user := 9; draft_template := None;
       draft_send_type := "SPECIFIC"; draft_subject := "Hi";
       draft_body_html := "<p>x</p>"; cost_center_ids := Some " 3, 14 ,,15";
       draft_name := None; draft_is_deleted := false |}
  = Ok [3; 14; 15].
Proof. reflexivity. Qed.

Definition sample_log : EmailLog :=
  {| log_id := 1; log_user := Some 9; log_cost_center := None;
     log_template := None; log_draft := None;
     log_send_type := "ANNOUNCEMENT"; email_type := "SENT";
     log_subject := "Hi"; log_body_html := "<p>x</p>";
     recipient_emails := ""; cc_emails := None;
     email_status := "SUCCESS"; email_error := None |}.

Definition sample_draft : EmailDraft :=
  {| draft_pk := 1; draft_user := 9; draft_template := None;
     draft_send_type := "SPECIFIC"; draft_subject := "Hi";
     draft_body_html := "<p>x</p>"; cost_center_ids := None;
     draft_name := None; draft_is_deleted := false |}.

(** C10, as stated, fails for recipient lists: an entry with a leading
    blank is non-empty and has no comma, and [get_recipient_list]
    returns it stripped. *)
Lemma C10_recipient_roundtrip_counterexample :
  Forall (fun e => truthy e = true /\ has_char "," e = false) [" a@x.org"]
  /\ get_recipient_list (set_recipient_list sample_log [" a@x.org"])
     <> [" a@x.org"].
Proof.
  split.
  - constructor; [split; reflexivity | constructor].
  - vm_compute. discriminate.
Qed.

(** C10 (amended): for every list of integer ids,
    [set_cost_center_list] followed by [get_cost_center_list] returns
    the list, and [get_cost_center_list] returns the empty list when
    [cost_center_ids] is unset or empty; for every list of non-empty
    email strings that contain no comma and have no leading or trailing
    whitespace, [set_recipient_list] followed by [get_recipient_list]
    returns the list. *)
Theorem C10_list_roundtrip :
  forall (draft : EmailDraft) (ids : list Z) (log : EmailLog) (emails : list string),
    get_cost_center_list (set_cost_center_list draft ids) = Ok ids
    /\ (cost_center_ids draft = None \/ cost_center_ids draft = Some "" ->
        get_cost_center_list draft = Ok [])
    /\ (Forall (fun e => truthy e = true /\ has_char "," e = false /\ strip e = e)
          emails ->
        get_recipient_list (set_recipient_list log emails) = emails).
Proof.
  intros draft ids log emails; split; [| split].
  - unfold get_cost_center_list, set_cost_center_list; cbn [cost_center_ids].
    destruct ids as [|n rest]; [reflexivity|].
    cbn [map]. rewrite join_truthy by apply str_shape. cbn [negb].
    rewrite (split_join "," (str n :: map str rest)).
    + apply (parse_ids_str (n :: rest)).
    + change (str n :: map str rest) with (map str (n :: rest)).
      apply Forall_forall. intros x Hx. apply in_map_iff in Hx as [m [<- _]].
      apply str_shape.
    + discriminate.
  - unfold get_cost_center_list. intros [-> | ->]; reflexivity.
  - intros Hall. unfold get_recipient_list, set_recipient_list;
      cbn [recipient_emails].
    destruct emails as [|e rest]; [reflexivity|].
    inversion Hall as [|? ? [Ht _] _]; subst.
    rewrite join_truthy by exact Ht. cbn [negb].
    rewrite (split_join "," (e :: rest)).
    + apply strip_filter_id; exact Hall.
    + eapply Forall_impl; [| exact Hall]. cbv beta. intros a [_ [Ha _]]; exact Ha.
    + discriminate.
Qed.

Lemma C10_list_roundtrip_witness :
  get_cost_center_list sample_draft = Ok []
  /\ get_recipient_list (set_recipient_list sample_log ["a@x.org"; "b c@y.org"])
     = ["a@x.org"; "b c@y.org"].
Proof.
  split.
  - apply (proj1 (proj2 (C10_list_roundtrip sample_draft [] sample_log []))).
    left; reflexivity.
  - apply (proj2 (proj2 (C10_list_roundtrip sample_draft [] sample_log
                           ["a@x.org"; "b c@y.org"]))).
    repeat constructor.
Defined.

(** Two rows agree on every column [mark_as_read] must not touch. *)
Definition same_other_fields (a b : EmailRecipientView) : Prop :=
  rv_id a = rv_id b
  /\ rv_email_log a = rv_email_log b
  /\ recipient_user a = recipient_user b
  /\ is_to a = is_to b
  /\ is_starred a = is_starred b
  /\ is_archived a = is_archived b.

Lemma same_other_fields_refl : forall a, same_other_fields a a.
Proof. intros a; repeat split. Qed.

Lemma set_read_other : forall v r t, same_other_fields v (set_read v r t).
Proof. intros v r t; repeat split. Qed.

Lemma save_read_fields_rows : forall self w w' r,
  save_read_fields self w = (w', r) ->
  (r = Ok tt \/ exists e, r = Raise e /\ w' = w)
  /\ Forall2
       (fun old new =>
          same_other_fields old new
          /\ (rv_id old <> rv_id self -> new = old)
          /\ (rv_id old = rv_id self -> r = Ok tt ->
              is_read new = is_read self /\ read_at new = read_at self))
       (recipient_views (database w)) (recipient_views (database w')).
Proof.
  intros self w w' r. unfold save_read_fields.
  destruct (existsb _ _); intros H; inversion H; subst; clear H.
  - split; [left; reflexivity|]. cbn.
    induction (recipient_views (database w)) as [|v vs IH]; cbn; constructor; auto.
    destruct (rv_id v =? rv_id self) eqn:E.
    + apply Z.eqb_eq in E. repeat split; auto. intros Hne; contradiction.
    + apply Z.eqb_neq in E. split; [apply same_other_fields_refl|].
      split; [reflexivity | intros Heq; contradiction].
  - split; [right; eexists; split; reflexivity|].
    induction (recipient_views (database w')) as [|v vs IH]; constructor; auto.
    split; [apply same_other_fields_refl|].
    split; [reflexivity | intros _ Hr; discriminate].
Qed.

(** C9: [mark_as_read] is idempotent.  After a call at time [now] the
    object is read; a call on an unread row stamps [read_at] with
    [now]; a call on a read row changes neither the object nor the
    database, so a second call (at any later time) leaves [is_read] and
    [read_at] as the first left them; and no call changes another
    column, of the object or of any stored row. *)
Theorem C9_mark_as_read_idempotent :
  forall (now later : Z) (self : EmailRecipientView),
    let after := fst (mark_as_read now self) in
    is_read after = true
    /\ (is_read self = false -> read_at after = Some now)
    /\ (is_read self = true -> after = self)
    /\ fst (mark_as_read later after) = after
    /\ (forall w, snd (mark_as_read later after) w = (w, Ok tt))
    /\ same_other_fields self after
    /\ (forall w w' r,
          snd (mark_as_read now self) w = (w', r) ->
          Forall2
            (fun old new =>
               same_other_fields old new
               /\ (rv_id old <> rv_id self -> new = old)
               /\ (rv_id old = rv_id self -> is_read self = false -> r = Ok tt ->
                   is_read new = true /\ read_at new = Some now))
            (recipient_views (database w)) (recipient_views (database w'))).
Proof.
  intros now later self after. subst after. unfold mark_as_read.
  destruct (is_read self) eqn:E; cbn [negb fst snd].
  - rewrite E. cbn [negb fst snd]. repeat split; auto; try discriminate.
    intros w w' r H. inversion H; subst.
    induction (recipient_views (database w')) as [|v vs IH]; constructor; auto.
    repeat split; auto; discriminate.
  - cbn [set_read is_read negb fst snd read_at]. repeat split; auto; try discriminate.
    intros w w' r H. apply save_read_fields_rows in H as [_ H].
    eapply Forall2_impl; [| exact H]. cbv beta.
    intros a b [H1 [H2 H3]].
    split; [exact H1 | split; [exact H2 | intros Hid _ Hr; apply (H3 Hid Hr)]].
Qed.

Definition unread_row : EmailRecipientView :=
  {| rv_id := 1; rv_email_log := 1; recipient_user := 7; is_to := true;
     is_read := false; read_at := None; is_starred := true;
     is_archived := false |}.

Lemma C9_mark_as_read_idempotent_witness :
  read_at (fst (mark_as_read 100 unread_row)) = Some 100
  /\ fst (mark_as_read 200 (fst (mark_as_read 100 unread_row)))
     = fst (mark_as_read 100 unread_row).
Proof.
  pose proof (C9_mark_as_read_idempotent 100 200 unread_row) as H.
  cbv zeta in H. destruct H as [_ [H1 [_ [H2 _]]]].
  split; [apply H1; reflexivity | exact H2].
Defined.

End ModelProps.

(** ** The email service *)

Module ServiceProps.
Import Py Email.
Local Open Scope py_scope.

(** The database [d] with its two growing tables replaced. *)
Definition evolve (d : DB) (logs : list EmailLog) (views : list EmailRecipientView)
    (nl nv : Z) : DB :=
  {| cost_centers := cost_centers d;
     cost_center_emails := cost_center_emails d;
     users := users d;
     email_templates := email_templates d;
     email_drafts := email_drafts d;
     email_logs := logs;
     recipient_views := views;
     next_log_id := nl;
     next_view_id := nv |}.

(** [w'] is [w] with the rows [logs] and [views] inserted, numbered
    from the counters of [w]. *)
Definition extends (w w' : World) (logs : list EmailLog)
    (views : list EmailRecipientView) : Prop :=
  database w'
  = evolve (database w)
      (email_logs (database w) ++ logs)
      (recipient_views (database w) ++ views)
      (next_log_id (database w) + Z.of_nat (List.length logs))
      (next_view_id (database w) + Z.of_nat (List.length views)).

(** The rows of [views] for the pair (email_log, recipient_user). *)
Definition rows_for (l u : Z) (views : list EmailRecipientView)
  : list EmailRecipientView :=
  filter (fun v => (rv_email_log v =? l) && (recipient_user v =? u)) views.

(** A tracking row as the service creates it. *)
Definition fresh_row (l : Z) (v : EmailRecipientView) : Prop :=
  rv_email_log v = l /\ is_read v = false /\ read_at v = None
  /\ is_starred v = false /\ is_archived v = false.

Lemma extends_refl : forall w, extends w w [] [].
Proof.
  intros [d m]. unfold extends; cbn. destruct d; cbn.
  rewrite !app_nil_r, !Z.add_0_r. reflexivity.
Qed.

Lemma extends_trans : forall w w1 w2 l1 v1 l2 v2,
  extends w w1 l1 v1 -> extends w1 w2 l2 v2 ->
  extends w w2 (l1 ++ l2) (v1 ++ v2).
Proof.
  unfold extends; intros w w1 w2 l1 v1 l2 v2 H1 H2.
  rewrite H2, H1; cbn. rewrite !length_app, !Nat2Z.inj_add, <- !app_assoc.
  unfold evolve. f_equal; lia.
Qed.

Ltac ext_field H := rewrite H; reflexivity.

Lemma extends_users : forall w w' l v,
  extends w w' l v -> users (database w') = users (database w).
Proof. intros w w' l v H; ext_field H. Qed.

Lemma extends_cost_center_emails : forall w w' l v,
  extends w w' l v ->
  cost_center_emails (database w') = cost_center_emails (database w).
Proof. intros w w' l v H; ext_field H. Qed.

Lemma extends_logs : forall w w' l v,
  extends w w' l v ->
  email_logs (database w') = (email_logs (database w) ++ l)%list.
Proof. intros w w' l v H; ext_field H. Qed.

Lemma extends_views : forall w w' l v,
  extends w w' l v ->
  recipient_views (database w') = (recipient_views (database w) ++ v)%list.
Proof. intros w w' l v H; ext_field H. Qed.

Lemma extends_next_log : forall w w' l v,
  extends w w' l v ->
  next_log_id (database w') = next_log_id (database w) + Z.of_nat (List.length l).
Proof. intros w w' l v H; ext_field H. Qed.

Lemma extends_recipients : forall w w' l v c,
  extends w w' l v ->
  get_recipient_emails (database w') c = get_recipient_emails (database w) c
  /\ get_cc_emails (database w') c = get_cc_emails (database w) c.
Proof.
  intros w w' l v c H. unfold get_recipient_emails, get_cc_emails.
  rewrite (extends_cost_center_emails _ _ _ _ H). split; reflexivity.
Qed.

Lemma view_exists_rows_for : forall l u d,
  view_exists l u d = nonempty (rows_for l u (recipient_views d)).
Proof.
  intros l u d. unfold view_exists, rows_for.
  induction (recipient_views d) as [|v vs IH]; [reflexivity|].
  cbn. destruct ((rv_email_log v =? l) && (recipient_user v =? u)); cbn; auto.
Qed.

Lemma rows_for_app : forall l u a b,
  rows_for l u (a ++ b) = (rows_for l u a ++ rows_for l u b)%list.
Proof. intros; apply filter_app. Qed.

Lemma rows_for_cons : forall l u v vs,
  rows_for l u (v :: vs)
  = if (rv_email_log v =? l) && (recipient_user v =? u)
    then v :: rows_for l u vs else rows_for l u vs.
Proof. reflexivity. Qed.

Lemma rows_for_other_log : forall l u rows,
  Forall (fun v => rv_email_log v <> l) rows -> rows_for l u rows = [].
Proof.
  induction 1 as [|v vs Hv _ IH]; [reflexivity|].
  rewrite rows_for_cons. apply Z.eqb_neq in Hv. rewrite Hv. exact IH.
Qed.

Lemma rows_for_absent : forall l u rows,
  ~ In u (map recipient_user rows) -> rows_for l u rows = [].
Proof.
  induction rows as [|v vs IH]; intros H; [reflexivity|].
  rewrite rows_for_cons. cbn [map In] in H.
  destruct (recipient_user v =? u) eqn:E.
  - apply Z.eqb_eq in E. exfalso; apply H; left; exact E.
  - rewrite andb_false_r. apply IH. intros Hin; apply H; right; exact Hin.
Qed.

Lemma rows_for_present : forall l u rows,
  Forall (fun v => rv_email_log v = l) rows ->
  NoDup (map recipient_user rows) ->
  In u (map recipient_user rows) ->
  exists v, rows_for l u rows = [v] /\ In v rows.
Proof.
  induction rows as [|v vs IH]; intros Hall Hnd Hin; [contradiction|].
  inversion Hall as [|? ? Hl Hall']; subst.
  cbn [map] in Hnd, Hin. inversion Hnd as [|? ? Hnotin Hnd']; subst.
  rewrite rows_for_cons, Z.eqb_refl. cbn [andb].
  destruct (recipient_user v =? u) eqn:E.
  - apply Z.eqb_eq in E. subst u.
    rewrite (rows_for_absent _ _ vs Hnotin).
    exists v; split; [reflexivity | left; reflexivity].
  - apply Z.eqb_neq in E. destruct Hin as [Hin|Hin]; [contradiction|].
    destruct (IH Hall' Hnd' Hin) as [v' [Hv' Hin']].
    exists v'; split; [exact Hv' | right; exact Hin'].
Qed.

Lemma create_view_extends : forall l u to w,
  view_exists (log_id l) (user_id u) (database w) = false ->
  exists w' v,
    EmailRecipientView_create l u to false w = (w', Ok v)
    /\ extends w w' [] [v]
    /\ mail_attempts w' = mail_attempts w
    /\ fresh_row (log_id l) v
    /\ recipient_user v = user_id u
    /\ is_to v = to.
Proof.
  intros l u to w Hex. unfold EmailRecipientView_create. rewrite Hex.
  eexists; eexists; split; [reflexivity|].
  split; [| repeat split].
  unfold extends. destruct w as [d m]; destruct d; cbn.
  rewrite app_nil_r, Z.add_0_r. reflexivity.
Qed.

(** The loop over the TO users. *)
Lemma to_loop_spec : forall l us w,
  exists w' r rows,
    for_each us (fun user => EmailRecipientView_create l user true false ;; ret tt) w
    = (w', r)
    /\ extends w w' [] rows
    /\ mail_attempts w' = mail_attempts w
    /\ Forall (fresh_row (log_id l)) rows
    /\ ((forall u, In u us ->
           rows_for (log_id l) (user_id u) (recipient_views (database w)) = []) ->
        NoDup (map user_id us) ->
        r = Ok tt
        /\ map recipient_user rows = map user_id us
        /\ Forall (fun v => is_to v = true) rows).
Proof.
  induction us as [|x rest IH]; intros w.
  - exists w, (Ok tt), []. cbn. unfold ret.
    repeat split; auto using extends_refl.
  - cbn [for_each]. unfold bind at 1. unfold bind at 1.
    destruct (view_exists (log_id l) (user_id x) (database w)) eqn:Hex.
    + unfold EmailRecipientView_create. rewrite Hex.
      exists w,
        (Raise (IntegrityError "UNIQUE constraint failed: email_recipient_view")),
        [].
      split; [reflexivity|]. split; [apply extends_refl|].
      split; [reflexivity|]. split; [constructor|].
      intros Hnone _. exfalso.
      rewrite view_exists_rows_for, (Hnone x (or_introl eq_refl)) in Hex.
      discriminate.
    + destruct (create_view_extends l x true w Hex)
        as [w1 [v [Hc [He [Hm [Hf [Hu Ht]]]]]]].
      rewrite Hc. unfold ret at 1.
      destruct (IH w1) as [w' [r [rows [Hrun [He' [Hm' [Hf' Hpre]]]]]]].
      exists w', r, (v :: rows). rewrite Hrun.
      split; [reflexivity|].
      split; [apply (extends_trans _ _ _ _ _ _ _ He He')|].
      split; [congruence|].
      split; [constructor; assumption|].
      intros Hnone Hnd. cbn [map] in Hnd. inversion Hnd as [|? ? Hnotin Hnd']; subst.
      destruct Hpre as [Hr [Hmap Hto]].
      * intros u Hin. rewrite (extends_views _ _ _ _ He), rows_for_app.
        rewrite (Hnone u (or_intror Hin)). cbn [app].
        apply rows_for_absent. cbn [map In]. intros [Heq|[]].
        apply Hnotin. rewrite <- Hu, Heq. apply in_map; exact Hin.
      * exact Hnd'.
      * split; [exact Hr|]. split; [cbn [map]; congruence|].
        constructor; assumption.
Qed.

(** The loop over the CC users: it skips a user that has a row already,
    so it never raises. *)
Lemma cc_loop_spec : forall l us w,
  exists w' rows,
    for_each us (fun user =>
      dup <- query (view_exists (log_id l) (user_id user)) ;;
      if negb dup
      then EmailRecipientView_create l user false false ;; ret tt
      else ret tt) w
    = (w', Ok tt)
    /\ extends w w' [] rows
    /\ mail_attempts w' = mail_attempts w
    /\ Forall (fresh_row (log_id l)) rows
    /\ (NoDup (map user_id us) ->
        map recipient_user rows
        = map user_id
            (filter (fun u => negb (view_exists (log_id l) (user_id u) (database w))) us)
        /\ Forall (fun v => is_to v = false) rows).
Proof.
  induction us as [|x rest IH]; intros w.
  - exists w, []. cbn. unfold ret.
    repeat split; auto using extends_refl.
  - cbn [for_each filter]. unfold bind at 1. unfold bind at 1. unfold query at 1.
    destruct (view_exists (log_id l) (user_id x) (database w)) eqn:Hex; cbn [negb].
    + unfold ret at 1.
      destruct (IH w) as [w' [rows [Hrun [He [Hm [Hf Hpre]]]]]].
      exists w', rows. rewrite Hrun.
      split; [reflexivity|]. split; [exact He|]. split; [exact Hm|].
      split; [exact Hf|].
      intros Hnd; cbn [map] in Hnd; inversion Hnd; subst; apply Hpre; auto.
    + unfold bind at 1.
      destruct (create_view_extends l x false w Hex)
        as [w1 [v [Hc [He [Hm [Hf [Hu Ht]]]]]]].
      rewrite Hc. unfold ret at 1.
      destruct (IH w1) as [w' [rows [Hrun [He' [Hm' [Hf' Hpre]]]]]].
      exists w', (v :: rows). rewrite Hrun.
      split; [reflexivity|].
      split; [apply (extends_trans _ _ _ _ _ _ _ He He')|].
      split; [congruence|].
      split; [constructor; assumption|].
      intros Hnd. cbn [map] in Hnd. inversion Hnd as [|? ? Hnotin Hnd']; subst.
      destruct (Hpre Hnd') as [Hmap Hto].
      split; [| constructor; assumption].
      cbn [map]. rewrite Hu, Hmap. f_equal. f_equal.
      apply filter_ext_in. intros u Hin. f_equal.
      rewrite !view_exists_rows_for, (extends_views _ _ _ _ He), rows_for_app.
      rewrite (rows_for_absent _ _ [v]); [rewrite app_nil_r; reflexivity|].
      cbn [map In]. intros [Heq|[]].
      apply Hnotin. rewrite <- Hu, Heq. apply in_map; exact Hin.
Qed.

Lemma nodup_key_inj : forall (A : Type) (f : A -> Z) (l : list A),
  NoDup (map f l) ->
  forall a b, In a l -> In b l -> f a = f b -> a = b.
Proof.
  induction l as [|x xs IH]; intros Hnd a b Ha Hb Hf; [contradiction|].
  cbn [map] in Hnd. inversion Hnd as [|? ? Hnotin Hnd']; subst.
  destruct Ha as [Ha|Ha], Hb as [Hb|Hb]; subst.
  - reflexivity.
  - exfalso; apply Hnotin. rewrite Hf. apply in_map; exact Hb.
  - exfalso; apply Hnotin. rewrite <- Hf. apply in_map; exact Ha.
  - apply IH; assumption.
Qed.

Lemma nodup_key_filter : forall (A : Type) (f : A -> Z) (p : A -> bool) (l : list A),
  NoDup (map f l) -> NoDup (map f (filter p l)).
Proof.
  induction l as [|x xs IH]; intros Hnd; [constructor|].
  cbn [map] in Hnd. inversion Hnd as [|? ? Hnotin Hnd']; subst.
  cbn [filter]. destruct (p x); [|apply IH; exact Hnd'].
  cbn [map]. constructor; [|apply IH; exact Hnd'].
  intros Hin. apply Hnotin. apply in_map_iff in Hin as [y [Hy Hin]].
  apply filter_In in Hin as [Hin _]. rewrite <- Hy. apply in_map; exact Hin.
Qed.

Lemma in_key_filter : forall (A : Type) (f : A -> Z) (p : A -> bool) (l : list A) (a : A),
  NoDup (map f l) -> In a l ->
  (In (f a) (map f (filter p l)) <-> p a = true).
Proof.
  intros A f p l a Hnd Ha. split.
  - intros Hin. apply in_map_iff in Hin as [b [Hb Hin]].
    apply filter_In in Hin as [Hin Hp].
    rewrite <- (nodup_key_inj A f l Hnd b a Hin Ha Hb). exact Hp.
  - intros Hp. apply in_map. apply filter_In. split; assumption.
Qed.

Lemma users_with_email_in_nil : forall d, users_with_email_in [] d = [].
Proof.
  intros d. unfold users_with_email_in.
  induction (users d) as [|u us IH]; [reflexivity | exact IH].
Qed.

(** What [_create_recipient_tracking] inserts.  It only adds rows of the
    given log; when user keys are unique and the log has no row yet, it
    does not raise and leaves exactly one row for each user whose
    address is in the TO or the CC list. *)
Lemma tracking_spec : forall l to cc w,
  exists w' r rows,
    _create_recipient_tracking l to cc w = (w', r)
    /\ extends w w' [] rows
    /\ mail_attempts w' = mail_attempts w
    /\ Forall (fresh_row (log_id l)) rows
    /\ (NoDup (map user_id (users (database w))) ->
        Forall (fun v => rv_email_log v <> log_id l) (recipient_views (database w)) ->
        r = Ok tt
        /\ forall u, In u (users (database w)) ->
             if str_in (user_email u) to || str_in (user_email u) cc
             then exists v, rows_for (log_id l) (user_id u) rows = [v]
                            /\ is_to v = str_in (user_email u) to
             else rows_for (log_id l) (user_id u) rows = []).
Proof.
  intros l to cc w. unfold _create_recipient_tracking.
  unfold bind at 1. unfold query at 1.
  unfold bind at 1.
  assert (Hcc : (if nonempty cc then query (users_with_email_in cc) else ret []) w
                = (w, Ok (users_with_email_in cc (database w)))).
  { destruct cc; [cbn; rewrite users_with_email_in_nil |]; reflexivity. }
  rewrite Hcc. unfold bind at 1.
  destruct (to_loop_spec l (users_with_email_in to (database w)) w)
    as [w1 [r1 [rows1 [Hrun1 [He1 [Hm1 [Hf1 Hpre1]]]]]]].
  rewrite Hrun1.
  destruct r1 as [[]|e].
  - destruct (cc_loop_spec l (users_with_email_in cc (database w)) w1)
      as [w2 [rows2 [Hrun2 [He2 [Hm2 [Hf2 Hpre2]]]]]].
    rewrite Hrun2.
    exists w2, (Ok tt), (rows1 ++ rows2)%list.
    split; [reflexivity|].
    split; [apply (extends_trans _ _ _ [] _ [] _ He1 He2)|].
    split; [congruence|].
    split; [apply Forall_app; split; assumption|].
    intros Hnd Hfresh. split; [reflexivity|].
    assert (Hndto := nodup_key_filter _ user_id
                       (fun u => str_in (user_email u) to) _ Hnd).
    assert (Hndcc := nodup_key_filter _ user_id
                       (fun u => str_in (user_email u) cc) _ Hnd).
    destruct Hpre1 as [_ [Hmap1 Hto1]].
    { intros u _. apply rows_for_other_log; exact Hfresh. }
    { exact Hndto. }
    destruct (Hpre2 Hndcc) as [Hmap2 Hto2].
    assert (Hlog1 : Forall (fun v => rv_email_log v = log_id l) rows1).
    { eapply Forall_impl; [| exact Hf1]. intros a Ha; apply Ha. }
    assert (Hlog2 : Forall (fun v => rv_email_log v = log_id l) rows2).
    { eapply Forall_impl; [| exact Hf2]. intros a Ha; apply Ha. }
    intros u Hu. rewrite rows_for_app.
    assert (Hex : view_exists (log_id l) (user_id u) (database w1)
                  = nonempty (rows_for (log_id l) (user_id u) rows1)).
    { rewrite view_exists_rows_for, (extends_views _ _ _ _ He1), rows_for_app.
      rewrite (rows_for_other_log _ _ _ Hfresh). reflexivity. }
    pose proof (in_key_filter _ user_id (fun u => str_in (user_email u) to)
                  _ u Hnd Hu) as Hinto.
    cbv beta in Hinto. fold (users_with_email_in to (database w)) in Hinto.
    rewrite <- Hmap1 in Hinto.
    assert (Hin2 : In (user_id u) (map recipient_user rows2)
                   <-> str_in (user_email u) cc = true
                       /\ view_exists (log_id l) (user_id u) (database w1) = false).
    { rewrite Hmap2. split.
      - intros Hin. apply in_map_iff in Hin as [b [Hb Hin]].
        apply filter_In in Hin as [Hin Hnv].
        apply filter_In in Hin as [Hin Hc].
        rewrite <- (nodup_key_inj _ user_id _ Hnd b u Hin Hu Hb).
        split; [exact Hc | apply negb_true_iff; exact Hnv].
      - intros [Hc Hnv]. apply in_map. apply filter_In. split.
        + apply filter_In; split; assumption.
        + apply negb_true_iff; exact Hnv. }
    destruct (str_in (user_email u) to) eqn:Eto; cbn [orb].
    + destruct (rows_for_present (log_id l) (user_id u) rows1 Hlog1)
        as [v [Hv Hvin]].
      { rewrite Hmap1. exact Hndto. }
      { apply Hinto; reflexivity. }
      rewrite Hv in Hex. cbn [nonempty] in Hex.
      rewrite (rows_for_absent _ _ rows2).
      * exists v. split; [rewrite Hv; reflexivity|].
        rewrite Forall_forall in Hto1. apply Hto1; exact Hvin.
      * intros Hin. apply Hin2 in Hin as [_ Hnv]. congruence.
    + rewrite (rows_for_absent _ _ rows1) in *.
      2:{ intros Hin. apply Hinto in Hin. discriminate. }
      2:{ intros Hin. apply Hinto in Hin. discriminate. }
      cbn [nonempty app] in *.
      destruct (str_in (user_email u) cc) eqn:Ecc.
      * destruct (rows_for_present (log_id l) (user_id u) rows2 Hlog2)
          as [v [Hv Hvin]].
        { rewrite Hmap2. apply nodup_key_filter. exact Hndcc. }
        { apply Hin2. split; [reflexivity | exact Hex]. }
        exists v. split; [exact Hv|].
        rewrite Forall_forall in Hto2. apply Hto2; exact Hvin.
      * apply rows_for_absent. intros Hin. apply Hin2 in Hin as [Hc _].
        discriminate.
  - exists w1, (Raise e), rows1.
    split; [reflexivity|]. split; [exact He1|]. split; [exact Hm1|].
    split; [exact Hf1|].
    intros Hnd Hfresh. exfalso.
    destruct Hpre1 as [Hr _]; [| | discriminate].
    + intros u _. apply rows_for_other_log; exact Hfresh.
    + apply nodup_key_filter; exact Hnd.
Qed.

Section Loop.

Variable DEFAULT_FROM_EMAIL : string.
Variable backend : list EmailMessage -> EmailMessage -> bool.

(** The cost center has at least one recipient (TO) address. *)
Definition has_recipients (d : DB) (c : CostCenter) : bool :=
  nonempty (get_recipient_emails d c).

Definition is_received (l : EmailLog) : bool := String.eqb (email_type l) "RECEIVED".
Definition is_sent (l : EmailLog) : bool := String.eqb (email_type l) "SENT".

(** Keys of users are unique and every tracking row refers to a log
    numbered below the counter. *)
Definition well_formed (d : DB) : Prop :=
  NoDup (map user_id (users d))
  /\ Forall (fun v => rv_email_log v < next_log_id d) (recipient_views d).

(** The tracking rows of log [l] among [views], for the users of [d]
    and the address lists [to] and [cc]: one row per user whose address
    is listed, flagged TO when the address is in [to], none otherwise. *)
Definition tracked (d : DB) (l : Z) (to cc : list string)
    (views : list EmailRecipientView) : Prop :=
  forall u, In u (users d) ->
    if str_in (user_email u) to || str_in (user_email u) cc
    then exists v, rows_for l (user_id u) views = [v]
                   /\ is_to v = str_in (user_email u) to
                   /\ is_read v = false
    else rows_for l (user_id u) views = [].

Lemma log_create_extends : forall user cc tpl dr st ty subj body rcpt ccs status err w,
  exists w' l,
    EmailLog_create user cc tpl dr st ty subj body rcpt ccs status err w = (w', Ok l)
    /\ extends w w' [l] []
    /\ mail_attempts w' = mail_attempts w
    /\ log_id l = next_log_id (database w)
    /\ email_type l = ty
    /\ log_cost_center l = option_map cc_id cc
    /\ email_status l = status.
Proof.
  intros. unfold EmailLog_create.
  eexists; eexists; split; [reflexivity|].
  split; [| repeat split].
  unfold extends. destruct w as [d m]; destruct d; cbn.
  rewrite app_nil_r, Z.add_0_r. reflexivity.
Qed.

(** One call of [_send_to_cost_center]: it never raises; it inserts
    nothing for a cost center without recipients, and otherwise one
    RECEIVED log, plus the tracking rows when the mail went out. *)
Lemma send_to_cost_center_spec : forall user cc st subj body tpl dr w,
  exists w' r logs views,
    _send_to_cost_center DEFAULT_FROM_EMAIL backend user cc st subj body tpl dr w
    = (w', Ok r)
    /\ extends w w' logs views
    /\ r_cost_center r = cost_center_code cc
    /\ (has_recipients (database w) cc = false ->
        logs = [] /\ views = [] /\ r_success r = false /\ w' = w)
    /\ (has_recipients (database w) cc = true ->
        exists l,
          logs = [l]
          /\ log_id l = next_log_id (database w)
          /\ email_type l = "RECEIVED"
          /\ log_cost_center l = Some (cc_id cc)
          /\ Forall (fresh_row (log_id l)) views
          /\ (r_success r = true -> email_status l = "SUCCESS")
          /\ (email_status l = "SUCCESS"
              \/ (email_status l = "FAILED" /\ views = [] /\ r_success r = false))
          /\ (well_formed (database w) ->
              email_status l = "SUCCESS" ->
              r_success r = true
              /\ tracked (database w) (log_id l)
                   (get_recipient_emails (database w) cc)
                   (get_cc_emails (database w) cc) views)).
Proof.
  intros user cc st subj body tpl dr w.
  unfold _send_to_cost_center, has_recipients.
  unfold try_except. unfold bind at 1. unfold query at 1.
  unfold bind at 1. unfold query at 1.
  set (to := get_recipient_emails (database w) cc).
  set (ccs := get_cc_emails (database w) cc).
  destruct (nonempty to) eqn:Hto; cbn [negb].
  - unfold bind at 1. unfold _send_actual_email at 1.
    set (w1 := {| database := database w; mail_attempts := _ |}).
    set (sent := backend (mail_attempts w) _).
    unfold bind at 1.
    destruct (log_create_extends user (Some cc) tpl dr st "RECEIVED" subj body
                (join "," to)
                (if nonempty ccs then Some (join "," ccs) else None)
                (if sent then "SUCCESS" else "FAILED")
                (if sent then None else Some "Email sending failed") w1)
      as [w2 [l [Hc [He [Hm [Hid [Hty [Hcc Hst]]]]]]]].
    rewrite Hc.
    assert (He0 : extends w w2 [l] []) by exact He.
    destruct sent eqn:Hsent.
    + unfold bind at 1.
      destruct (tracking_spec l to ccs w2)
        as [w3 [r3 [rows [Hrun [He3 [Hm3 [Hf3 Hpre]]]]]]].
      rewrite Hrun.
      pose proof (extends_trans _ _ _ _ _ _ _ He0 He3) as Hext. cbn [app] in Hext.
      assert (Hwf : well_formed (database w) ->
                    r3 = Ok tt /\ tracked (database w) (log_id l) to ccs rows).
      { intros [Hnd Hb].
        destruct Hpre as [Hr Hrows].
        - rewrite (extends_users _ _ _ _ He0). exact Hnd.
        - rewrite (extends_views _ _ _ _ He0), app_nil_r.
          eapply Forall_impl; [| exact Hb]. cbv beta. intros a Ha.
          rewrite Hid. change (database w1) with (database w). lia.
        - split; [exact Hr|]. intros u Hu.
          rewrite (extends_users _ _ _ _ He0) in Hrows.
          specialize (Hrows u Hu).
          destruct (str_in (user_email u) to || str_in (user_email u) ccs);
            [| exact Hrows].
          destruct Hrows as [v [Hv Histo]]. exists v.
          split; [exact Hv|]. split; [exact Histo|].
          assert (Hin : In v (rows_for (log_id l) (user_id u) rows))
            by (rewrite Hv; left; reflexivity).
          apply filter_In in Hin as [Hin _].
          rewrite Forall_forall in Hf3. apply (Hf3 v Hin). }
      destruct r3 as [[]|e].
      * eexists w3, _, [l], rows. split; [reflexivity|].
        split; [exact Hext|]. split; [reflexivity|].
        split; [intros Hcontra; discriminate|].
        intros _. exists l. repeat split; auto.
        apply Hwf; assumption.
      * eexists w3, _, [l], rows. split; [reflexivity|].
        split; [exact Hext|]. split; [reflexivity|].
        split; [intros Hcontra; discriminate|].
        intros _. exists l.
        split; [reflexivity|]. split; [exact Hid|]. split; [exact Hty|].
        split; [exact Hcc|]. split; [exact Hf3|].
        split; [intros Hcontra; discriminate|].
        split; [left; exact Hst|].
        intros Hw _. destruct (Hwf Hw) as [Hcontra _]. discriminate.
    + unfold bind at 1. unfold ret at 1. unfold ret at 1.
      eexists w2, _, [l], []. split; [reflexivity|].
      split; [exact He0|]. split; [reflexivity|].
      split; [intros Hcontra; discriminate|].
      intros _. exists l.
      split; [reflexivity|]. split; [exact Hid|]. split; [exact Hty|].
      split; [exact Hcc|]. split; [constructor|].
      split; [intros Hcontra; discriminate|].
      split; [right; repeat split; exact Hst|].
      intros _ Hcontra. rewrite Hst in Hcontra. discriminate.
  - unfold ret at 1.
    eexists w, _, [], []. split; [reflexivity|].
    split; [apply extends_refl|]. split; [reflexivity|].
    split; [intros _; repeat split | intros Hcontra; discriminate].
Qed.

Lemma create_sent_log_spec : forall user st subj body ccs tpl dr status err w,
  exists w' s,
    _create_sent_log user st subj body ccs tpl dr status err w = (w', Ok s)
    /\ extends w w' [s] []
    /\ mail_attempts w' = mail_attempts w
    /\ log_id s = next_log_id (database w)
    /\ email_type s = "SENT"
    /\ log_cost_center s = None.
Proof.
  intros. unfold _create_sent_log.
  unfold bind at 1. unfold query at 1. unfold bind at 1. unfold query at 1.
  match goal with
  | |- context [EmailLog_create ?u ?c ?t ?d ?s ?ty ?sj ?b ?r ?cs ?stt ?e w] =>
      destruct (log_create_extends u c t d s ty sj b r cs stt e w)
        as [w' [l [Hc [He [Hm [Hid [Hty [Hcc _]]]]]]]]
  end.
  exists w', l. repeat split; assumption.
Qed.

(** The tracking state of a RECEIVED log [l] of cost center [c]: either
    the mail went out and the rows are those of [tracked], or it failed
    and the log has no row. *)
Definition log_tracking (d : DB) (views : list EmailRecipientView)
    (l : EmailLog) (c : CostCenter) : Prop :=
  (email_status l = "SUCCESS"
   /\ tracked d (log_id l) (get_recipient_emails d c) (get_cc_emails d c) views)
  \/ (email_status l = "FAILED"
      /\ forall u, rows_for (log_id l) u views = []).

(** What a run of the loop over [remaining] leaves behind, from a
    database [d] and with the local [sent_log] on entry. *)
Definition loop_facts (d : DB) (remaining : list CostCenter)
    (sent_log : option EmailLog)
    (logs : list EmailLog) (views : list EmailRecipientView)
    (results : list CostCenterResult) (sent_log' : option EmailLog) : Prop :=
  Forall2 (fun c r => r_cost_center r = cost_center_code c
                      /\ (r_success r = true -> has_recipients d c = true))
    remaining results
  /\ map log_cost_center (filter is_received logs)
     = map (fun c => Some (cc_id c)) (filter (has_recipients d) remaining)
  /\ Forall (fun s => log_cost_center s = None) (filter is_sent logs)
  /\ match sent_log, remaining with
     | None, _ :: _ =>
         exists s, filter is_sent logs = [s] /\ sent_log' = Some s
     | _, _ => filter is_sent logs = [] /\ sent_log' = sent_log
     end
  /\ Forall (fun l => next_log_id d <= log_id l
                      < next_log_id d + Z.of_nat (List.length logs)) logs
  /\ Forall (fun v => next_log_id d <= rv_email_log v
                      < next_log_id d + Z.of_nat (List.length logs)) views
  /\ (well_formed d ->
      forall l, In l logs -> is_received l = true ->
      forall c, log_cost_center l = Some (cc_id c) -> log_tracking d views l c).

Lemma recipients_by_id : forall d c c',
  cc_id c = cc_id c' ->
  get_recipient_emails d c = get_recipient_emails d c'
  /\ get_cc_emails d c = get_cc_emails d c'.
Proof.
  intros d c c' H. unfold get_recipient_emails, get_cc_emails. rewrite H.
  split; reflexivity.
Qed.

Lemma has_recipients_extends : forall w w' l v c,
  extends w w' l v ->
  has_recipients (database w') c = has_recipients (database w) c.
Proof.
  intros w w' l v c H. unfold has_recipients.
  rewrite (proj1 (extends_recipients _ _ _ _ c H)). reflexivity.
Qed.

Lemma tracked_extends : forall w w' l v n to cc views,
  extends w w' l v ->
  tracked (database w') n to cc views -> tracked (database w) n to cc views.
Proof.
  intros w w' l v n to cc views H Ht u Hu. apply Ht.
  rewrite (extends_users _ _ _ _ H). exact Hu.
Qed.

Lemma tracked_app_l : forall d n to cc a b,
  Forall (fun v => rv_email_log v <> n) b ->
  tracked d n to cc a -> tracked d n to cc (a ++ b).
Proof.
  intros d n to cc a b Hb Ht u Hu. specialize (Ht u Hu).
  rewrite rows_for_app, (rows_for_other_log _ _ _ Hb), app_nil_r. exact Ht.
Qed.

Lemma tracked_app_r : forall d n to cc a b,
  Forall (fun v => rv_email_log v <> n) a ->
  tracked d n to cc b -> tracked d n to cc (a ++ b).
Proof.
  intros d n to cc a b Ha Ht u Hu. specialize (Ht u Hu).
  rewrite rows_for_app, (rows_for_other_log _ _ _ Ha). exact Ht.
Qed.

Lemma well_formed_extends : forall w w' logs views,
  extends w w' logs views ->
  Forall (fun v => rv_email_log v
                   < next_log_id (database w) + Z.of_nat (List.length logs)) views ->
  well_formed (database w) -> well_formed (database w').
Proof.
  intros w w' logs views He Hv [Hnd Hb]. split.
  - rewrite (extends_users _ _ _ _ He). exact Hnd.
  - rewrite (extends_views _ _ _ _ He), (extends_next_log _ _ _ _ He).
    apply Forall_app; split; [| exact Hv].
    eapply Forall_impl; [| exact Hb]. cbv beta. intros a Ha. lia.
Qed.

Lemma received_kind : forall l,
  email_type l = "RECEIVED" -> is_received l = true /\ is_sent l = false.
Proof. intros l H. unfold is_received, is_sent. rewrite H. split; reflexivity. Qed.

Lemma sent_kind : forall l,
  email_type l = "SENT" -> is_sent l = true /\ is_received l = false.
Proof. intros l H. unfold is_received, is_sent. rewrite H. split; reflexivity. Qed.

(** The update of the local [sent_log] in the loop body. *)
Lemma sent_log_step : forall user st subj body ccs tpl dr status err sent_log w,
  exists w' logs sl,
    match sent_log with
    | None =>
        l <- _create_sent_log user st subj body ccs tpl dr status err ;;
        ret (Some l)
    | Some l => ret (Some l)
    end w = (w', Ok (Some sl))
    /\ extends w w' logs []
    /\ match sent_log with
       | None => logs = [sl] /\ log_id sl = next_log_id (database w)
                 /\ email_type sl = "SENT" /\ log_cost_center sl = None
       | Some l => logs = [] /\ sl = l
       end.
Proof.
  intros. destruct sent_log as [x|].
  - exists w, [], x. unfold ret. repeat split. apply extends_refl.
  - unfold bind.
    destruct (create_sent_log_spec user st subj body ccs tpl dr status err w)
      as [w' [s [Hc [He [_ [Hid [Hty Hcc]]]]]]].
    rewrite Hc. exists w', [s], s. unfold ret. repeat split; assumption.
Qed.

(** The per-cost-center loop of [send_email]: it never raises, returns
    one result per cost center, and inserts the rows [loop_facts]
    describes. *)
Lemma send_loop_spec : forall user st subj body tpl dr all remaining results sent_log w,
  exists w' results' sent_log' logs views,
    send_loop DEFAULT_FROM_EMAIL backend user st subj body tpl dr all
      remaining results sent_log w
    = (w', Ok ((results ++ results')%list, sent_log'))
    /\ extends w w' logs views
    /\ loop_facts (database w) remaining sent_log logs views results' sent_log'.
Proof.
  intros user st subj body tpl dr all.
  induction remaining as [|c rest IH]; intros results sent_log w.
  - exists w, [], sent_log, [], []. cbn [send_loop]. unfold ret.
    rewrite app_nil_r. split; [reflexivity|]. split; [apply extends_refl|].
    unfold loop_facts. cbn [filter map].
    split; [constructor|]. split; [reflexivity|]. split; [constructor|].
    split; [destruct sent_log; split; reflexivity|].
    split; [constructor|]. split; [constructor|].
    intros _ l [].
  - cbn [send_loop]. unfold bind at 1.
    destruct (send_to_cost_center_spec user c st subj body tpl dr w)
      as [w1 [r [logs1 [views1 [Hrun1 [He1 [Hcode [Hno Hyes]]]]]]]].
    rewrite Hrun1. unfold bind at 1.
    destruct (sent_log_step user st subj body all tpl dr
                (if r_success r then "SUCCESS" else "FAILED") (r_error r)
                sent_log w1)
      as [w2 [logs_s [sl [Hrun2 [He2 Hsent]]]]].
    rewrite Hrun2.
    destruct (IH (results ++ [r])%list (Some sl) w2)
      as [w3 [results' [sl' [logs3 [views3 [Hrun3 [He3 Hfacts]]]]]]].
    rewrite Hrun3, <- app_assoc. cbn [app].
    pose proof (extends_trans _ _ _ _ _ _ _ He1 He2) as He12.
    rewrite app_nil_r in He12.
    pose proof (extends_trans _ _ _ _ _ _ _ He12 He3) as He13.
    exists w3, (r :: results'), sl', ((logs1 ++ logs_s) ++ logs3)%list,
      (views1 ++ views3)%list.
    split; [reflexivity|]. split; [exact He13|].
    destruct Hfacts as [F1 [F2 [F3 [F4 [F5 [F6 F7]]]]]].
    cbn beta iota in F4. destruct F4 as [F4 F4'].
    assert (Hn2 : next_log_id (database w2)
                  = next_log_id (database w) + Z.of_nat (List.length (logs1 ++ logs_s)))
      by apply (extends_next_log _ _ _ _ He12).
    assert (Hn1 : next_log_id (database w1)
                  = next_log_id (database w) + Z.of_nat (List.length logs1))
      by apply (extends_next_log _ _ _ _ He1).
    assert (Hhas : forall x, has_recipients (database w2) x
                             = has_recipients (database w) x)
      by (intros x; apply (has_recipients_extends _ _ _ _ x He12)).
    (* the rows of the head cost center *)
    assert (Hhead :
      (has_recipients (database w) c = false /\ logs1 = [] /\ views1 = []
       /\ r_success r = false)
      \/ (has_recipients (database w) c = true /\ exists l,
            logs1 = [l] /\ log_id l = next_log_id (database w)
            /\ email_type l = "RECEIVED"
            /\ log_cost_center l = Some (cc_id c)
            /\ Forall (fresh_row (log_id l)) views1
            /\ (email_status l = "SUCCESS"
                \/ (email_status l = "FAILED" /\ views1 = []))
            /\ (well_formed (database w) -> email_status l = "SUCCESS" ->
                tracked (database w) (log_id l) (get_recipient_emails (database w) c)
                  (get_cc_emails (database w) c) views1))).
    { destruct (has_recipients (database w) c) eqn:Hc.
      - right. split; [reflexivity|].
        destruct (Hyes eq_refl) as [l [H1 [H2 [H3 [H4 [H5 [_ [H7 H8]]]]]]]].
        exists l. repeat split; try assumption.
        + destruct H7 as [H7|[H7 [H7' _]]]; [left | right; split]; assumption.
        + intros Hw Hs. apply (H8 Hw Hs).
      - left. destruct (Hno eq_refl) as [H1 [H2 [H3 _]]]. repeat split; assumption. }
    (* the SENT log of this iteration *)
    assert (Hs :
      (sent_log = None /\ logs_s = [sl]
       /\ log_id sl = next_log_id (database w) + Z.of_nat (List.length logs1)
       /\ is_sent sl = true /\ is_received sl = false
       /\ log_cost_center sl = None)
      \/ (sent_log = Some sl /\ logs_s = [])).
    { destruct sent_log as [x|].
      - right. destruct Hsent as [H1 H2]. subst. split; reflexivity.
      - left. destruct Hsent as [H1 [H2 [H3 H4]]].
        destruct (sent_kind _ H3) as [H5 H6].
        repeat split; try assumption. rewrite H2. exact Hn1. }
    assert (Hrecv_s : filter is_received logs_s = []).
    { destruct Hs as [[_ [-> [_ [_ [H _]]]]]|[_ ->]]; [cbn; rewrite H|]; reflexivity. }
    assert (Hsent1 : filter is_sent logs1 = []).
    { destruct Hhead as [[_ [-> _]]|[_ [l [-> [_ [Hty _]]]]]]; [reflexivity|].
      cbn. rewrite (proj2 (received_kind _ Hty)). reflexivity. }
    unfold loop_facts. rewrite !filter_app, Hrecv_s, Hsent1, F4, !app_nil_r.
    cbn [app].
    split; [| split; [| split; [| split; [| split; [| split]]]]].
    + (* results *)
      constructor.
      * split; [exact Hcode|]. intros Hok.
        destruct Hhead as [[_ [_ [_ Hf]]]|[Hc _]]; [congruence | exact Hc].
      * eapply Forall2_impl; [| exact F1]. cbv beta.
        intros a b [Ha Hb]. split; [exact Ha | rewrite <- Hhas; exact Hb].
    + (* RECEIVED logs *)
      rewrite map_app, F2. cbn [filter].
      rewrite (filter_ext _ _ Hhas).
      destruct Hhead as [[Hc [-> _]]|[Hc [l [-> [_ [Hty [Hcc _]]]]]]]; rewrite Hc.
      * reflexivity.
      * cbn. rewrite (proj1 (received_kind _ Hty)). cbn. rewrite Hcc. reflexivity.
    + (* SENT logs carry no cost center *)
      destruct Hs as [[_ [-> [_ [Hk [_ Hcc]]]]]|[_ ->]]; cbn [filter].
      * rewrite Hk. constructor; [exact Hcc | constructor].
      * constructor.
    + (* the SENT log is created once *)
      destruct Hs as [[-> [-> [_ [Hk _]]]]|[-> ->]]; cbn [filter].
      * rewrite Hk. exists sl. split; [reflexivity | exact F4'].
      * split; [reflexivity | exact F4'].
    + (* log ids *)
      rewrite !length_app, !Nat2Z.inj_add.
      apply Forall_app; split; [apply Forall_app; split|].
      * destruct Hhead as [[_ [-> _]]|[_ [l [-> [Hid _]]]]]; constructor;
          [| constructor].
        cbn [List.length]. lia.
      * destruct Hs as [[_ [-> [Hid _]]]|[_ ->]]; constructor; [| constructor].
        cbn [List.length]. lia.
      * eapply Forall_impl; [| exact F5]. cbv beta. intros a Ha.
        rewrite Hn2, length_app, Nat2Z.inj_add in Ha. lia.
    + (* log ids of the rows *)
      rewrite !length_app, !Nat2Z.inj_add.
      apply Forall_app; split.
      * destruct Hhead as [[_ [_ [-> _]]]|[_ [l [-> [Hid [_ [_ [Hf _]]]]]]]];
          [constructor|].
        eapply Forall_impl; [| exact Hf]. cbv beta. intros a [Ha _].
        rewrite Ha, Hid. cbn [List.length]. lia.
      * eapply Forall_impl; [| exact F6]. cbv beta. intros a Ha.
        rewrite Hn2, length_app, Nat2Z.inj_add in Ha. lia.
    + (* tracking *)
      intros Hw l Hin Hrecv c' Hcc'.
      assert (Hv3 : forall n, n < next_log_id (database w2) ->
                    Forall (fun v => rv_email_log v <> n) views3).
      { intros n Hn. eapply Forall_impl; [| exact F6]. cbv beta. intros a Ha. lia. }
      assert (Hv1 : forall n, next_log_id (database w) < n ->
                    Forall (fun v => rv_email_log v <> n) views1).
      { intros n Hn.
        destruct Hhead as [[_ [_ [-> _]]]|[_ [l0 [_ [Hid [_ [_ [Hf _]]]]]]]];
          [constructor|].
        eapply Forall_impl; [| exact Hf]. cbv beta. intros a [Ha _]. lia. }
      apply in_app_or in Hin as [Hin|Hin]; [apply in_app_or in Hin as [Hin|Hin]|].
      * (* the head's RECEIVED log *)
        destruct Hhead as [[_ [-> _]]|[_ [l0 [-> [Hid [_ [Hcc [_ [Hst Htr]]]]]]]]];
          [contradiction|].
        destruct Hin as [<-|[]].
        assert (Hidc : cc_id c = cc_id c') by congruence.
        destruct (recipients_by_id (database w) c c' Hidc) as [Hto Hccs].
        assert (Hlt : log_id l0 < next_log_id (database w2)).
        { rewrite Hn2, Hid, length_app, Nat2Z.inj_add. cbn [List.length]. lia. }
        destruct Hst as [Hst|[Hst Hnil]].
        -- left. split; [exact Hst|]. rewrite <- Hto, <- Hccs.
           apply tracked_app_l; [apply Hv3; exact Hlt | apply Htr; assumption].
        -- right. split; [exact Hst|]. intros u. subst views1. cbn [app].
           apply rows_for_other_log. apply Hv3; exact Hlt.
      * (* the SENT log is not a RECEIVED log *)
        destruct Hs as [[_ [-> [_ [_ [Hk _]]]]]|[_ ->]]; [| contradiction].
        destruct Hin as [<-|[]]. congruence.
      * (* a later RECEIVED log *)
        assert (Hw2 : well_formed (database w2)).
        { apply (well_formed_extends _ _ _ _ He12); [| exact Hw].
          destruct Hhead as [[_ [_ [-> _]]]|[_ [l0 [-> [Hid [_ [_ [Hf _]]]]]]]];
            [constructor|].
          eapply Forall_impl; [| exact Hf]. cbv beta. intros a [Ha _].
          rewrite Ha, Hid, length_app, Nat2Z.inj_add. cbn [List.length]. lia. }
        assert (Hgt : next_log_id (database w) < log_id l \/ views1 = []).
        { rewrite Forall_forall in F5. specialize (F5 l Hin). rewrite Hn2 in F5.
          destruct Hhead as [[_ [_ [-> _]]]|[_ [l0 [-> _]]]]; [right; reflexivity|].
          left. rewrite length_app, Nat2Z.inj_add in F5. cbn [List.length] in F5. lia. }
        assert (Hv1' : Forall (fun v => rv_email_log v <> log_id l) views1).
        { destruct Hgt as [Hgt| ->]; [apply Hv1; exact Hgt | constructor]. }
        destruct (extends_recipients _ _ _ _ c' He12) as [Hto Hccs].
        destruct (F7 Hw2 l Hin Hrecv c' Hcc') as [[Hst Htr]|[Hst Hnone]].
        -- left. split; [exact Hst|].
           apply tracked_app_r; [exact Hv1'|].
           rewrite Hto, Hccs in Htr.
           apply (tracked_extends _ _ _ _ _ _ _ _ He12 Htr).
        -- right. split; [exact Hst|]. intros u.
           rewrite rows_for_app, (rows_for_other_log _ _ _ Hv1'), Hnone.
           reflexivity.
Qed.

(** The summary [send_email] builds from the results of the loop. *)
Definition summary_of (results : list CostCenterResult) (sent_log : option EmailLog)
  : Summary :=
  let successful := Z.of_nat (List.length (filter r_success results)) in
  {| success := 0 <? successful;
     sent_count := successful;
     failed_count := Z.of_nat (List.length results) - successful;
     total_cost_centers := Z.of_nat (List.length results);
     details := results;
     sent_log_id := option_map log_id sent_log |}.

(** [send_email] by cases on the cost centers it addresses: it fails
    without touching anything, or runs the loop over all of them and
    returns the summary. *)
Lemma send_email_spec : forall user st subj body ids tid did w,
  let run := send_email DEFAULT_FROM_EMAIL backend user st subj body ids tid did w in
  (forall err, determine_targets st ids (database w) = Ok (inl err) ->
               run = (w, Ok (Failure err)))
  /\ (determine_targets st ids (database w) = Ok (inr []) ->
      run = (w, Ok (Failure "No active cost centers found")))
  /\ (forall targets,
        determine_targets st ids (database w) = Ok (inr targets) -> targets <> [] ->
        exists w' results sent_log logs views,
          run = (w', Ok (Sent (summary_of results sent_log)))
          /\ extends w w' logs views
          /\ loop_facts (database w) targets None logs views results sent_log).
Proof.
  intros user st subj body ids tid did w run.
  assert (Hrun : run
    = match determine_targets st ids (database w) with
      | Raise e => (w, Ok (Failure (exception_str e)))
      | Ok (inl err) => (w, Ok (Failure err))
      | Ok (inr []) => (w, Ok (Failure "No active cost centers found"))
      | Ok (inr (c :: rest)) =>
          match
            match
              (template <- match tid with
                           | Some i =>
                               if truthy_id tid
                               then query (get_template i) else ret None
                           | None => ret None
                           end ;;
               draft <- match did with
                        | Some i =>
                            if truthy_id did
                            then query (get_draft i user) else ret None
                        | None => ret None
                        end ;;
               out <- send_loop DEFAULT_FROM_EMAIL backend user st subj body
                        template draft (c :: rest) (c :: rest) [] None ;;
               ret (Sent (summary_of (fst out) (snd out)))) w
            with
            | (w', Ok a) => (w', Ok a)
            | (w', Raise e) =>
                ({| database := database w; mail_attempts := mail_attempts w' |},
                 Raise e)
            end
          with
          | (w', Ok a) => (w', Ok a)
          | (w', Raise e) => ret (Failure (exception_str e)) w'
          end
      end).
  { subst run. unfold send_email, try_except, atomic.
    unfold bind at 1. unfold fetch at 1.
    destruct (determine_targets st ids (database w)) as [[err|[|c rest]]|e];
      try reflexivity.
    destruct w; reflexivity. }
  clearbody run.
  destruct (determine_targets st ids (database w)) as [[err|targets]|e] eqn:Ht;
    [| | split; [| split]; intros; discriminate].
  - split; [| split].
    + intros err' Heq. inversion Heq; subst. reflexivity.
    + intros Heq; discriminate.
    + intros targets Heq; discriminate.
  - split; [intros err Heq; discriminate|].
    destruct targets as [|c rest].
    + split; [intros _; exact Hrun | intros targets Heq Hne].
      inversion Heq; subst. congruence.
    + split; [intros Heq; discriminate|].
      intros targets Heq _. inversion Heq; subst targets.
      unfold bind at 1 in Hrun.
      assert (Htpl : exists t,
                match tid with
                | Some i => if truthy_id tid then query (get_template i) else ret None
                | None => ret None
                end w = (w, Ok t)).
      { destruct tid as [i|]; [destruct (truthy_id (Some i))|]; eexists; reflexivity. }
      destruct Htpl as [t Htpl]. rewrite Htpl in Hrun. unfold bind at 1 in Hrun.
      assert (Hdr : exists x,
                match did with
                | Some i => if truthy_id did then query (get_draft i user) else ret None
                | None => ret None
                end w = (w, Ok x)).
      { destruct did as [i|]; [destruct (truthy_id (Some i))|]; eexists; reflexivity. }
      destruct Hdr as [x Hdr]. rewrite Hdr in Hrun. unfold bind at 1 in Hrun.
      destruct (send_loop_spec user st subj body t x (c :: rest) (c :: rest) [] None w)
        as [w' [results [sl [logs [views [Hloop [He Hf]]]]]]].
      rewrite Hloop in Hrun. cbn [app fst snd] in Hrun. unfold ret in Hrun.
      exists w', results, sl, logs, views.
      split; [exact Hrun|]. split; assumption.
Qed.

(** When the database refuses the query for the cost centers, the
    call returns the text of the exception and nothing is touched. *)
Lemma send_email_refused : forall user st subj body ids tid did w e,
  determine_targets st ids (database w) = Raise e ->
  send_email DEFAULT_FROM_EMAIL backend user st subj body ids tid did w
  = (w, Ok (Failure (exception_str e))).
Proof.
  intros user st subj body ids tid did w e Ht.
  unfold send_email, try_except, atomic.
  unfold bind at 1. unfold fetch at 1. rewrite Ht.
  destruct w; reflexivity.
Qed.


Lemma determine_targets_error : forall st ids d err,
  determine_targets st ids d = Ok (inl err) ->
  (err = "Invalid send type" /\ st <> "ANNOUNCEMENT" /\ st <> "SPECIFIC")
  \/ (err = "Cost center IDs required for SPECIFIC send type"
      /\ st = "SPECIFIC" /\ (ids = None \/ ids = Some [])).
Proof.
  intros st ids d err. unfold determine_targets, filter_id_in_active.
  destruct (String.eqb st "ANNOUNCEMENT") eqn:Ea; [discriminate|].
  destruct (String.eqb st "SPECIFIC") eqn:Es.
  - apply String.eqb_eq in Es.
    destruct ids as [[|i l]|]; cbn [nonempty];
      try (destruct (forallb db_int (i :: l)));
      intros H; inversion H; subst; right; auto.
  - apply String.eqb_neq in Ea, Es. intros H; inversion H; subst. left; auto.
Qed.

(** The only exception of the head of [send_email] is the refusal of a
    listed id by the database. *)
Lemma determine_targets_raise : forall st ids d e,
  determine_targets st ids d = Raise e ->
  e = id_overflow /\ st = "SPECIFIC"
  /\ exists l, ids = Some l /\ l <> [] /\ forallb db_int l = false.
Proof.
  intros st ids d e. unfold determine_targets, filter_id_in_active.
  destruct (String.eqb st "ANNOUNCEMENT") eqn:Ea; [discriminate|].
  destruct (String.eqb st "SPECIFIC") eqn:Es; [| discriminate].
  apply String.eqb_eq in Es.
  destruct ids as [[|i l]|]; cbn [nonempty]; try discriminate.
  destruct (forallb db_int (i :: l)) eqn:Hr; [discriminate|].
  intros H; inversion H; subst. split; [reflexivity|]. split; [reflexivity|].
  exists (i :: l). split; [reflexivity|]. split; [discriminate | exact Hr].
Qed.


Lemma loop_results_targets : forall d targets sl logs views results sl',
  loop_facts d targets sl logs views results sl' ->
  map r_cost_center results = map cost_center_code targets
  /\ List.length results = List.length targets
  /\ (List.length (filter r_success results)
      <= List.length (filter (has_recipients d) targets))%nat.
Proof.
  intros d targets sl logs views results sl' [F1 _].
  induction F1 as [|c r cs rs [Hc Hs] _ IH]; [repeat split; constructor|].
  destruct IH as [IH1 [IH2 IH3]]. cbn [map List.length filter].
  split; [congruence|]. split; [congruence|].
  destruct (r_success r).
  - rewrite (Hs eq_refl). cbn [List.length]. lia.
  - destruct (has_recipients d c); cbn [List.length]; lia.
Qed.


(** C7: a call that returns a failure result has changed nothing: no
    [EmailLog] row, no [EmailRecipientView] row, and no mail attempt;
    and the only failure results are the three validation errors and
    the refusal of a listed id by the database. *)
Theorem C7_failure_leaves_state : forall user st subj body ids tid did w w' err,
  send_email DEFAULT_FROM_EMAIL backend user st subj body ids tid did w
  = (w', Ok (Failure err)) ->
  w' = w
  /\ email_logs (database w') = email_logs (database w)
  /\ recipient_views (database w') = recipient_views (database w)
  /\ (err = "Invalid send type"
      \/ err = "Cost center IDs required for SPECIFIC send type"
      \/ err = "No active cost centers found"
      \/ (err = exception_str id_overflow /\ st = "SPECIFIC"
          /\ exists l, ids = Some l /\ forallb db_int l = false)).
Proof.
  intros user st subj body ids tid did w w' err Hrun.
  destruct (send_email_spec user st subj body ids tid did w) as [Herr [Hnil Hcons]].
  assert (H : w' = w
              /\ (err = "Invalid send type"
                  \/ err = "Cost center IDs required for SPECIFIC send type"
                  \/ err = "No active cost centers found"
                  \/ (err = exception_str id_overflow /\ st = "SPECIFIC"
                      /\ exists l, ids = Some l /\ forallb db_int l = false))).
  { destruct (determine_targets st ids (database w)) as [[e|[|c rest]]|e] eqn:Ht.
    - rewrite (Herr e eq_refl) in Hrun. inversion Hrun; subst.
      split; [reflexivity|].
      destruct (determine_targets_error _ _ _ _ Ht) as [[-> _]|[-> _]]; auto.
    - rewrite (Hnil eq_refl) in Hrun. inversion Hrun; subst. auto.
    - destruct (Hcons (c :: rest) eq_refl) as [w2 [rs [sl [lg [vs [Hrun' _]]]]]];
        [discriminate|].
      rewrite Hrun' in Hrun. discriminate.
    - rewrite (send_email_refused user st subj body ids tid did w e Ht) in Hrun.
      inversion Hrun; subst. split; [reflexivity|].
      destruct (determine_targets_raise _ _ _ _ Ht) as [-> [-> [l [-> [_ Hr]]]]].
      right. right. right. split; [reflexivity|]. split; [reflexivity|].
      exists l. split; [reflexivity | exact Hr]. }
  destruct H as [-> H]. repeat split; auto.
Qed.

(** C8: a call that reaches the loop returns a summary in which
    [sent_count + failed_count = total_cost_centers], the total is the
    number of targeted cost centers, and [success] holds exactly when
    [sent_count > 0]; the sender's SENT log is created in any case, so
    also when every cost center failed and [success] is [False]. *)
Theorem C8_summary_counts : forall user st subj body ids tid did w targets,
  determine_targets st ids (database w) = Ok (inr targets) ->
  targets <> [] ->
  exists w' s logs views sl,
    send_email DEFAULT_FROM_EMAIL backend user st subj body ids tid did w
    = (w', Ok (Sent s))
    /\ sent_count s + failed_count s = total_cost_centers s
    /\ total_cost_centers s = Z.of_nat (List.length targets)
    /\ (success s = true <-> sent_count s > 0)
    /\ sent_count s = Z.of_nat (List.length (filter r_success (details s)))
    /\ 0 <= failed_count s
    /\ (sent_count s = 0 -> success s = false)
    /\ email_logs (database w') = (email_logs (database w) ++ logs)%list
    /\ recipient_views (database w') = (recipient_views (database w) ++ views)%list
    /\ In sl logs /\ email_type sl = "SENT"
    /\ sent_log_id s = Some (log_id sl).
Proof.
  intros user st subj body ids tid did w targets Ht Hne.
  destruct (send_email_spec user st subj body ids tid did w) as [_ [_ Hcons]].
  destruct (Hcons targets Ht Hne) as [w' [results [sl [logs [views [Hrun [He Hf]]]]]]].
  destruct (loop_results_targets _ _ _ _ _ _ _ Hf) as [_ [Hlen _]].
  destruct Hf as [_ [_ [_ [F4 _]]]].
  destruct targets as [|c rest]; [congruence|].
  destruct F4 as [s0 [Hs0 ->]].
  assert (Hin : In s0 (filter is_sent logs)) by (rewrite Hs0; left; reflexivity).
  apply filter_In in Hin as [Hin Hk].
  pose proof (filter_length_le r_success results) as Hle.
  exists w', (summary_of results (Some s0)), logs, views, s0.
  cbn [summary_of sent_count failed_count total_cost_centers success details
         sent_log_id option_map].
  split; [exact Hrun|]. split; [lia|]. split; [rewrite Hlen; reflexivity|].
  split; [rewrite Z.ltb_lt; lia|]. split; [reflexivity|]. split; [lia|].
  split; [intros ->; reflexivity|].
  split; [apply (extends_logs _ _ _ _ He)|].
  split; [apply (extends_views _ _ _ _ He)|].
  split; [exact Hin|]. split; [| reflexivity].
  unfold is_sent in Hk. apply String.eqb_eq in Hk. exact Hk.
Qed.

(** The logs a send stores: a call that targets N >= 1 cost centers
    creates exactly one SENT log, with no cost center, and exactly one
    RECEIVED log for each targeted cost center that has a recipient
    (TO) address and none for one that has not; the RECEIVED logs are
    therefore at least [sent_count] and at most N, and at least one
    when the call returns success. *)
Theorem fan_out_logs : forall user st subj body ids tid did w targets,
  determine_targets st ids (database w) = Ok (inr targets) ->
  targets <> [] ->
  exists w' s logs views,
    send_email DEFAULT_FROM_EMAIL backend user st subj body ids tid did w
    = (w', Ok (Sent s))
    /\ email_logs (database w') = (email_logs (database w) ++ logs)%list
    /\ recipient_views (database w') = (recipient_views (database w) ++ views)%list
    /\ (exists sl, filter is_sent logs = [sl]
                   /\ log_cost_center sl = None
                   /\ sent_log_id s = Some (log_id sl))
    /\ map log_cost_center (filter is_received logs)
       = map (fun c => Some (cc_id c))
           (filter (has_recipients (database w)) targets)
    /\ sent_count s <= Z.of_nat (List.length (filter is_received logs))
       <= Z.of_nat (List.length targets)
    /\ (success s = true ->
        1 <= Z.of_nat (List.length (filter is_received logs))).
Proof.
  intros user st subj body ids tid did w targets Ht Hne.
  destruct (send_email_spec user st subj body ids tid did w) as [_ [_ Hcons]].
  destruct (Hcons targets Ht Hne) as [w' [results [sl [logs [views [Hrun [He Hf]]]]]]].
  destruct (loop_results_targets _ _ _ _ _ _ _ Hf) as [_ [Hlen Hcount]].
  destruct Hf as [_ [F2 [F3 [F4 _]]]].
  destruct targets as [|c rest]; [congruence|].
  destruct F4 as [s0 [Hs0 ->]].
  assert (Hrecv : List.length (filter is_received logs)
                  = List.length (filter (has_recipients (database w)) (c :: rest))).
  { rewrite <- (length_map log_cost_center), F2, length_map. reflexivity. }
  pose proof (filter_length_le (has_recipients (database w)) (c :: rest)) as Hle.
  exists w', (summary_of results (Some s0)), logs, views.
  cbn [summary_of sent_count success sent_log_id option_map].
  split; [exact Hrun|].
  split; [apply (extends_logs _ _ _ _ He)|].
  split; [apply (extends_views _ _ _ _ He)|].
  split.
  { exists s0. split; [exact Hs0|]. split; [| reflexivity].
    rewrite Hs0 in F3. inversion F3; assumption. }
  split; [exact F2|].
  split; [rewrite Hrecv; lia|].
  rewrite Z.ltb_lt, Hrecv. lia.
Qed.

(** C2 (amended): on a database with unique user keys, a call that
    reaches the loop leaves, for each RECEIVED log whose mail went out
    (status SUCCESS), exactly one tracking row with [is_read] False for
    each user whose address is among the TO or CC addresses of the
    log's cost center (a user listed in both gets the one TO row) and
    no row of that log for any other user; a RECEIVED log whose mail
    failed (status FAILED) gets no tracking row; so no pair of a
    created log and a user has more than one row. *)
Theorem C2_recipient_tracking : forall user st subj body ids tid did w targets,
  well_formed (database w) ->
  determine_targets st ids (database w) = Ok (inr targets) ->
  targets <> [] ->
  exists w' s logs,
    send_email DEFAULT_FROM_EMAIL backend user st subj body ids tid did w
    = (w', Ok (Sent s))
    /\ email_logs (database w') = (email_logs (database w) ++ logs)%list
    /\ well_formed (database w')
    /\ forall l, In l logs -> is_received l = true ->
         (exists c, In c targets /\ log_cost_center l = Some (cc_id c))
         /\ (forall c, log_cost_center l = Some (cc_id c) ->
              log_tracking (database w) (recipient_views (database w')) l c)
         /\ (forall u, In u (users (database w)) ->
              (List.length (rows_for (log_id l) (user_id u)
                              (recipient_views (database w'))) <= 1)%nat).
Proof.
  intros user st subj body ids tid did w targets Hw Ht Hne.
  destruct (send_email_spec user st subj body ids tid did w) as [_ [_ Hcons]].
  destruct (Hcons targets Ht Hne) as [w' [results [sl [logs [views [Hrun [He Hf]]]]]]].
  destruct Hf as [_ [F2 [_ [_ [F5 [F6 F7]]]]]].
  exists w', (summary_of results sl), logs.
  split; [exact Hrun|].
  split; [apply (extends_logs _ _ _ _ He)|].
  split.
  { apply (well_formed_extends _ _ _ _ He); [| exact Hw].
    eapply Forall_impl; [| exact F6]. cbv beta. intros a Ha. lia. }
  intros l Hin Hrecv.
  assert (Hcc : exists c, In c targets /\ log_cost_center l = Some (cc_id c)).
  { assert (Hl : In (log_cost_center l)
                   (map log_cost_center (filter is_received logs))).
    { apply in_map. apply filter_In. split; assumption. }
    rewrite F2 in Hl. apply in_map_iff in Hl as [c [Hc Hcin]].
    apply filter_In in Hcin as [Hcin _]. exists c. split; [exact Hcin | congruence]. }
  assert (Htrack : forall c, log_cost_center l = Some (cc_id c) ->
                   log_tracking (database w) (recipient_views (database w')) l c).
  { intros c Hc. rewrite (extends_views _ _ _ _ He).
    assert (Hold : Forall (fun v => rv_email_log v <> log_id l)
                     (recipient_views (database w))).
    { destruct Hw as [_ Hb]. rewrite Forall_forall in F5. specialize (F5 l Hin).
      eapply Forall_impl; [| exact Hb]. cbv beta. intros a Ha. lia. }
    destruct (F7 Hw l Hin Hrecv c Hc) as [[Hst Htr]|[Hst Hnone]].
    - left. split; [exact Hst|]. apply tracked_app_r; assumption.
    - right. split; [exact Hst|]. intros u.
      rewrite rows_for_app, (rows_for_other_log _ _ _ Hold), Hnone. reflexivity. }
  split; [exact Hcc|]. split; [exact Htrack|].
  intros u Hu. destruct Hcc as [c [_ Hc]].
  destruct (Htrack c Hc) as [[_ Htr]|[_ Hnone]].
  - specialize (Htr u Hu).
    destruct (str_in (user_email u) (get_recipient_emails (database w) c)
              || str_in (user_email u) (get_cc_emails (database w) c)).
    + destruct Htr as [v [-> _]]. cbn. lia.
    + rewrite Htr. cbn. lia.
  - rewrite Hnone. cbn. lia.
Qed.

End Loop.

(** *** A concrete database *)

Definition cc1 : CostCenter :=
  {| cc_id := 1; cost_center_code := "CC-001"; cc_is_active := true |}.
Definition cc2 : CostCenter :=
  {| cc_id := 2; cost_center_code := "CC-002"; cc_is_active := true |}.
Definition cc3 : CostCenter :=
  {| cc_id := 3; cost_center_code := "CC-003"; cc_is_active := false |}.

Definition alice : User := {| user_id := 7; user_email := "a@x.org" |}.
Definition bob : User := {| user_id := 8; user_email := "b@x.org" |}.
Definition sender : User := {| user_id := 9; user_email := "s@x.org" |}.

(** Cost center 1 lists alice as recipient and as CC, and bob as CC;
    cost center 2 is active but has no address. *)
Definition db0 : DB :=
  {| cost_centers := [cc1; cc2; cc3];
     cost_center_emails :=
       [ {| cce_cost_center := 1; cce_email := "a@x.org";
            cce_email_type := "cc" |};
         {| cce_cost_center := 1; cce_email := "b@x.org";
            cce_email_type := "cc" |};
         {| cce_cost_center := 1; cce_email := "a@x.org";
            cce_email_type := "recipient" |} ];
     users := [alice; bob; sender];
     email_templates := [];
     email_drafts := [];
     email_logs := [];
     recipient_views := [];
     next_log_id := 1;
     next_view_id := 1 |}.

Definition w0 : World := {| database := db0; mail_attempts := [] |}.

Definition mail_ok (_ : list EmailMessage) (_ : EmailMessage) : bool := true.
Definition mail_down (_ : list EmailMessage) (_ : EmailMessage) : bool := false.

(** The announcement the examples send. *)
Definition announce (backend : list EmailMessage -> EmailMessage -> bool)
  : World * Result SendResult :=
  send_email "noreply@x.org" backend sender "ANNOUNCEMENT" "Hi" "<p>x</p>"
    None None None w0.

(** The logs a call inserted. *)
Definition created_logs (w w' : World) : list EmailLog :=
  skipn (List.length (email_logs (database w))) (email_logs (database w')).

Lemma well_formed_db0 : well_formed db0.
Proof.
  split; [| constructor].
  repeat constructor; cbn; intuition discriminate.
Qed.

Example announce_ok_summary :
  exists w' s, announce mail_ok = (w', Ok (Sent s))
               /\ sent_count s = 1 /\ failed_count s = 1
               /\ map email_type (email_logs (database w')) = ["RECEIVED"; "SENT"]
               /\ map is_to (recipient_views (database w')) = [true; false].
Proof. eexists; eexists; split; [reflexivity|]. repeat split. Qed.

(** C1, the failing input: the announcement targets the two active
    cost centers and returns success, yet only one RECEIVED log is
    created, none for the cost center without recipients, where the
    docstring of [EmailLog] promises one RECEIVED log per cost center;
    on the sibling path, a mail that fails, the RECEIVED log of the
    cost center is stored, with status FAILED. *)
Lemma C1_fan_out_failing_input :
  determine_targets "ANNOUNCEMENT" None (database w0) = Ok (inr [cc1; cc2])
  /\ (exists s, snd (announce mail_ok) = Ok (Sent s) /\ success s = true)
  /\ List.length (filter is_received (created_logs w0 (fst (announce mail_ok))))
     <> List.length [cc1; cc2]
  /\ filter (fun l => is_received l
                      && match log_cost_center l with
                         | Some i => i =? cc_id cc2
                         | None => false
                         end)
       (created_logs w0 (fst (announce mail_ok))) = []
  /\ map (fun l => (log_cost_center l, email_status l))
       (filter is_received (created_logs w0 (fst (announce mail_down))))
     = [(Some (cc_id cc1), "FAILED")].
Proof.
  split; [reflexivity|].
  split; [eexists; split; reflexivity|].
  split; [vm_compute; discriminate|].
  split; reflexivity.
Qed.

Lemma fan_out_logs_example :
  exists w' s logs,
    announce mail_ok = (w', Ok (Sent s))
    /\ email_logs (database w') = (email_logs (database w0) ++ logs)%list
    /\ map log_cost_center (filter is_received logs) = [Some 1].
Proof.
  destruct (fan_out_logs "noreply@x.org" mail_ok sender "ANNOUNCEMENT" "Hi" "<p>x</p>"
              None None None w0 [cc1; cc2] eq_refl)
    as [w' [s [logs [views [Hrun [Hlogs [_ [_ [Hrecv _]]]]]]]]];
    [discriminate|].
  exists w', s, logs. split; [exact Hrun|]. split; [exact Hlogs | exact Hrecv].
Defined.

(** C2, as stated, fails: when the mail backend is down the RECEIVED
    log of cost center 1 is created, alice is a recipient user of that
    cost center, and she gets no tracking row. *)
Lemma C2_recipient_tracking_counterexample :
  exists l,
    In l (created_logs w0 (fst (announce mail_down)))
    /\ is_received l = true
    /\ log_cost_center l = Some (cc_id cc1)
    /\ In alice (users (database w0))
    /\ str_in (user_email alice) (get_recipient_emails (database w0) cc1) = true
    /\ rows_for (log_id l) (user_id alice)
         (recipient_views (database (fst (announce mail_down)))) = [].
Proof.
  eexists. split; [left; reflexivity|].
  repeat split. left; reflexivity.
Qed.

Lemma C2_recipient_tracking_witness :
  well_formed (database w0)
  /\ exists w' s logs,
       announce mail_ok = (w', Ok (Sent s))
       /\ email_logs (database w') = (email_logs (database w0) ++ logs)%list
       /\ well_formed (database w').
Proof.
  split; [exact well_formed_db0|].
  destruct (C2_recipient_tracking "noreply@x.org" mail_ok sender "ANNOUNCEMENT"
              "Hi" "<p>x</p>" None None None w0 [cc1; cc2] well_formed_db0 eq_refl)
    as [w' [s [logs [Hrun [Hlogs [Hwf _]]]]]];
    [discriminate|].
  exists w', s, logs. split; [exact Hrun|]. split; [exact Hlogs | exact Hwf].
Defined.



(** A SPECIFIC send to the inactive cost center 3 only. *)
Definition send_inactive : World * Result SendResult :=
  send_email "noreply@x.org" mail_ok sender "SPECIFIC" "Hi" "<p>x</p>"
    (Some [3]) None None w0.

Lemma C7_failure_leaves_state_witness :
  snd send_inactive = Ok (Failure "No active cost centers found")
  /\ fst send_inactive = w0
  /\ email_logs (database (fst send_inactive)) = email_logs (database w0)
  /\ recipient_views (database (fst send_inactive)) = recipient_views (database w0).
Proof.
  split; [reflexivity|].
  destruct (C7_failure_leaves_state "noreply@x.org" mail_ok sender "SPECIFIC"
              "Hi" "<p>x</p>" (Some [3]) None None w0 (fst send_inactive)
              "No active cost centers found" eq_refl)
    as [Hw [Hlogs [Hviews _]]].
  split; [exact Hw|]. split; [exact Hlogs | exact Hviews].
Defined.

Lemma C8_summary_counts_witness :
  exists w' s,
    announce mail_down = (w', Ok (Sent s))
    /\ sent_count s + failed_count s = total_cost_centers s
    /\ total_cost_centers s = 2
    /\ (success s = true <-> sent_count s > 0).
Proof.
  destruct (C8_summary_counts "noreply@x.org" mail_down sender "ANNOUNCEMENT"
              "Hi" "<p>x</p>" None None None w0 [cc1; cc2] eq_refl)
    as [w' [s [logs [views [sl [Hrun [Hsum [Htot [Hsucc _]]]]]]]]];
    [discriminate|].
  exists w', s. split; [exact Hrun|]. split; [exact Hsum|].
  split; [exact Htot | exact Hsucc].
Defined.

End ServiceProps.

(** ** Conditional questions *)

Module SurveyProps.
Import Surveys.

Lemma save_ok_clean : forall t c t', save t c = Ok t' -> clean c = [].
Proof.
  unfold save; intros t c t' H.
  destruct (clean c); [reflexivity | discriminate].
Qed.

Lemma save_ok_iff : forall t c,
  (exists t', save t c = Ok t') <-> clean c = [].
Proof.
  intros t c; split.
  - intros [t' H]; eapply save_ok_clean; eassumption.
  - intros H; unfold save; rewrite H; eauto.
Qed.

Lemma save_raises : forall t c m,
  In m (clean c) -> raises_containing (save t c) m.
Proof.
  unfold save, raises_containing; intros t c m H.
  destruct (clean c) as [|m0 ms]; [contradiction|].
  exists (m0 :: ms); split; [reflexivity | exact H].
Qed.

Lemma clean_nil_inv : forall c,
  clean c = [] ->
  (question_type (trigger_question c) = "yes_no"
   \/ question_type (trigger_question c) = "single_choice")
  /\ survey (trigger_question c) = survey (dependent_question c)
  /\ order (trigger_question c) < order (dependent_question c).
Proof.
  unfold clean; intros c H.
  destruct (String.eqb (question_type (trigger_question c)) "yes_no") eqn:Ey;
  destruct (String.eqb (question_type (trigger_question c)) "single_choice") eqn:Es;
  destruct (survey (trigger_question c) =? survey (dependent_question c)) eqn:Ev;
  destruct (order (trigger_question c) <? order (dependent_question c)) eqn:Eo;
  simpl in H; try discriminate;
  (split; [| split; [apply Z.eqb_eq; exact Ev | apply Z.ltb_lt; exact Eo]]).
  all: try (left; apply String.eqb_eq; exact Ey).
  all: right; apply String.eqb_eq; exact Es.
Qed.

Lemma saved_ordered : forall t,
  saved t ->
  Forall (fun c => order (trigger_question c) < order (dependent_question c)) t.
Proof.
  induction 1 as [|t c t' Hs IH Hsave].
  - constructor.
  - pose proof (save_ok_clean _ _ _ Hsave) as Hc.
    unfold save in Hsave; rewrite Hc in Hsave; inversion Hsave; subst.
    apply Forall_app; split; [exact IH|].
    constructor; [apply clean_nil_inv; exact Hc | constructor].
Qed.

Definition q (i s : Z) (ty : string) (o : Z) : Question :=
  {| question_id := i; survey := s; question_type := ty; order := o |}.

Definition cond (tq dq : Question) : QuestionCondition :=
  {| trigger_question := tq; trigger_answer_value := "Yes";
     dependent_question := dq |}.

(** C3: a save succeeds only with the trigger's order strictly below
    the dependent's; otherwise it raises a [ValidationError] with the
    ordering text; once a condition is saved, saving the reverse
    condition (the two questions exchanged) raises that error, so no
    table built by saves holds a circular pair. *)
Theorem C3_trigger_before_dependent : forall t c,
  (forall t', save t c = Ok t' ->
              order (trigger_question c) < order (dependent_question c))
  /\ (~ order (trigger_question c) < order (dependent_question c) ->
      raises_containing (save t c) ORDER_MESSAGE)
  /\ (forall t2 c2 t',
        circular c c2 -> save t c = Ok t' ->
        raises_containing (save t2 c2) ORDER_MESSAGE)
  /\ (saved t ->
      forall c1 c2, In c1 t -> In c2 t -> ~ circular c1 c2).
Proof.
  intros t c; repeat split.
  - intros t' H. apply clean_nil_inv. eapply save_ok_clean; eassumption.
  - intros H. apply save_raises. unfold clean.
    destruct (order (trigger_question c) <? order (dependent_question c)) eqn:Eo.
    + apply Z.ltb_lt in Eo; contradiction.
    + apply in_or_app; right; apply in_or_app; right; left; reflexivity.
  - intros t2 c2 t' [H1 H2] Hs.
    apply save_ok_clean, clean_nil_inv in Hs. destruct Hs as [_ [_ Hs]].
    rewrite H1, H2 in Hs.
    apply save_raises. unfold clean.
    destruct (order (trigger_question c2) <? order (dependent_question c2)) eqn:Eo.
    + apply Z.ltb_lt in Eo. lia.
    + apply in_or_app; right; apply in_or_app; right; left; reflexivity.
  - intros Hsaved c1 c2 Hin1 Hin2 [H1 H2].
    pose proof (saved_ordered _ Hsaved) as Hall.
    rewrite Forall_forall in Hall.
    pose proof (Hall _ Hin1) as Ho1. pose proof (Hall _ Hin2) as Ho2.
    rewrite H1, H2 in Ho1. lia.
Qed.

Lemma C3_trigger_before_dependent_witness :
  order (q 1 1 "yes_no" 1) < order (q 2 1 "yes_no" 2)
  /\ raises_containing
       (save [] (cond (q 3 1 "yes_no" 10) (q 4 1 "text" 5))) ORDER_MESSAGE
  /\ raises_containing
       (save [cond (q 1 1 "yes_no" 1) (q 2 1 "yes_no" 2)]
          (cond (q 2 1 "yes_no" 2) (q 1 1 "yes_no" 1))) ORDER_MESSAGE
  /\ ~ circular (cond (q 1 1 "yes_no" 1) (q 2 1 "yes_no" 2))
                (cond (q 1 1 "yes_no" 1) (q 2 1 "yes_no" 2)).
Proof.
  pose proof (C3_trigger_before_dependent []
                (cond (q 1 1 "yes_no" 1) (q 2 1 "yes_no" 2))) as [H1 [_ [H3 _]]].
  pose proof (C3_trigger_before_dependent []
                (cond (q 3 1 "yes_no" 10) (q 4 1 "text" 5))) as [_ [H2 _]].
  pose proof (C3_trigger_before_dependent
                [cond (q 1 1 "yes_no" 1) (q 2 1 "yes_no" 2)]
                (cond (q 1 1 "yes_no" 1) (q 2 1 "yes_no" 2))) as [_ [_ [_ H4]]].
  split; [| split; [| split]].
  - apply (H1 [cond (q 1 1 "yes_no" 1) (q 2 1 "yes_no" 2)]). reflexivity.
  - apply H2. simpl. lia.
  - apply (H3 [cond (q 1 1 "yes_no" 1) (q 2 1 "yes_no" 2)]
             (cond (q 2 1 "yes_no" 2) (q 1 1 "yes_no" 1))
             [cond (q 1 1 "yes_no" 1) (q 2 1 "yes_no" 2)]).
    + split; reflexivity.
    + reflexivity.
  - apply H4.
    + apply saved_step with (t := [])
                            (c := cond (q 1 1 "yes_no" 1) (q 2 1 "yes_no" 2)).
      * constructor.
      * reflexivity.
    + left; reflexivity.
    + left; reflexivity.
Defined.

(** C4: a save succeeds only with a trigger of type [yes_no] or
    [single_choice]; with any other type it raises a
    [ValidationError] with the trigger-type text. *)
Theorem C4_trigger_type : forall t c,
  (forall t', save t c = Ok t' ->
              question_type (trigger_question c) = "yes_no"
              \/ question_type (trigger_question c) = "single_choice")
  /\ (question_type (trigger_question c) <> "yes_no" ->
      question_type (trigger_question c) <> "single_choice" ->
      raises_containing (save t c) TRIGGER_TYPE_MESSAGE).
Proof.
  intros t c; split.
  - intros t' H. apply clean_nil_inv. eapply save_ok_clean; eassumption.
  - intros Hy Hs. apply save_raises. unfold clean.
    apply String.eqb_neq in Hy, Hs. rewrite Hy, Hs. simpl. left; reflexivity.
Qed.

Lemma C4_trigger_type_witness :
  (question_type (q 1 1 "yes_no" 1) = "yes_no"
   \/ question_type (q 1 1 "yes_no" 1) = "single_choice")
  /\ raises_containing
       (save [] (cond (q 3 1 "text" 3) (q 4 1 "text" 4))) TRIGGER_TYPE_MESSAGE.
Proof.
  split.
  - apply (proj1 (C4_trigger_type [] (cond (q 1 1 "yes_no" 1) (q 2 1 "text" 2)))
             [cond (q 1 1 "yes_no" 1) (q 2 1 "text" 2)]).
    reflexivity.
  - apply (proj2 (C4_trigger_type [] (cond (q 3 1 "text" 3) (q 4 1 "text" 4))));
      simpl; discriminate.
Defined.

(** C5: a save succeeds only when trigger and dependent question are
    of the same survey; otherwise it raises a [ValidationError] with
    the same-survey text. *)
Theorem C5_same_survey : forall t c,
  (forall t', save t c = Ok t' ->
              survey (trigger_question c) = survey (dependent_question c))
  /\ (survey (trigger_question c) <> survey (dependent_question c) ->
      raises_containing (save t c) SAME_SURVEY_MESSAGE).
Proof.
  intros t c; split.
  - intros t' H. apply clean_nil_inv. eapply save_ok_clean; eassumption.
  - intros Hne. apply save_raises. unfold clean.
    apply Z.eqb_neq in Hne. rewrite Hne.
    apply in_or_app; right; left; reflexivity.
Qed.

Lemma C5_same_survey_witness :
  survey (q 1 1 "yes_no" 1) = survey (q 2 1 "text" 2)
  /\ raises_containing
       (save [] (cond (q 1 1 "yes_no" 1) (q 5 2 "text" 1))) SAME_SURVEY_MESSAGE.
Proof.
  split.
  - apply (proj1 (C5_same_survey [] (cond (q 1 1 "yes_no" 1) (q 2 1 "text" 2)))
             [cond (q 1 1 "yes_no" 1) (q 2 1 "text" 2)]).
    reflexivity.
  - apply (proj2 (C5_same_survey [] (cond (q 1 1 "yes_no" 1) (q 5 2 "text" 1)))).
    simpl; discriminate.
Defined.

End SurveyProps.

(** * Further properties *)

(** ** Text lists of the models *)

Module ModelExtras.
Import Py PyProps Email ModelProps.

Lemma split_parts_no_sep : forall sep s,
  Forall (fun p => has_char sep p = false) (split sep s).
Proof.
  induction s as [|c r IH]; cbn [split].
  - repeat constructor.
  - destruct (Ascii.eqb c sep) eqn:E.
    + constructor; [reflexivity | exact IH].
    + destruct (split sep r) as [|h t].
      * constructor; [cbn; rewrite E; reflexivity | constructor].
      * inversion IH; subst. constructor; [| assumption].
        cbn. rewrite E. assumption.
Qed.

Lemma lstrip_no_char : forall c s, has_char c s = false -> has_char c (lstrip s) = false.
Proof.
  induction s as [|a r IH]; cbn [lstrip]; intros H; [reflexivity|].
  destruct (isspace a); [| exact H].
  cbn in H. apply orb_false_iff in H as [_ H]. apply IH; exact H.
Qed.

Lemma rstrip_no_char : forall c s, has_char c s = false -> has_char c (rstrip s) = false.
Proof.
  induction s as [|a r IH]; cbn [rstrip]; intros H; [reflexivity|].
  cbn in H. apply orb_false_iff in H as [Ha Hr]. specialize (IH Hr).
  destruct (rstrip r).
  - destruct (isspace a); [reflexivity|]. cbn. rewrite Ha. reflexivity.
  - cbn [has_char]. rewrite Ha. exact IH.
Qed.

Lemma strip_no_char : forall c s, has_char c s = false -> has_char c (strip s) = false.
Proof. intros c s H. apply rstrip_no_char, lstrip_no_char, H. Qed.

Lemma rstrip_idem : forall s, rstrip (rstrip s) = rstrip s.
Proof.
  induction s as [|a r IH]; [reflexivity|].
  cbn [rstrip]. destruct (rstrip r) as [|b t] eqn:E.
  - destruct (isspace a) eqn:Ea; [reflexivity|]. cbn. rewrite Ea. reflexivity.
  - cbn [rstrip]. cbn [rstrip] in IH. rewrite IH. reflexivity.
Qed.

Lemma lstrip_head : forall s,
  lstrip s = EmptyString
  \/ exists c r, lstrip s = String c r /\ isspace c = false.
Proof.
  induction s as [|a r IH]; [left; reflexivity|].
  cbn [lstrip]. destruct (isspace a) eqn:E; [exact IH|].
  right. exists a, r. split; [reflexivity | exact E].
Qed.

Lemma rstrip_keeps_head : forall c r,
  isspace c = false -> exists r', rstrip (String c r) = String c r'.
Proof.
  intros c r H. cbn [rstrip]. destruct (rstrip r).
  - rewrite H. eexists; reflexivity.
  - eexists; reflexivity.
Qed.

Lemma strip_idem : forall s, strip (strip s) = strip s.
Proof.
  intros s. unfold strip.
  destruct (lstrip_head s) as [E | [c [r [E Hc]]]]; rewrite E; [reflexivity|].
  destruct (rstrip_keeps_head c r Hc) as [r' E'].
  rewrite E'. rewrite (lstrip_first c r' Hc). rewrite <- E'. apply rstrip_idem.
Qed.

(** The entries [get_recipient_list] and [get_cc_list] compute from a
    stored text. *)
Definition entries (s : string) : list string :=
  filter truthy (map strip (split "," s)).

Lemma entries_normal : forall s,
  Forall (fun e => truthy e = true /\ has_char "," e = false /\ strip e = e)
    (entries s).
Proof.
  intros s. unfold entries. apply Forall_forall. intros e He.
  apply filter_In in He as [He Ht]. apply in_map_iff in He as [p [<- Hp]].
  split; [exact Ht|]. split; [| apply strip_idem].
  apply strip_no_char.
  pose proof (split_parts_no_sep "," s) as Hall.
  rewrite Forall_forall in Hall. apply Hall; exact Hp.
Qed.

Lemma entries_join : forall emails,
  Forall (fun e => truthy e = true /\ has_char "," e = false /\ strip e = e) emails ->
  emails <> [] ->
  entries (join "," emails) = emails.
Proof.
  intros emails Hall Hne. unfold entries.
  rewrite (split_join "," emails).
  - apply strip_filter_id; exact Hall.
  - eapply Forall_impl; [| exact Hall]. cbv beta. intros a [_ [Ha _]]; exact Ha.
  - exact Hne.
Qed.

Lemma get_recipient_list_entries : forall log,
  get_recipient_list log
  = if truthy (recipient_emails log) then entries (recipient_emails log) else [].
Proof.
  intros log. unfold get_recipient_list, entries.
  destruct (truthy (recipient_emails log)); reflexivity.
Qed.

(** X1: whatever text is stored, every address [get_recipient_list]
    and [get_cc_list] return is non-empty, free of commas and of
    surrounding whitespace. *)
Theorem recipient_lists_normal : forall (log : EmailLog) (e : string),
  In e (get_recipient_list log) \/ In e (get_cc_list log) ->
  truthy e = true /\ has_char "," e = false /\ strip e = e.
Proof.
  intros log e H.
  assert (He : exists s, In e (entries s)).
  { destruct H as [H|H].
    - rewrite get_recipient_list_entries in H.
      destruct (truthy (recipient_emails log)); [eauto | contradiction].
    - unfold get_cc_list in H. destruct (cc_emails log) as [s|]; [| contradiction].
      destruct (truthy s); [exists s; exact H | contradiction]. }
  destruct He as [s He].
  pose proof (entries_normal s) as Hall. rewrite Forall_forall in Hall.
  apply Hall; exact He.
Qed.

Lemma recipient_lists_normal_witness :
  truthy "b@y.org" = true /\ has_char "," "b@y.org" = false
  /\ strip "b@y.org" = "b@y.org".
Proof.
  apply (recipient_lists_normal
           (set_recipient_list sample_log [" a@x.org "; ""; "b@y.org  "])).
  left. right. left. reflexivity.
Defined.

(** X2: reading a recipient list, storing what was read and reading
    again gives the same list: one read normalises the stored text. *)
Theorem recipient_list_normalised_once : forall (log : EmailLog),
  get_recipient_list (set_recipient_list log (get_recipient_list log))
  = get_recipient_list log.
Proof.
  intros log.
  rewrite (get_recipient_list_entries (set_recipient_list log _)).
  cbn [set_recipient_list recipient_emails].
  rewrite get_recipient_list_entries.
  destruct (truthy (recipient_emails log)); [| reflexivity].
  pose proof (entries_normal (recipient_emails log)) as Hall.
  destruct (entries (recipient_emails log)) as [|e rest] eqn:E; [reflexivity|].
  inversion Hall as [|? ? [Ht _] _]; subst.
  rewrite join_truthy by exact Ht.
  apply entries_join; [exact Hall | discriminate].
Qed.

(** X3: [set_cc_list] followed by [get_cc_list] returns the list, for
    addresses that are non-empty and free of commas and surrounding
    whitespace; an unset or empty [cc_emails] reads as the empty
    list. *)
Theorem cc_list_roundtrip : forall (log : EmailLog) (emails : list string),
  (cc_emails log = None \/ cc_emails log = Some "" -> get_cc_list log = [])
  /\ (Forall (fun e => truthy e = true /\ has_char "," e = false /\ strip e = e)
        emails ->
      get_cc_list (set_cc_list log emails) = emails).
Proof.
  intros log emails. split.
  - unfold get_cc_list. intros [-> | ->]; reflexivity.
  - intros Hall. unfold get_cc_list, set_cc_list; cbn [cc_emails].
    destruct emails as [|e rest]; [reflexivity|].
    inversion Hall as [|? ? [Ht _] _]; subst.
    rewrite join_truthy by exact Ht. cbn [negb].
    apply entries_join; [exact Hall | discriminate].
Qed.

Lemma cc_list_roundtrip_witness :
  get_cc_list sample_log = []
  /\ get_cc_list (set_cc_list sample_log ["a@x.org"; "b@y.org"])
     = ["a@x.org"; "b@y.org"].
Proof.
  split.
  - apply (proj1 (cc_list_roundtrip sample_log [])). left; reflexivity.
  - apply (proj2 (cc_list_roundtrip sample_log ["a@x.org"; "b@y.org"])).
    repeat constructor.
Defined.

End ModelExtras.

(** ** Parsing the cost center ids of a draft *)

Module DraftIdsExtras.
Import Py PyProps Email ModelProps ModelExtras.

(** [n] blanks. *)
Fixpoint blanks (n : nat) : string :=
  match n with
  | O => EmptyString
  | S k => String " " (blanks k)
  end.

(** One entry of a hand-written id list: an id, or nothing, between
    blanks. *)
Definition padded (lead trail : nat) (id : option Z) : string :=
  blanks lead ++ match id with Some n => str n | None => EmptyString end
  ++ blanks trail.

Definition entry_text (it : nat * nat * option Z) : string :=
  padded (fst (fst it)) (snd (fst it)) (snd it).

Definition entry_ids (it : nat * nat * option Z) : list Z :=
  match snd it with Some n => [n] | None => [] end.

Lemma has_char_app : forall c a b,
  has_char c (a ++ b) = has_char c a || has_char c b.
Proof.
  induction a as [|x r IH]; intros b; cbn; [reflexivity|].
  rewrite IH, orb_assoc. reflexivity.
Qed.

Lemma has_char_blanks : forall n, has_char "," (blanks n) = false.
Proof. induction n; [reflexivity | exact IHn]. Qed.

Lemma lstrip_blanks : forall n s, lstrip (blanks n ++ s) = lstrip s.
Proof. induction n; intros s; [reflexivity | exact (IHn s)]. Qed.

Lemma rstrip_blanks : forall n, rstrip (blanks n) = EmptyString.
Proof. induction n; [reflexivity|]. cbn [blanks rstrip]. rewrite IHn. reflexivity. Qed.

Lemma rstrip_app_blanks : forall s n, rstrip (s ++ blanks n) = rstrip s.
Proof.
  induction s as [|c r IH]; intros n; cbn [append].
  - apply rstrip_blanks.
  - cbn [rstrip]. rewrite IH. reflexivity.
Qed.

Lemma lstrip_only_blanks : forall n, lstrip (blanks n) = EmptyString.
Proof. induction n; [reflexivity | exact IHn]. Qed.

Lemma lstrip_length : forall s, (String.length (lstrip s) <= String.length s)%nat.
Proof.
  induction s as [|c r IH]; cbn [lstrip]; [lia|].
  destruct (isspace c); cbn [String.length] in *; lia.
Qed.

Lemma rstrip_length : forall s, (String.length (rstrip s) <= String.length s)%nat.
Proof.
  induction s as [|c r IH]; cbn [rstrip]; [lia|].
  destruct (rstrip r); [destruct (isspace c)|]; cbn [String.length] in *; lia.
Qed.

Lemma strip_fixed_head : forall c r,
  strip (String c r) = String c r -> isspace c = false.
Proof.
  intros c r H. destruct (isspace c) eqn:E; [| reflexivity].
  exfalso. unfold strip in H. cbn [lstrip] in H. rewrite E in H.
  pose proof (rstrip_length (lstrip r)) as H1.
  pose proof (lstrip_length r) as H2.
  rewrite H in H1. cbn [String.length] in H1. lia.
Qed.

Lemma strip_padded : forall lead trail s,
  strip s = s -> strip (blanks lead ++ s ++ blanks trail) = s.
Proof.
  intros lead trail s Hs. unfold strip. rewrite lstrip_blanks.
  destruct s as [|c r].
  - cbn [append]. rewrite lstrip_only_blanks. reflexivity.
  - pose proof (strip_fixed_head c r Hs) as Hc.
    unfold strip in Hs. rewrite (lstrip_first c r Hc) in Hs.
    cbn [append]. rewrite (lstrip_first c _ Hc).
    change (String c (r ++ blanks trail)) with (String c r ++ blanks trail).
    rewrite rstrip_app_blanks. exact Hs.
Qed.

Lemma entry_no_comma : forall it, has_char "," (entry_text it) = false.
Proof.
  intros [[lead trail] id]. unfold entry_text, padded; cbn [fst snd].
  rewrite !has_char_app, !has_char_blanks.
  destruct id as [n|]; [| reflexivity].
  destruct (str_shape n) as [_ [H _]]. rewrite H. reflexivity.
Qed.

Lemma strip_entry : forall it,
  strip (entry_text it)
  = match snd it with Some n => str n | None => EmptyString end.
Proof.
  intros [[lead trail] id]. unfold entry_text, padded; cbn [fst snd].
  apply strip_padded. destruct id as [n|]; [apply str_shape | reflexivity].
Qed.

Lemma parse_ids_entries : forall items,
  parse_ids (map entry_text items) = Ok (flat_map entry_ids items).
Proof.
  induction items as [|it rest IH]; [reflexivity|].
  cbn [map parse_ids flat_map]. rewrite strip_entry, IH.
  unfold entry_ids. destruct (snd it) as [n|]; [| reflexivity].
  destruct (str_shape n) as [Ht _]. rewrite Ht, int_str. reflexivity.
Qed.

(** An entry the comprehension passes over or converts. *)
Definition passes (s : string) : Prop :=
  has_char "," s = false
  /\ plain s = true
  /\ (truthy (strip s) = false \/ exists n, int (strip s) = Ok n).

Lemma parse_ids_first_bad : forall before bad rest e,
  Forall passes before ->
  truthy (strip bad) = true ->
  int (strip bad) = Raise e ->
  parse_ids (before ++ bad :: rest) = Raise e.
Proof.
  induction before as [|s before IH]; intros bad rest e Hb Ht He.
  - cbn [List.app parse_ids]. rewrite Ht, He. reflexivity.
  - inversion Hb as [|? ? [_ [_ Hs]] Hb']; subst.
    cbn [List.app parse_ids]. rewrite (IH bad rest e Hb' Ht He).
    destruct Hs as [Hs|[n Hs]].
    + rewrite Hs. reflexivity.
    + rewrite Hs. destruct (truthy (strip s)); reflexivity.
Qed.

Definition draft_with_ids (text : string) : EmailDraft :=
  {| draft_pk := 1; draft_user := 9; draft_template := None;
     draft_send_type := "SPECIFIC"; draft_subject := "Hi";
     draft_body_html := "<p>x</p>"; cost_center_ids := Some text;
     draft_name := None; draft_is_deleted := false |}.

(** X4: [get_cost_center_list] accepts a hand-written list: blanks
    around an id and entries that are empty or blank are ignored, and
    the ids come back in order. *)
Theorem cost_center_list_tolerates_blanks :
  forall (draft : EmailDraft) (items : list (nat * nat * option Z)),
    cost_center_ids draft = Some (join "," (map entry_text items)) ->
    get_cost_center_list draft = Ok (flat_map entry_ids items).
Proof.
  intros draft items Hs. unfold get_cost_center_list. rewrite Hs.
  destruct (truthy (join "," (map entry_text items))) eqn:Ht; cbn [negb].
  - destruct items as [|it rest]; [discriminate|].
    rewrite (split_join "," (map entry_text (it :: rest))).
    + apply parse_ids_entries.
    + apply Forall_forall. intros x Hx. apply in_map_iff in Hx as [y [<- _]].
      apply entry_no_comma.
    + discriminate.
  - (* the whole text is empty: every entry is empty *)
    symmetry. rewrite <- (parse_ids_entries items).
    destruct items as [|it rest]; [reflexivity|].
    assert (Hit : entry_text it = EmptyString).
    { cbn [map] in Ht. destruct (entry_text it) eqn:E; [reflexivity|].
      rewrite join_truthy in Ht by reflexivity. discriminate. }
    destruct rest as [|it' rest'].
    + cbn [map parse_ids]. rewrite Hit. reflexivity.
    + exfalso. cbn [map] in Ht.
      change (join "," (entry_text it :: entry_text it' :: map entry_text rest'))
        with (entry_text it ++ "," ++ join "," (entry_text it' :: map entry_text rest'))
        in Ht.
      rewrite Hit in Ht. discriminate.
Qed.

Lemma cost_center_list_tolerates_blanks_witness :
  get_cost_center_list (draft_with_ids " 3,14 ,, 15,") = Ok [3; 14; 15].
Proof.
  apply (cost_center_list_tolerates_blanks (draft_with_ids " 3,14 ,, 15,")
           [(1%nat, 0%nat, Some 3); (0%nat, 1%nat, Some 14); (0%nat, 0%nat, None);
            (1%nat, 0%nat, Some 15); (0%nat, 0%nat, None)]).
  reflexivity.
Defined.

(** X5: the first entry that is neither blank nor an integer literal
    makes [get_cost_center_list] raise the [ValueError] of that entry:
    when every entry before it is blank or converts, the call raises
    it whatever follows, and no partial list is returned.  (Entries
    are ASCII text within the digit limit of [int].) *)
Theorem cost_center_list_raises_on_bad_entry :
  forall (draft : EmailDraft) (before : list string)
         (bad : string) (rest : list string) (e : Exception),
    cost_center_ids draft = Some (join "," (before ++ bad :: rest)) ->
    Forall passes before ->
    has_char "," bad = false ->
    plain bad = true ->
    Forall (fun s => has_char "," s = false) rest ->
    truthy (strip bad) = true ->
    int (strip bad) = Raise e ->
    get_cost_center_list draft = Raise e
    /\ e = int_error (strip bad).
Proof.
  intros draft before bad rest e Hs Hbefore Hbad _ Hrest Ht He.
  split.
  2:{ unfold int in He.
      destruct (rtrim int_space (ltrim int_space (strip bad))) as [|c r];
        [| destruct c as [[] [] [] [] [] [] [] []]];
        destruct (parse_digits _ 0 false); inversion He; reflexivity. }
  unfold get_cost_center_list. rewrite Hs.
  assert (Hall : Forall (fun s => has_char "," s = false)
                   (before ++ bad :: rest)).
  { apply Forall_app; split.
    - apply Forall_forall. intros x Hx. rewrite Forall_forall in Hbefore.
      apply (Hbefore x Hx).
    - constructor; assumption. }
  assert (Hne : (before ++ bad :: rest)%list <> [])
    by (destruct before; discriminate).
  pose proof (split_join "," _ Hall Hne) as Hsplit.
  destruct (truthy (join "," (before ++ bad :: rest))) eqn:Hj;
    cbn [negb].
  - rewrite Hsplit. apply parse_ids_first_bad; assumption.
  - (* an empty text has a single, empty entry *)
    exfalso.
    destruct (join "," (before ++ bad :: rest)); [| discriminate].
    cbn [split] in Hsplit.
    destruct before as [|x xs]; cbn [List.app] in Hsplit.
    + inversion Hsplit; subst. discriminate.
    + inversion Hsplit as [[Hx Hxs]]. destruct xs; discriminate.
Qed.

Lemma cost_center_list_raises_on_bad_entry_witness :
  get_cost_center_list (draft_with_ids "3, +1_0 ,, x4,y,5")
  = Raise (ValueError "invalid literal for int() with base 10: 'x4'").
Proof.
  assert (Hbefore : Forall passes ["3"; " +1_0 "; ""]).
  { constructor; [| constructor; [| constructor; [| constructor]]];
      (split; [reflexivity | split; [reflexivity|]]).
    - right. exists 3. reflexivity.
    - right. exists 10. reflexivity.
    - left. reflexivity. }
  assert (Hrest : Forall (fun s => has_char "," s = false) ["y"; "5"])
    by (repeat constructor).
  apply (proj1 (cost_center_list_raises_on_bad_entry
                  (draft_with_ids "3, +1_0 ,, x4,y,5")
                  ["3"; " +1_0 "; ""] " x4" ["y"; "5"]
                  (ValueError "invalid literal for int() with base 10: 'x4'")
                  eq_refl Hbefore eq_refl eq_refl Hrest eq_refl eq_refl)).
Defined.

End DraftIdsExtras.

(** ** Inbox rows: managers, flags and the views that flip them *)

Module InboxExtras.
Import Py Email Views.
Local Open Scope py_scope.

Lemma world_eta : forall w,
  with_database w
    (with_recipient_views (database w) (recipient_views (database w))
       (next_view_id (database w))) = w.
Proof. intros [[] m]. reflexivity. Qed.

(** An update of the rows of key [pk] only. *)
Definition at_key (pk : Z) (f : EmailRecipientView -> EmailRecipientView)
    (v : EmailRecipientView) : EmailRecipientView :=
  if rv_id v =? pk then f v else v.

Lemma at_key_other : forall pk f v, rv_id v <> pk -> at_key pk f v = v.
Proof. intros pk f v H. unfold at_key. apply Z.eqb_neq in H. rewrite H. reflexivity. Qed.

Lemma at_key_same : forall pk f v, rv_id v = pk -> at_key pk f v = f v.
Proof. intros pk f v H. unfold at_key. rewrite H, Z.eqb_refl. reflexivity. Qed.

Lemma key_unique : forall (l : list EmailRecipientView) x v,
  NoDup (map rv_id l) -> In x l -> In v l -> rv_id v = rv_id x -> v = x.
Proof.
  induction l as [|a l IH]; intros x v Hnd Hx Hv Hk; [contradiction|].
  cbn [map] in Hnd. inversion Hnd as [|? ? Hnotin Hnd']; subst.
  destruct Hx as [Hx|Hx], Hv as [Hv|Hv]; subst.
  - reflexivity.
  - exfalso; apply Hnotin. rewrite <- Hk. apply in_map; exact Hv.
  - exfalso; apply Hnotin. rewrite Hk. apply in_map; exact Hx.
  - apply IH; assumption.
Qed.

(** Counting the rows that satisfy [P] after the row [x] was rewritten. *)
Lemma filter_length_at_key : forall (l : list EmailRecipientView) f P x,
  NoDup (map rv_id l) -> In x l ->
  (List.length (filter P (map (at_key (rv_id x) f) l))
   + (if P x then 1 else 0)
   = List.length (filter P l) + (if P (f x) then 1 else 0))%nat.
Proof.
  induction l as [|a l IH]; intros f P x Hnd Hx; [contradiction|].
  cbn [map] in Hnd. inversion Hnd as [|? ? Hnotin Hnd']; subst.
  cbn [map filter].
  destruct Hx as [->|Hx].
  - rewrite at_key_same by reflexivity.
    assert (Hrest : map (at_key (rv_id x) f) l = l).
    { rewrite <- (map_id l) at 2. apply map_ext_in. intros v Hv.
      apply at_key_other. intros Hk. apply Hnotin. rewrite <- Hk.
      apply in_map; exact Hv. }
    rewrite Hrest. destruct (P x), (P (f x)); cbn [List.length]; lia.
  - assert (Ha : rv_id a <> rv_id x).
    { intros Hk. apply Hnotin. rewrite Hk. apply in_map; exact Hx. }
    rewrite (at_key_other _ _ _ Ha).
    specialize (IH f P x Hnd' Hx).
    destruct (P a); cbn [List.length]; lia.
Qed.

Lemma filter_map_unaffected : forall (l : list EmailRecipientView) f P,
  (forall v, In v l -> P (f v) = P v /\ (P v = true -> f v = v)) ->
  filter P (map f l) = filter P l.
Proof.
  induction l as [|a l IH]; intros f P H; [reflexivity|].
  cbn [map filter]. destruct (H a (or_introl eq_refl)) as [H1 H2].
  rewrite H1, IH by (intros v Hv; apply H; right; exact Hv).
  destruct (P a); [rewrite (H2 eq_refl)|]; reflexivity.
Qed.

Lemma get_recipient_view_some : forall pk user d rv,
  get_recipient_view pk user d = Some rv ->
  In rv (recipient_views d) /\ rv_id rv = pk /\ recipient_user rv = user_id user.
Proof.
  intros pk user d rv H. unfold get_recipient_view in H.
  apply find_some in H as [Hin Hb].
  apply andb_true_iff in Hb as [H1 H2].
  apply Z.eqb_eq in H1, H2. auto.
Qed.

Lemma get_recipient_view_none : forall pk user d,
  get_recipient_view pk user d = None ->
  forall v, In v (recipient_views d) ->
            rv_id v = pk -> recipient_user v <> user_id user.
Proof.
  intros pk user d H v Hin Hk Hu. unfold get_recipient_view in H.
  pose proof (find_none _ _ H v Hin) as Hb. cbv beta in Hb.
  rewrite Hk, Hu, !Z.eqb_refl in Hb. discriminate.
Qed.

(** The write of [save_update_fields] on a stored row. *)
Lemma save_update_fields_stored : forall write self w,
  (exists v, In v (recipient_views (database w)) /\ rv_id v = rv_id self) ->
  save_update_fields write self w
  = (with_database w
       (with_recipient_views (database w)
          (map (at_key (rv_id self) (write self)) (recipient_views (database w)))
          (next_view_id (database w))),
     Ok tt).
Proof.
  intros write self w [v [Hin Hk]]. unfold save_update_fields.
  assert (He : existsb (fun x => rv_id x =? rv_id self)
                 (recipient_views (database w)) = true).
  { apply existsb_exists. exists v. split; [exact Hin | apply Z.eqb_eq; exact Hk]. }
  rewrite He. reflexivity.
Qed.

Lemma save_read_fields_stored : forall self w,
  (exists v, In v (recipient_views (database w)) /\ rv_id v = rv_id self) ->
  save_read_fields self w
  = (with_database w
       (with_recipient_views (database w)
          (map (at_key (rv_id self)
                  (fun v => set_read v (is_read self) (read_at self)))
             (recipient_views (database w)))
          (next_view_id (database w))),
     Ok tt).
Proof.
  intros self w [v [Hin Hk]]. unfold save_read_fields.
  assert (He : existsb (fun x => rv_id x =? rv_id self)
                 (recipient_views (database w)) = true).
  { apply existsb_exists. exists v. split; [exact Hin | apply Z.eqb_eq; exact Hk]. }
  rewrite He. reflexivity.
Qed.

Definition is_unread_for (user : User) (v : EmailRecipientView) : bool :=
  (recipient_user v =? user_id user) && negb (is_read v) && negb (is_archived v).

(** X6: the managers of the inbox.  The inbox and the archive of a user
    split that user's rows: a row is in exactly one of them; unread and
    starred rows are inbox rows; so [unread_count] never exceeds the
    size of the inbox. *)
Theorem inbox_archive_partition : forall (user : User) (d : DB),
  (forall v, In v (recipient_views d) -> recipient_user v = user_id user ->
             (In v (inbox_for_user user d) /\ ~ In v (archived_for_user user d))
             \/ (In v (archived_for_user user d) /\ ~ In v (inbox_for_user user d)))
  /\ (List.length (inbox_for_user user d) + List.length (archived_for_user user d)
      = List.length (filter (fun v => Z.eqb (recipient_user v) (user_id user))
                       (recipient_views d)))%nat
  /\ incl (unread_for_user user d) (inbox_for_user user d)
  /\ incl (starred_for_user user d) (inbox_for_user user d)
  /\ 0 <= unread_count user d <= Z.of_nat (List.length (inbox_for_user user d)).
Proof.
  intros user d.
  unfold inbox_for_user, archived_for_user, unread_for_user, starred_for_user,
    unread_count.
  split; [| split; [| split; [| split]]].
  - intros v Hin Hu. apply Z.eqb_eq in Hu.
    destruct (is_archived v) eqn:Ea; [right | left]; rewrite !filter_In;
      rewrite Hu, Ea; cbn; intuition discriminate.
  - induction (recipient_views d) as [|a l IH]; [reflexivity|].
    cbn [filter]. destruct (recipient_user a =? user_id user), (is_archived a);
      cbn [andb negb List.length]; lia.
  - intros v Hv. apply filter_In in Hv as [Hin Hb]. apply filter_In.
    split; [exact Hin|].
    apply andb_true_iff in Hb as [Hb Ha]. apply andb_true_iff in Hb as [Hu _].
    rewrite Hu, Ha. reflexivity.
  - intros v Hv. apply filter_In in Hv as [Hin Hb]. apply filter_In.
    split; [exact Hin|].
    apply andb_true_iff in Hb as [Hb Ha]. apply andb_true_iff in Hb as [Hu _].
    rewrite Hu, Ha. reflexivity.
  - split; [lia|]. apply inj_le. unfold unread_for_user.
    induction (recipient_views d) as [|a l IH]; [cbn; lia|].
    cbn [filter].
    destruct (recipient_user a =? user_id user), (is_read a), (is_archived a);
      cbn [andb negb List.length]; lia.
Qed.

(** A database holding one unread, starred inbox row of user 7. *)
Definition one_row_db : DB :=
  {| cost_centers := []; cost_center_emails := []; users := [];
     email_templates := []; email_drafts := []; email_logs := [];
     recipient_views := [ModelProps.unread_row];
     next_log_id := 2; next_view_id := 2 |}.

Definition one_row_world : World :=
  {| database := one_row_db; mail_attempts := [] |}.

Definition user7 : User := {| user_id := 7; user_email := "a@x.org" |}.
Definition user8 : User := {| user_id := 8; user_email := "b@x.org" |}.

Lemma inbox_archive_partition_witness :
  In ModelProps.unread_row (inbox_for_user user7 one_row_db).
Proof.
  destruct (proj1 (inbox_archive_partition user7 one_row_db)
              ModelProps.unread_row (or_introl eq_refl) eq_refl)
    as [[H _]|[H _]]; [exact H|].
  exfalso. vm_compute in H. exact H.
Defined.

(** X7: [MarkEmailReadView] (and the marking step of
    [InboxDetailView]).  It answers 404 and changes nothing unless the
    key is a row of the requesting user; otherwise the stored row is
    read afterwards, the user's [unread_count] drops by one exactly
    when the row was an unread inbox row, and no other user's unread
    list changes. *)
Theorem mark_read_view_effect : forall (now : Z) (user : User) (pk : Z) (w : World),
  NoDup (map rv_id (recipient_views (database w))) ->
  exists w' resp,
    mark_email_read_view now user pk w = (w', Ok resp)
    /\ match get_recipient_view pk user (database w) with
       | None => resp = Http404 /\ w' = w
       | Some rv =>
           exists rv',
             resp = Http200 rv'
             /\ is_read rv' = true
             /\ In rv' (recipient_views (database w'))
             /\ unread_count user (database w')
                = unread_count user (database w)
                  - (if negb (is_read rv) && negb (is_archived rv) then 1 else 0)
             /\ (forall other, user_id other <> user_id user ->
                   unread_for_user other (database w')
                   = unread_for_user other (database w))
       end.
Proof.
  intros now user pk w Hnd. unfold mark_email_read_view.
  unfold bind at 1. unfold query at 1.
  destruct (get_recipient_view pk user (database w)) as [rv|] eqn:Hget.
  - destruct (get_recipient_view_some _ _ _ _ Hget) as [Hin [Hk Hu]].
    unfold mark_as_read. destruct (is_read rv) eqn:Hr; cbn [negb fst snd].
    + unfold bind, ret. exists w, (Http200 rv). split; [reflexivity|].
      exists rv. repeat split; auto. cbn. lia.
    + unfold bind at 1.
      rewrite save_read_fields_stored by (exists rv; split; [exact Hin | reflexivity]).
      unfold ret. eexists; eexists; split; [reflexivity|].
      cbn [set_read rv_id is_read read_at].
      set (f := fun v => set_read v true (Some now)).
      exists (set_read rv true (Some now)).
      split; [reflexivity|]. split; [reflexivity|].
      split.
      { cbn. apply in_map_iff. exists rv. split; [| exact Hin].
        apply at_key_same; reflexivity. }
      split.
      { unfold unread_count, unread_for_user. cbn.
        pose proof (filter_length_at_key (recipient_views (database w)) f
                      (is_unread_for user) rv Hnd Hin) as Hc.
        assert (HP : is_unread_for user rv = negb (is_archived rv)).
        { unfold is_unread_for. rewrite Hu, Z.eqb_refl, Hr. reflexivity. }
        assert (HPf : is_unread_for user (f rv) = false).
        { unfold is_unread_for, f. cbn [set_read is_read recipient_user].
          rewrite andb_false_r. reflexivity. }
        rewrite HP, HPf in Hc. fold (is_unread_for user) .
        change (fun v => (recipient_user v =? user_id user) && negb (is_read v)
                         && negb (is_archived v)) with (is_unread_for user).
        destruct (is_archived rv); cbn [negb andb] in *; lia. }
      intros other Hother. unfold unread_for_user. cbn.
      apply filter_map_unaffected. intros v Hv. unfold at_key.
      destruct (rv_id v =? rv_id rv) eqn:E; [| split; reflexivity].
      apply Z.eqb_eq in E.
      rewrite (key_unique _ rv v Hnd Hin Hv E). unfold f.
      cbn [set_read recipient_user is_read is_archived]. rewrite Hu.
      assert (E2 : (user_id user =? user_id other) = false)
        by (apply Z.eqb_neq; intros Hc; apply Hother; symmetry; exact Hc).
      rewrite E2. split; [reflexivity | discriminate].
  - unfold ret. exists w, Http404. repeat split.
Qed.

Lemma mark_read_view_effect_witness :
  exists w' rv',
    mark_email_read_view 100 user7 1 one_row_world = (w', Ok (Http200 rv'))
    /\ unread_count user7 (database w') = 0.
Proof.
  destruct (mark_read_view_effect 100 user7 1 one_row_world)
    as [w' [resp [Hrun Hres]]].
  - repeat constructor. intros [].
  - change (get_recipient_view 1 user7 (database one_row_world))
      with (Some ModelProps.unread_row) in Hres.
    destruct Hres as [rv' [-> [_ [_ [Hcount _]]]]].
    exists w', rv'. split; [exact Hrun | exact Hcount].
Defined.

Lemma toggle_row_twice : forall rv,
  set_starred (set_starred rv (negb (is_starred rv))) (is_starred rv) = rv
  /\ set_archived (set_archived rv (negb (is_archived rv))) (is_archived rv) = rv.
Proof. intros []. split; reflexivity. Qed.

(** The state after a toggle view found and rewrote the row [rv]. *)
Definition rewritten (w : World) (rv : EmailRecipientView)
    (f : EmailRecipientView -> EmailRecipientView) : World :=
  with_database w
    (with_recipient_views (database w)
       (map (at_key (rv_id rv) f) (recipient_views (database w)))
       (next_view_id (database w))).

Lemma rewritten_views : forall w rv f,
  recipient_views (database (rewritten w rv f))
  = map (at_key (rv_id rv) f) (recipient_views (database w)).
Proof. reflexivity. Qed.

Lemma rewritten_back : forall w rv f g,
  NoDup (map rv_id (recipient_views (database w))) ->
  In rv (recipient_views (database w)) ->
  rv_id (f rv) = rv_id rv ->
  g (f rv) = rv ->
  rewritten (rewritten w rv f) (f rv) g = w.
Proof.
  intros w rv f g Hnd Hin Hk Hg. unfold rewritten at 1.
  rewrite rewritten_views, Hk, map_map.
  assert (Hid : map (fun v => at_key (rv_id rv) g (at_key (rv_id rv) f v))
                  (recipient_views (database w))
                = recipient_views (database w)).
  { rewrite <- (map_id (recipient_views (database w))) at 2.
    apply map_ext_in. intros v Hv.
    destruct (Z.eq_dec (rv_id v) (rv_id rv)) as [E|E].
    - rewrite (key_unique _ rv v Hnd Hin Hv E).
      rewrite (at_key_same _ f rv eq_refl), (at_key_same _ g (f rv) Hk). exact Hg.
    - rewrite (at_key_other _ f v E), (at_key_other _ g v E). reflexivity. }
  rewrite Hid. destruct w as [[] m]. reflexivity.
Qed.

Lemma star_view_run : forall user pk w rv,
  get_recipient_view pk user (database w) = Some rv ->
  toggle_star_view user pk w
  = (rewritten w rv (fun v => set_starred v (negb (is_starred rv))),
     Ok (Http200 (negb (is_starred rv)))).
Proof.
  intros user pk w rv Hget.
  destruct (get_recipient_view_some _ _ _ _ Hget) as [Hin [Hk Hu]].
  unfold toggle_star_view. unfold bind at 1. unfold query at 1. rewrite Hget.
  unfold toggle_starred; cbn [fst snd]. unfold bind at 1.
  rewrite save_update_fields_stored by (exists rv; split; [exact Hin | reflexivity]).
  reflexivity.
Qed.

Lemma archive_view_run : forall user pk w rv,
  get_recipient_view pk user (database w) = Some rv ->
  toggle_archive_view user pk w
  = (rewritten w rv (fun v => set_archived v (negb (is_archived rv))),
     Ok (Http200 (negb (is_archived rv)))).
Proof.
  intros user pk w rv Hget.
  destruct (get_recipient_view_some _ _ _ _ Hget) as [Hin [Hk Hu]].
  unfold toggle_archive_view. unfold bind at 1. unfold query at 1. rewrite Hget.
  unfold toggle_archived; cbn [fst snd]. unfold bind at 1.
  rewrite save_update_fields_stored by (exists rv; split; [exact Hin | reflexivity]).
  reflexivity.
Qed.

Lemma get_after_rewrite : forall user pk w rv f,
  NoDup (map rv_id (recipient_views (database w))) ->
  get_recipient_view pk user (database w) = Some rv ->
  rv_id (f rv) = rv_id rv ->
  recipient_user (f rv) = recipient_user rv ->
  get_recipient_view pk user (database (rewritten w rv f)) = Some (f rv).
Proof.
  intros user pk w rv f Hnd Hget Hk Hu.
  destruct (get_recipient_view_some _ _ _ _ Hget) as [Hin [Hpk Huser]].
  unfold get_recipient_view. rewrite rewritten_views.
  induction (recipient_views (database w)) as [|a l IH]; [contradiction|].
  cbn [map] in Hnd. inversion Hnd as [|? ? Hnotin Hnd']; subst.
  cbn [map find].
  destruct (Z.eq_dec (rv_id a) (rv_id rv)) as [E|E].
  - assert (a = rv).
    { apply (key_unique (a :: l) rv a); [constructor; assumption | exact Hin
                                         | left; reflexivity | exact E]. }
    subst a. rewrite (at_key_same _ f rv eq_refl), Hk, Hu, Huser, !Z.eqb_refl.
    reflexivity.
  - rewrite (at_key_other _ f a E).
    apply Z.eqb_neq in E. rewrite E. cbn [andb].
    destruct Hin as [->|Hin]; [rewrite Z.eqb_refl in E; discriminate|].
    apply IH; assumption.
Qed.

(** X8: [ToggleStarView] and [ToggleArchiveView] are involutions on the
    stored state: called twice on a row of the requesting user (keys
    being unique), each answers the flipped flag and the second call
    restores the state exactly; on a key that is not a row of the user
    they answer 404 and change nothing. *)
Theorem toggle_views_twice : forall (user : User) (pk : Z) (w : World),
  NoDup (map rv_id (recipient_views (database w))) ->
  match get_recipient_view pk user (database w) with
  | None =>
      toggle_star_view user pk w = (w, Ok Http404)
      /\ toggle_archive_view user pk w = (w, Ok Http404)
  | Some rv =>
      (exists w1,
         toggle_star_view user pk w = (w1, Ok (Http200 (negb (is_starred rv))))
         /\ toggle_star_view user pk w1 = (w, Ok (Http200 (is_starred rv))))
      /\ (exists w1,
            toggle_archive_view user pk w
            = (w1, Ok (Http200 (negb (is_archived rv))))
            /\ toggle_archive_view user pk w1
               = (w, Ok (Http200 (is_archived rv))))
  end.
Proof.
  intros user pk w Hnd.
  destruct (get_recipient_view pk user (database w)) as [rv|] eqn:Hget.
  - destruct (get_recipient_view_some _ _ _ _ Hget) as [Hin [Hk Hu]].
    destruct (toggle_row_twice rv) as [Hs Ha].
    split.
    + eexists. split; [apply (star_view_run _ _ _ _ Hget)|].
      set (f := fun v => set_starred v (negb (is_starred rv))).
      rewrite (star_view_run user pk _ (f rv))
        by (apply get_after_rewrite; auto).
      cbn [f set_starred is_starred]. rewrite negb_involutive. f_equal.
      apply (rewritten_back w rv f); auto.
    + eexists. split; [apply (archive_view_run _ _ _ _ Hget)|].
      set (f := fun v => set_archived v (negb (is_archived rv))).
      rewrite (archive_view_run user pk _ (f rv))
        by (apply get_after_rewrite; auto).
      cbn [f set_archived is_archived]. rewrite negb_involutive. f_equal.
      apply (rewritten_back w rv f); auto.
  - unfold toggle_star_view, toggle_archive_view, bind, query, ret.
    rewrite Hget. split; reflexivity.
Qed.

Lemma toggle_views_twice_witness :
  (exists w1,
     toggle_star_view user7 1 one_row_world = (w1, Ok (Http200 false))
     /\ toggle_star_view user7 1 w1 = (one_row_world, Ok (Http200 true)))
  /\ toggle_archive_view user8 1 one_row_world = (one_row_world, Ok Http404).
Proof.
  assert (Hnd : NoDup (map rv_id (recipient_views (database one_row_world))))
    by (repeat constructor; intros []).
  split.
  - apply (proj1 (toggle_views_twice user7 1 one_row_world Hnd)).
  - apply (proj2 (toggle_views_twice user8 1 one_row_world Hnd)).
Defined.

Definition in_inbox_of (user : User) (v : EmailRecipientView) : bool :=
  (recipient_user v =? user_id user) && negb (is_archived v).

Definition in_archive_of (user : User) (v : EmailRecipientView) : bool :=
  (recipient_user v =? user_id user) && is_archived v.

(** X9: [ToggleArchiveView] on a row of the requesting user moves it
    between the inbox and the archive: archiving an inbox row makes the
    inbox one row shorter and the archive one row longer, unarchiving
    does the reverse, and the inbox and archive of every other user
    stay as they were. *)
Theorem archive_view_moves_row :
  forall (user : User) (pk : Z) (w : World) (rv : EmailRecipientView),
    NoDup (map rv_id (recipient_views (database w))) ->
    get_recipient_view pk user (database w) = Some rv ->
    exists w',
      toggle_archive_view user pk w = (w', Ok (Http200 (negb (is_archived rv))))
      /\ In (set_archived rv (negb (is_archived rv)))
           (if is_archived rv
            then inbox_for_user user (database w')
            else archived_for_user user (database w'))
      /\ Z.of_nat (List.length (inbox_for_user user (database w')))
         = Z.of_nat (List.length (inbox_for_user user (database w)))
           + (if is_archived rv then 1 else -1)
      /\ Z.of_nat (List.length (archived_for_user user (database w')))
         = Z.of_nat (List.length (archived_for_user user (database w)))
           - (if is_archived rv then 1 else -1)
      /\ (forall other, user_id other <> user_id user ->
            inbox_for_user other (database w') = inbox_for_user other (database w)
            /\ archived_for_user other (database w')
               = archived_for_user other (database w)).
Proof.
  intros user pk w rv Hnd Hget.
  destruct (get_recipient_view_some _ _ _ _ Hget) as [Hin [Hk Hu]].
  eexists. split; [apply (archive_view_run _ _ _ _ Hget)|].
  set (f := fun v => set_archived v (negb (is_archived rv))).
  unfold inbox_for_user, archived_for_user. rewrite rewritten_views.
  fold (in_inbox_of user) (in_archive_of user).
  change (fun v => (recipient_user v =? user_id user) && negb (is_archived v))
    with (in_inbox_of user).
  change (fun v => (recipient_user v =? user_id user) && is_archived v)
    with (in_archive_of user).
  assert (Hi : in_inbox_of user rv = negb (is_archived rv)).
  { unfold in_inbox_of. rewrite Hu, Z.eqb_refl. reflexivity. }
  assert (Ha : in_archive_of user rv = is_archived rv).
  { unfold in_archive_of. rewrite Hu, Z.eqb_refl. reflexivity. }
  assert (Hi' : in_inbox_of user (f rv) = is_archived rv).
  { unfold in_inbox_of, f. cbn [set_archived recipient_user is_archived].
    rewrite Hu, Z.eqb_refl, negb_involutive. reflexivity. }
  assert (Ha' : in_archive_of user (f rv) = negb (is_archived rv)).
  { unfold in_archive_of, f. cbn [set_archived recipient_user is_archived].
    rewrite Hu, Z.eqb_refl. reflexivity. }
  pose proof (filter_length_at_key _ f (in_inbox_of user) rv Hnd Hin) as Hci.
  pose proof (filter_length_at_key _ f (in_archive_of user) rv Hnd Hin) as Hca.
  rewrite Hi, Hi' in Hci. rewrite Ha, Ha' in Hca.
  assert (Hfin : In (f rv) (map (at_key (rv_id rv) f) (recipient_views (database w)))).
  { apply in_map_iff. exists rv. split; [apply at_key_same; reflexivity | exact Hin]. }
  change (set_archived rv (negb (is_archived rv))) with (f rv).
  split.
  { destruct (is_archived rv); apply filter_In; (split; [exact Hfin|]).
    - exact Hi'.
    - exact Ha'. }
  split; [destruct (is_archived rv); cbn [negb] in *; lia|].
  split; [destruct (is_archived rv); cbn [negb] in *; lia|].
  intros other Hother.
  assert (E2 : (user_id user =? user_id other) = false)
    by (apply Z.eqb_neq; intros Hc; apply Hother; symmetry; exact Hc).
  split; apply filter_map_unaffected; intros v Hv; unfold at_key;
    (destruct (rv_id v =? rv_id rv) eqn:E; [| split; reflexivity]);
    apply Z.eqb_eq in E; rewrite (key_unique _ rv v Hnd Hin Hv E); unfold f;
    cbn [set_archived recipient_user is_archived]; rewrite Hu, E2;
    (split; [reflexivity | discriminate]).
Qed.

Lemma archive_view_moves_row_witness :
  exists w',
    toggle_archive_view user7 1 one_row_world = (w', Ok (Http200 true))
    /\ Z.of_nat (List.length (inbox_for_user user7 (database w'))) = 0
    /\ Z.of_nat (List.length (archived_for_user user7 (database w'))) = 1.
Proof.
  destruct (archive_view_moves_row user7 1 one_row_world ModelProps.unread_row)
    as [w' [Hrun [_ [Hi [Ha _]]]]].
  - repeat constructor. intros [].
  - reflexivity.
  - exists w'. split; [exact Hrun|]. split; [exact Hi | exact Ha].
Defined.

End InboxExtras.

(** ** What a send writes and mails *)

Module ServiceExtras.
Import Py Email ServiceProps.
Local Open Scope py_scope.

Lemma extends_unique : forall w w' l1 v1 l2 v2,
  extends w w' l1 v1 -> extends w w' l2 v2 -> l1 = l2 /\ v1 = v2.
Proof.
  intros w w' l1 v1 l2 v2 H1 H2.
  pose proof (extends_logs _ _ _ _ H1) as A1.
  pose proof (extends_logs _ _ _ _ H2) as A2.
  pose proof (extends_views _ _ _ _ H1) as B1.
  pose proof (extends_views _ _ _ _ H2) as B2.
  rewrite A1 in A2. rewrite B1 in B2.
  split; eapply app_inv_head; eassumption.
Qed.

Lemma extends_static : forall w w' l v,
  extends w w' l v ->
  cost_centers (database w') = cost_centers (database w)
  /\ cost_center_emails (database w') = cost_center_emails (database w)
  /\ users (database w') = users (database w)
  /\ email_templates (database w') = email_templates (database w)
  /\ email_drafts (database w') = email_drafts (database w).
Proof. intros w w' l v H. rewrite H. repeat split. Qed.

(** A tracking row as a send leaves it: unread, unstarred, in the
    inbox. *)
Definition untouched (v : EmailRecipientView) : Prop :=
  is_read v = false /\ read_at v = None
  /\ is_starred v = false /\ is_archived v = false.

(** A log row as the call with these arguments writes it. *)
Definition log_of_call (user : User) (st subj body : string)
    (tpl : option EmailTemplate) (dr : option EmailDraft) (l : EmailLog) : Prop :=
  log_user l = Some (user_id user)
  /\ log_send_type l = st
  /\ log_subject l = subj
  /\ log_body_html l = body
  /\ log_template l = option_map tmpl_id tpl
  /\ log_draft l = option_map draft_pk dr
  /\ (email_type l = "SENT" \/ email_type l = "RECEIVED")
  /\ (email_status l = "SUCCESS" \/ email_status l = "FAILED").

Section Trace.

Variable DEFAULT_FROM_EMAIL : string.
Variable backend : list EmailMessage -> EmailMessage -> bool.

(** The message [_send_to_cost_center] hands to the backend. *)
Definition message_for (d : DB) (subj body : string) (c : CostCenter)
  : EmailMessage :=
  {| msg_subject := subj;
     msg_body := body;
     msg_from_email := DEFAULT_FROM_EMAIL;
     msg_to := get_recipient_emails d c;
     msg_cc := if nonempty (get_cc_emails d c)
               then Some (get_cc_emails d c) else None |}.

Lemma send_actual_email_run : forall subj body c w,
  _send_actual_email backend subj body
    (get_recipient_emails (database w) c) (get_cc_emails (database w) c)
    DEFAULT_FROM_EMAIL w
  = ({| database := database w;
        mail_attempts := mail_attempts w ++ [message_for (database w) subj body c] |},
     Ok (backend (mail_attempts w) (message_for (database w) subj body c))).
Proof. reflexivity. Qed.

Lemma log_create_full :
  forall user cc tpl dr st ty subj body rcpt ccs status err w,
  exists w' l,
    EmailLog_create user cc tpl dr st ty subj body rcpt ccs status err w = (w', Ok l)
    /\ extends w w' [l] []
    /\ mail_attempts w' = mail_attempts w
    /\ log_user l = Some (user_id user)
    /\ log_send_type l = st
    /\ log_subject l = subj
    /\ log_body_html l = body
    /\ log_template l = option_map tmpl_id tpl
    /\ log_draft l = option_map draft_pk dr
    /\ email_type l = ty
    /\ email_status l = status
    /\ recipient_emails l = rcpt
    /\ email_error l = err.
Proof.
  intros. unfold EmailLog_create.
  eexists; eexists; split; [reflexivity|].
  split; [| repeat split].
  unfold extends. destruct w as [d m]; destruct d; cbn.
  rewrite app_nil_r, Z.add_0_r. reflexivity.
Qed.

Lemma send_to_cost_center_trace : forall user c st subj body tpl dr w,
  exists w' r logs views,
    _send_to_cost_center DEFAULT_FROM_EMAIL backend user c st subj body tpl dr w
    = (w', Ok r)
    /\ extends w w' logs views
    /\ mail_attempts w'
       = (mail_attempts w
          ++ (if has_recipients (database w) c
              then [message_for (database w) subj body c] else []))%list
    /\ Forall (log_of_call user st subj body tpl dr) logs
    /\ Forall untouched views
    /\ (has_recipients (database w) c = true ->
        exists l,
          logs = [l]
          /\ email_type l = "RECEIVED"
          /\ email_status l
             = (if backend (mail_attempts w) (message_for (database w) subj body c)
                then "SUCCESS" else "FAILED")
          /\ recipient_emails l = join "," (get_recipient_emails (database w) c)).
Proof.
  intros user c st subj body tpl dr w.
  unfold _send_to_cost_center, has_recipients.
  unfold try_except. unfold bind at 1. unfold query at 1.
  unfold bind at 1. unfold query at 1.
  destruct (nonempty (get_recipient_emails (database w) c)) eqn:Hto; cbn [negb].
  - unfold bind at 1. rewrite send_actual_email_run.
    remember (message_for (database w) subj body c) as msg eqn:Hmsg.
    remember (backend (mail_attempts w) msg) as sent eqn:Hsent.
    remember {| database := database w; mail_attempts := mail_attempts w ++ [msg] |}
      as w1 eqn:Hw1.
    assert (He01 : extends w w1 [] []).
    { subst w1. unfold extends. destruct w as [d m]; destruct d; cbn.
      rewrite !app_nil_r, !Z.add_0_r. reflexivity. }
    assert (Hm1 : mail_attempts w1 = (mail_attempts w ++ [msg])%list)
      by (subst w1; reflexivity).
    unfold bind at 1.
    match goal with
    | |- context [EmailLog_create ?u ?cc ?t ?d ?s ?ty ?sj ?b ?r ?cs ?stt ?e w1] =>
        destruct (log_create_full u cc t d s ty sj b r cs stt e w1)
          as [w2 [l [Hc [He12 [Hm2 [L1 [L2 [L3 [L4 [L5 [L6 [L7 [L8 [L9 _]]]]]]]]]]]]]]
    end.
    rewrite Hc.
    pose proof (extends_trans _ _ _ _ _ _ _ He01 He12) as He02.
    cbn [List.app] in He02.
    assert (Hl : log_of_call user st subj body tpl dr l).
    { unfold log_of_call. repeat split; auto.
      rewrite L8. destruct sent; auto. }
    assert (Hlast : exists l0,
              [l] = [l0]
              /\ email_type l0 = "RECEIVED"
              /\ email_status l0 = (if sent then "SUCCESS" else "FAILED")
              /\ recipient_emails l0
                 = join "," (get_recipient_emails (database w) c)).
    { exists l. repeat split; assumption. }
    destruct sent.
    + unfold bind at 1.
      destruct (tracking_spec l (get_recipient_emails (database w) c)
                  (get_cc_emails (database w) c) w2)
        as [w3 [r3 [rows [Hrun [He3 [Hm3 [Hf3 _]]]]]]].
      rewrite Hrun.
      pose proof (extends_trans _ _ _ _ _ _ _ He02 He3) as Hext.
      cbn [List.app] in Hext.
      assert (Hun : Forall untouched rows).
      { eapply Forall_impl; [| exact Hf3]. intros a [_ Ha]. exact Ha. }
      destruct r3 as [[]|e].
      * eexists w3, _, [l], rows. split; [reflexivity|].
        split; [exact Hext|]. split; [congruence|].
        split; [constructor; [exact Hl | constructor]|].
        split; [exact Hun|]. intros _. exact Hlast.
      * eexists w3, _, [l], rows. split; [reflexivity|].
        split; [exact Hext|]. split; [congruence|].
        split; [constructor; [exact Hl | constructor]|].
        split; [exact Hun|]. intros _. exact Hlast.
    + unfold bind at 1. unfold ret at 1. unfold ret at 1.
      eexists w2, _, [l], []. split; [reflexivity|].
      split; [exact He02|]. split; [congruence|].
      split; [constructor; [exact Hl | constructor]|].
      split; [constructor|]. intros _. exact Hlast.
  - unfold ret at 1.
    eexists w, _, [], []. split; [reflexivity|].
    split; [apply extends_refl|]. split; [rewrite app_nil_r; reflexivity|].
    split; [constructor|]. split; [constructor|].
    intros Hc; discriminate.
Qed.

(** User [u] is listed, as TO or CC, by the cost center of a
    successful result. *)
Definition counted (d : DB) (u : User) (cr : CostCenter * CostCenterResult) : bool :=
  r_success (snd cr)
  && (str_in (user_email u) (get_recipient_emails d (fst cr))
      || str_in (user_email u) (get_cc_emails d (fst cr))).

(** The rows of [views] addressed to user [u]. *)
Definition rows_of_user (u : User) (views : list EmailRecipientView)
  : list EmailRecipientView :=
  filter (fun v => recipient_user v =? user_id u) views.

Lemma rows_of_user_one_log : forall n u views,
  Forall (fresh_row n) views ->
  rows_of_user u views = rows_for n (user_id u) views.
Proof.
  intros n u views H. unfold rows_of_user, rows_for.
  apply filter_ext_in. intros v Hv. rewrite Forall_forall in H.
  destruct (H v Hv) as [Hn _]. rewrite Hn, Z.eqb_refl. reflexivity.
Qed.

(** The update of the local [sent_log], with the row it writes. *)
Lemma sent_log_step_full :
  forall user st subj body ccs tpl dr (r : CostCenterResult) sent_log w,
  exists w' logs sl,
    match sent_log with
    | None =>
        l <- _create_sent_log user st subj body ccs tpl dr
               (if r_success r then "SUCCESS" else "FAILED") (r_error r) ;;
        ret (Some l)
    | Some l => ret (Some l)
    end w = (w', Ok (Some sl))
    /\ extends w w' logs []
    /\ mail_attempts w' = mail_attempts w
    /\ Forall (log_of_call user st subj body tpl dr) logs
    /\ match sent_log with
       | None =>
           logs = [sl]
           /\ email_type sl = "SENT"
           /\ email_status sl = (if r_success r then "SUCCESS" else "FAILED")
           /\ email_error sl = r_error r
           /\ recipient_emails sl
              = join "," (flat_map (get_recipient_emails (database w)) ccs)
       | Some l => logs = [] /\ sl = l
       end.
Proof.
  intros. destruct sent_log as [x|].
  - exists w, [], x. unfold ret.
    split; [reflexivity|]. split; [apply extends_refl|].
    split; [reflexivity|]. split; [constructor | split; reflexivity].
  - unfold bind at 1. unfold _create_sent_log.
    unfold bind at 1. unfold query at 1. unfold bind at 1. unfold query at 1.
    match goal with
    | |- context [EmailLog_create ?u ?cc ?t ?d ?s ?ty ?sj ?b ?rc ?cs ?stt ?e w] =>
        destruct (log_create_full u cc t d s ty sj b rc cs stt e w)
          as [w' [l [Hc [He [Hm [L1 [L2 [L3 [L4 [L5 [L6 [L7 [L8 [L9 L10]]]]]]]]]]]]]]
    end.
    rewrite Hc. unfold ret. exists w', [l], l.
    split; [reflexivity|]. split; [exact He|]. split; [exact Hm|].
    split.
    { constructor; [| constructor]. unfold log_of_call.
      repeat split; auto. rewrite L8. destruct (r_success r); auto. }
    repeat split; assumption.
Qed.

Lemma counted_extends : forall w w' l v u cr,
  extends w w' l v -> counted (database w') u cr = counted (database w) u cr.
Proof.
  intros w w' l v u cr H. unfold counted.
  destruct (extends_recipients _ _ _ _ (fst cr) H) as [-> ->]. reflexivity.
Qed.

Lemma message_for_extends : forall w w' l v subj body c,
  extends w w' l v ->
  message_for (database w') subj body c = message_for (database w) subj body c.
Proof.
  intros w w' l v subj body c H. unfold message_for.
  destruct (extends_recipients _ _ _ _ c H) as [-> ->]. reflexivity.
Qed.

(** The rows one iteration adds for user [u], on a well-formed
    database. *)
Lemma step_rows_of_user : forall user c st subj body tpl dr w w' r logs views u,
  _send_to_cost_center DEFAULT_FROM_EMAIL backend user c st subj body tpl dr w
  = (w', Ok r) ->
  extends w w' logs views ->
  well_formed (database w) ->
  In u (users (database w)) ->
  List.length (rows_of_user u views)
  = List.length (filter (counted (database w) u) [(c, r)])
  /\ Forall (fun v => rv_email_log v
                      < next_log_id (database w) + Z.of_nat (List.length logs))
       views.
Proof.
  intros user c st subj body tpl dr w w' r logs views u Hrun He Hw Hu.
  destruct (send_to_cost_center_spec DEFAULT_FROM_EMAIL backend
              user c st subj body tpl dr w)
    as [w1 [r1 [logs1 [views1 [Hrun1 [He1 [_ [Hno Hyes]]]]]]]].
  rewrite Hrun in Hrun1. inversion Hrun1; subst w1 r1.
  destruct (extends_unique _ _ _ _ _ _ He He1) as [<- <-].
  cbn [filter]. unfold counted at 1. cbn [fst snd].
  destruct (has_recipients (database w) c) eqn:Hc.
  - destruct (Hyes eq_refl) as [l [-> [Hid [_ [_ [Hf [_ [Hst Htr]]]]]]]].
    split.
    + rewrite (rows_of_user_one_log _ _ _ Hf).
      destruct Hst as [Hst|[Hst [-> Hr]]].
      * destruct (Htr Hw Hst) as [Hr Ht]. rewrite Hr. cbn [andb].
        specialize (Ht u Hu).
        destruct (str_in (user_email u) (get_recipient_emails (database w) c)
                  || str_in (user_email u) (get_cc_emails (database w) c)).
        -- destruct Ht as [v [-> _]]. reflexivity.
        -- rewrite Ht. reflexivity.
      * rewrite Hr. reflexivity.
    + eapply Forall_impl; [| exact Hf]. cbv beta. intros a [Ha _].
      rewrite Ha, Hid. cbn [List.length]. lia.
  - destruct (Hno eq_refl) as [-> [-> [Hr _]]]. rewrite Hr.
    split; [reflexivity | constructor].
Qed.

(** What a run of the loop writes and mails. *)
Lemma send_loop_trace :
  forall user st subj body tpl dr all remaining results sent_log w,
  exists w' results' sl' logs views,
    send_loop DEFAULT_FROM_EMAIL backend user st subj body tpl dr all
      remaining results sent_log w
    = (w', Ok ((results ++ results')%list, sl'))
    /\ extends w w' logs views
    /\ mail_attempts w'
       = (mail_attempts w
          ++ map (message_for (database w) subj body)
               (filter (has_recipients (database w)) remaining))%list
    /\ Forall (log_of_call user st subj body tpl dr) logs
    /\ Forall untouched views
    /\ List.length results' = List.length remaining
    /\ match sent_log, results' with
       | None, r1 :: _ =>
           exists s,
             sl' = Some s /\ In s logs
             /\ email_type s = "SENT"
             /\ email_status s = (if r_success r1 then "SUCCESS" else "FAILED")
             /\ email_error s = r_error r1
             /\ recipient_emails s
                = join "," (flat_map (get_recipient_emails (database w)) all)
       | _, _ => sl' = sent_log
       end
    /\ (well_formed (database w) ->
        forall u, In u (users (database w)) ->
          List.length (rows_of_user u views)
          = List.length (filter (counted (database w) u)
                           (combine remaining results'))).
Proof.
  intros user st subj body tpl dr all.
  induction remaining as [|c rest IH]; intros results sent_log w.
  - exists w, [], sent_log, [], []. cbn [send_loop]. unfold ret.
    rewrite !app_nil_r. split; [reflexivity|]. split; [apply extends_refl|].
    split; [reflexivity|]. split; [constructor|]. split; [constructor|].
    split; [reflexivity|]. split; [destruct sent_log; reflexivity|].
    intros _ u _. reflexivity.
  - cbn [send_loop]. unfold bind at 1.
    destruct (send_to_cost_center_trace user c st subj body tpl dr w)
      as [w1 [r [logs1 [views1 [Hrun1 [He1 [Hm1 [Hl1 [Hv1 _]]]]]]]]].
    rewrite Hrun1. unfold bind at 1.
    destruct (sent_log_step_full user st subj body all tpl dr r sent_log w1)
      as [w2 [logs_s [sl [Hrun2 [He2 [Hm2 [Hl2 Hsent]]]]]]].
    rewrite Hrun2.
    destruct (IH (results ++ [r])%list (Some sl) w2)
      as [w3 [results' [sl' [logs3 [views3
            [Hrun3 [He3 [Hm3 [Hl3 [Hv3 [Hlen [Hsl Hcount]]]]]]]]]]]].
    rewrite Hrun3, <- app_assoc. cbn [List.app].
    pose proof (extends_trans _ _ _ _ _ _ _ He1 He2) as He12.
    rewrite app_nil_r in He12.
    pose proof (extends_trans _ _ _ _ _ _ _ He12 He3) as He13.
    exists w3, (r :: results'), sl', ((logs1 ++ logs_s) ++ logs3)%list,
      (views1 ++ views3)%list.
    split; [reflexivity|]. split; [exact He13|].
    assert (Hsl' : sl' = Some sl) by (destruct results'; exact Hsl).
    split; [| split; [| split; [| split; [| split]]]].
    + (* mail attempts *)
      rewrite Hm3, Hm2, Hm1, <- app_assoc. f_equal. cbn [filter].
      rewrite (filter_ext _ _ (fun x => has_recipients_extends _ _ _ _ x He12)).
      rewrite (map_ext _ _ (fun x => message_for_extends _ _ _ _ subj body x He12)).
      destruct (has_recipients (database w) c); reflexivity.
    + apply Forall_app; split; [apply Forall_app; split|]; assumption.
    + apply Forall_app; split; assumption.
    + cbn [List.length]. rewrite Hlen. reflexivity.
    + (* the SENT log *)
      destruct sent_log as [x|].
      * destruct Hsent as [_ ->]. exact Hsl'.
      * destruct Hsent as [-> [Hty [Hst [Herr Hrc]]]].
        exists sl. split; [exact Hsl'|].
        split; [apply in_or_app; left; apply in_or_app; right; left; reflexivity|].
        split; [exact Hty|]. split; [exact Hst|]. split; [exact Herr|].
        rewrite Hrc. f_equal. apply flat_map_ext. intros a.
        apply (proj1 (extends_recipients _ _ _ _ a He1)).
    + (* rows per user *)
      intros Hw u Hu.
      destruct (step_rows_of_user _ _ _ _ _ _ _ _ _ _ _ _ u Hrun1 He1 Hw Hu)
        as [Hstep Hbound].
      assert (Hw2 : well_formed (database w2)).
      { apply (well_formed_extends _ _ _ _ He12); [| exact Hw].
        eapply Forall_impl; [| exact Hbound]. cbv beta. intros a Ha.
        rewrite length_app, Nat2Z.inj_add. lia. }
      assert (Hu2 : In u (users (database w2)))
        by (rewrite (extends_users _ _ _ _ He12); exact Hu).
      specialize (Hcount Hw2 u Hu2).
      unfold rows_of_user in *. rewrite filter_app, length_app.
      cbn [combine filter]. cbn [filter] in Hstep.
      rewrite (filter_ext _ _ (fun x => counted_extends _ _ _ _ u x He12)) in Hcount.
      rewrite Hstep, Hcount.
      destruct (counted (database w) u (c, r)); reflexivity.
Qed.

(** The template and the draft [send_email] looks up. *)
Definition template_of (tid : option Z) (d : DB) : option EmailTemplate :=
  match tid with
  | Some i => if truthy_id tid then get_template i d else None
  | None => None
  end.

Definition draft_of (did : option Z) (user : User) (d : DB) : option EmailDraft :=
  match did with
  | Some i => if truthy_id did then get_draft i user d else None
  | None => None
  end.

(** [send_email] on a non-empty target set is the loop over it. *)
Lemma send_email_loop : forall user st subj body ids tid did w c rest,
  determine_targets st ids (database w) = Ok (inr (c :: rest)) ->
  exists w' results sl,
    send_loop DEFAULT_FROM_EMAIL backend user st subj body
      (template_of tid (database w)) (draft_of did user (database w))
      (c :: rest) (c :: rest) [] None w
    = (w', Ok (results, sl))
    /\ send_email DEFAULT_FROM_EMAIL backend user st subj body ids tid did w
       = (w', Ok (Sent (summary_of results sl))).
Proof.
  intros user st subj body ids tid did w c rest Ht.
  destruct (send_loop_spec DEFAULT_FROM_EMAIL backend user st subj body
              (template_of tid (database w)) (draft_of did user (database w))
              (c :: rest) (c :: rest) [] None w)
    as [w' [results [sl [logs [views [Hloop _]]]]]].
  cbn [List.app] in Hloop.
  exists w', results, sl. split; [exact Hloop|].
  unfold send_email, try_except, atomic.
  unfold bind at 1. unfold fetch at 1. rewrite Ht. cbn [nonempty negb].
  unfold bind at 1.
  assert (Htpl : match tid with
                 | Some i => if truthy_id tid then query (get_template i) else ret None
                 | None => ret None
                 end w = (w, Ok (template_of tid (database w)))).
  { unfold template_of. destruct tid as [i|]; [destruct (truthy_id (Some i))|];
      reflexivity. }
  rewrite Htpl. unfold bind at 1.
  assert (Hdr : match did with
                | Some i => if truthy_id did then query (get_draft i user) else ret None
                | None => ret None
                end w = (w, Ok (draft_of did user (database w)))).
  { unfold draft_of. destruct did as [i|]; [destruct (truthy_id (Some i))|];
      reflexivity. }
  rewrite Hdr. unfold bind at 1. rewrite Hloop. reflexivity.
Qed.

(** X10: [send_email] only adds.  Whatever its arguments, it returns a
    result (it never raises); cost centers, their addresses, users,
    templates and drafts are left as they were; the logs and the
    tracking rows that existed are kept unchanged, rows being only
    added to the two tables; every added tracking row is unread,
    unstarred and unarchived, and every added log carries the caller,
    the send type, the subject and the body of the call. *)
Theorem send_email_only_appends : forall user st subj body ids tid did w,
  exists w' result logs views,
    send_email DEFAULT_FROM_EMAIL backend user st subj body ids tid did w
    = (w', Ok result)
    /\ cost_centers (database w') = cost_centers (database w)
    /\ cost_center_emails (database w') = cost_center_emails (database w)
    /\ users (database w') = users (database w)
    /\ email_templates (database w') = email_templates (database w)
    /\ email_drafts (database w') = email_drafts (database w)
    /\ email_logs (database w') = (email_logs (database w) ++ logs)%list
    /\ recipient_views (database w')
       = (recipient_views (database w) ++ views)%list
    /\ Forall untouched views
    /\ Forall (fun l => log_user l = Some (user_id user)
                        /\ log_send_type l = st
                        /\ log_subject l = subj
                        /\ log_body_html l = body) logs.
Proof.
  intros user st subj body ids tid did w.
  destruct (send_email_spec DEFAULT_FROM_EMAIL backend user st subj body ids tid did w)
    as [Herr [Hnil _]].
  destruct (determine_targets st ids (database w)) as [[err|[|c rest]]|e] eqn:Ht.
  - exists w, (Failure err), [], []. rewrite (Herr err eq_refl), !app_nil_r.
    repeat split; constructor.
  - exists w, (Failure "No active cost centers found"), [], [].
    rewrite (Hnil eq_refl), !app_nil_r. repeat split; constructor.
  - destruct (send_email_loop user st subj body ids tid did w c rest Ht)
      as [w' [results [sl [Hloop Hrun]]]].
    destruct (send_loop_trace user st subj body
                (template_of tid (database w)) (draft_of did user (database w))
                (c :: rest) (c :: rest) [] None w)
      as [w2 [results2 [sl2 [logs [views [Hloop2 [He [_ [Hl [Hv _]]]]]]]]]].
    rewrite Hloop in Hloop2. inversion Hloop2; subst w2.
    destruct (extends_static _ _ _ _ He) as [S1 [S2 [S3 [S4 S5]]]].
    exists w', (Sent (summary_of results sl)), logs, views.
    split; [exact Hrun|].
    repeat (split; [assumption|]).
    split; [apply (extends_logs _ _ _ _ He)|].
    split; [apply (extends_views _ _ _ _ He)|].
    split; [exact Hv|].
    eapply Forall_impl; [| exact Hl]. cbv beta.
    intros a [A1 [A2 [A3 [A4 _]]]]. auto.
  - exists w, (Failure (exception_str e)), [], [].
    rewrite (send_email_refused DEFAULT_FROM_EMAIL backend user st subj body ids
               tid did w e Ht), !app_nil_r.
    repeat split; constructor.
Qed.

(** The two descriptions of one run of the loop, side by side. *)
Lemma send_email_run : forall user st subj body ids tid did w c rest,
  determine_targets st ids (database w) = Ok (inr (c :: rest)) ->
  exists w' results sl logs views,
    send_email DEFAULT_FROM_EMAIL backend user st subj body ids tid did w
    = (w', Ok (Sent (summary_of results sl)))
    /\ extends w w' logs views
    /\ loop_facts (database w) (c :: rest) None logs views results sl
    /\ mail_attempts w'
       = (mail_attempts w
          ++ map (message_for (database w) subj body)
               (filter (has_recipients (database w)) (c :: rest)))%list
    /\ Forall (log_of_call user st subj body
                 (template_of tid (database w)) (draft_of did user (database w)))
         logs
    /\ Forall untouched views
    /\ (exists r1 tail s,
          results = r1 :: tail /\ sl = Some s /\ In s logs
          /\ email_type s = "SENT"
          /\ email_status s = (if r_success r1 then "SUCCESS" else "FAILED")
          /\ email_error s = r_error r1
          /\ recipient_emails s
             = join "," (flat_map (get_recipient_emails (database w)) (c :: rest)))
    /\ (well_formed (database w) ->
        forall u, In u (users (database w)) ->
          List.length (rows_of_user u views)
          = List.length (filter (counted (database w) u)
                           (combine (c :: rest) results))).
Proof.
  intros user st subj body ids tid did w c rest Ht.
  destruct (send_email_loop user st subj body ids tid did w c rest Ht)
    as [w' [results [sl [Hloop Hrun]]]].
  destruct (send_loop_spec DEFAULT_FROM_EMAIL backend user st subj body
              (template_of tid (database w)) (draft_of did user (database w))
              (c :: rest) (c :: rest) [] None w)
    as [w1 [results1 [sl1 [logs [views [Hloop1 [He Hfacts]]]]]]].
  rewrite Hloop in Hloop1. cbn [List.app] in Hloop1.
  inversion Hloop1; subst w1 results1 sl1.
  destruct (send_loop_trace user st subj body
              (template_of tid (database w)) (draft_of did user (database w))
              (c :: rest) (c :: rest) [] None w)
    as [w2 [results2 [sl2 [logs2 [views2
          [Hloop2 [He2 [Hm [Hl [Hv [Hlen [Hsl Hcount]]]]]]]]]]]].
  rewrite Hloop in Hloop2. cbn [List.app] in Hloop2.
  inversion Hloop2; subst w2 results2 sl2.
  destruct (extends_unique _ _ _ _ _ _ He He2) as [<- <-].
  exists w', results, sl, logs, views.
  split; [exact Hrun|]. split; [exact He|]. split; [exact Hfacts|].
  split; [exact Hm|]. split; [exact Hl|]. split; [exact Hv|].
  split; [| exact Hcount].
  destruct results as [|r1 tail]; [cbn in Hlen; discriminate|].
  destruct Hsl as [s Hs]. exists r1, tail, s. split; [reflexivity | exact Hs].
Qed.

(** X11: a send that reaches the loop adds exactly one entry to the
    sender's outbox ([sent_by_user]), the log named by [sent_log_id]:
    the outbox holds that entry and the entries it had, and is one
    longer.  The outbox of every other user is unchanged. *)
Theorem outbox_gains_one_entry : forall user st subj body ids tid did w c rest,
  determine_targets st ids (database w) = Ok (inr (c :: rest)) ->
  exists w' s entry,
    send_email DEFAULT_FROM_EMAIL backend user st subj body ids tid did w
    = (w', Ok (Sent s))
    /\ (forall l, In l (sent_by_user user (database w'))
                   <-> In l (sent_by_user user (database w)) \/ l = entry)
    /\ List.length (sent_by_user user (database w'))
       = S (List.length (sent_by_user user (database w)))
    /\ sent_log_id s = Some (log_id entry)
    /\ log_cost_center entry = None
    /\ (forall other, user_id other <> user_id user ->
          sent_by_user other (database w') = sent_by_user other (database w)).
Proof.
  intros user st subj body ids tid did w c rest Ht.
  destruct (send_email_run user st subj body ids tid did w c rest Ht)
    as [w' [results [sl [logs [views [Hrun [He [Hfacts [_ [Hl _]]]]]]]]]].
  destruct Hfacts as [_ [_ [F3 [F4 _]]]]. cbn beta iota in F4.
  destruct F4 as [entry [Hsent ->]].
  exists w', (summary_of results (Some entry)), entry.
  split; [exact Hrun|].
  assert (Hown : filter (fun l => fk_is (log_user l) (user_id user)
                                  && String.eqb (email_type l) "SENT") logs
                 = filter is_sent logs).
  { apply filter_ext_in. intros a Ha. rewrite Forall_forall in Hl.
    destruct (Hl a Ha) as [Hu _]. rewrite Hu. cbn [fk_is].
    rewrite Z.eqb_refl. reflexivity. }
  assert (Hout : sent_by_user user (database w')
                 = (sent_by_user user (database w) ++ [entry])%list).
  { unfold sent_by_user. rewrite (extends_logs _ _ _ _ He), filter_app, Hown, Hsent.
    reflexivity. }
  split.
  { intros l. rewrite Hout, in_app_iff. cbn [In]. intuition congruence. }
  split; [rewrite Hout, length_app; cbn [List.length]; apply Nat.add_1_r|].
  split; [reflexivity|].
  split; [rewrite Hsent in F3; inversion F3; assumption|].
  intros other Hother. unfold sent_by_user.
  rewrite (extends_logs _ _ _ _ He), filter_app.
  assert (Hnone : filter (fun l => fk_is (log_user l) (user_id other)
                                   && String.eqb (email_type l) "SENT") logs = []).
  { assert (Hall : forall a, In a logs ->
             fk_is (log_user a) (user_id other)
             && String.eqb (email_type a) "SENT" = false).
    { intros a Ha. rewrite Forall_forall in Hl.
      destruct (Hl a Ha) as [Hu _]. rewrite Hu. cbn [fk_is].
      assert (E : (user_id user =? user_id other) = false)
        by (apply Z.eqb_neq; intros Hc; apply Hother; symmetry; exact Hc).
      rewrite E. reflexivity. }
    clear - Hall. induction logs as [|a l IH]; [reflexivity|].
    cbn [filter]. rewrite (Hall a (or_introl eq_refl)).
    apply IH. intros b Hb. apply Hall. right. exact Hb. }
  rewrite Hnone, app_nil_r. reflexivity.
Qed.

(** X12: the outbox entry of a send.  Its status and error are those of
    the first targeted cost center alone, whatever happened to the
    others, and its recipient text joins the TO addresses of every
    targeted cost center. *)
Theorem outbox_entry_reflects_first : forall user st subj body ids tid did w c rest,
  determine_targets st ids (database w) = Ok (inr (c :: rest)) ->
  exists w' s entry first,
    send_email DEFAULT_FROM_EMAIL backend user st subj body ids tid did w
    = (w', Ok (Sent s))
    /\ In entry (email_logs (database w'))
    /\ sent_log_id s = Some (log_id entry)
    /\ email_type entry = "SENT"
    /\ hd_error (details s) = Some first
    /\ r_cost_center first = cost_center_code c
    /\ email_status entry = (if r_success first then "SUCCESS" else "FAILED")
    /\ email_error entry = r_error first
    /\ recipient_emails entry
       = join "," (flat_map (get_recipient_emails (database w)) (c :: rest)).
Proof.
  intros user st subj body ids tid did w c rest Ht.
  destruct (send_email_run user st subj body ids tid did w c rest Ht)
    as [w' [results [sl [logs [views [Hrun [He [Hfacts [_ [_ [_ [Hs _]]]]]]]]]]]].
  destruct Hs as [r1 [tail [entry [-> [-> [Hin [Hty [Hst [Herr Hrc]]]]]]]]].
  destruct Hfacts as [F1 _]. inversion F1 as [|? ? ? ? [Hcode _] _]; subst.
  exists w', (summary_of (r1 :: tail) (Some entry)), entry, r1.
  split; [exact Hrun|].
  split; [rewrite (extends_logs _ _ _ _ He); apply in_or_app; right; exact Hin|].
  repeat split; assumption.
Qed.

(** X13: the mail a send hands to the backend: one message for each
    targeted cost center that has recipient addresses, in order, sent
    from [DEFAULT_FROM_EMAIL] to the cost center's TO addresses with
    its CC addresses (no CC header when there is none), and no message
    for a cost center without recipients. *)
Theorem send_email_mails : forall user st subj body ids tid did w c rest,
  determine_targets st ids (database w) = Ok (inr (c :: rest)) ->
  exists w' s mails,
    send_email DEFAULT_FROM_EMAIL backend user st subj body ids tid did w
    = (w', Ok (Sent s))
    /\ mail_attempts w' = (mail_attempts w ++ mails)%list
    /\ Forall2
         (fun cc m =>
            msg_to m = get_recipient_emails (database w) cc
            /\ msg_to m <> []
            /\ msg_cc m = (if nonempty (get_cc_emails (database w) cc)
                           then Some (get_cc_emails (database w) cc) else None)
            /\ msg_from_email m = DEFAULT_FROM_EMAIL
            /\ msg_subject m = subj
            /\ msg_body m = body)
         (filter (has_recipients (database w)) (c :: rest)) mails.
Proof.
  intros user st subj body ids tid did w c rest Ht.
  destruct (send_email_run user st subj body ids tid did w c rest Ht)
    as [w' [results [sl [logs [views [Hrun [_ [_ [Hm _]]]]]]]]].
  exists w', (summary_of results sl),
    (map (message_for (database w) subj body)
       (filter (has_recipients (database w)) (c :: rest))).
  split; [exact Hrun|]. split; [exact Hm|].
  clear. generalize (c :: rest) as targets.
  induction targets as [|a l IH]; [constructor|].
  cbn [filter]. destruct (has_recipients (database w) a) eqn:Ha; [| exact IH].
  cbn [map]. constructor; [| exact IH].
  unfold message_for; cbn. repeat split.
  unfold has_recipients in Ha. intros Hnil. rewrite Hnil in Ha. discriminate.
Qed.

(** X14: on a well-formed database, a send raises the unread count of
    each user by the number of targeted cost centers that were mailed
    successfully and list the user's address as TO or CC. *)
Theorem send_email_unread_counts : forall user st subj body ids tid did w c rest,
  well_formed (database w) ->
  determine_targets st ids (database w) = Ok (inr (c :: rest)) ->
  exists w' s,
    send_email DEFAULT_FROM_EMAIL backend user st subj body ids tid did w
    = (w', Ok (Sent s))
    /\ forall u, In u (users (database w)) ->
         unread_count u (database w')
         = unread_count u (database w)
           + Z.of_nat (List.length (filter (counted (database w) u)
                                      (combine (c :: rest) (details s)))).
Proof.
  intros user st subj body ids tid did w c rest Hw Ht.
  destruct (send_email_run user st subj body ids tid did w c rest Ht)
    as [w' [results [sl [logs [views [Hrun [He [_ [_ [_ [Hv [_ Hcount]]]]]]]]]]]].
  exists w', (summary_of results sl). split; [exact Hrun|].
  intros u Hu. unfold unread_count, unread_for_user.
  rewrite (extends_views _ _ _ _ He), filter_app, length_app, Nat2Z.inj_add.
  f_equal. f_equal. cbn [summary_of details].
  rewrite <- (Hcount Hw u Hu). unfold rows_of_user. f_equal.
  apply filter_ext_in. intros a Ha. rewrite Forall_forall in Hv.
  destruct (Hv a Ha) as [Hr [_ [_ Harch]]]. rewrite Hr, Harch.
  cbn [negb]. rewrite !andb_true_r. reflexivity.
Qed.

Lemma send_email_total : forall user st subj body ids tid did w,
  exists w' result,
    send_email DEFAULT_FROM_EMAIL backend user st subj body ids tid did w
    = (w', Ok result)
    /\ (forall err, result = Failure err -> w' = w).
Proof.
  intros user st subj body ids tid did w.
  destruct (send_email_spec DEFAULT_FROM_EMAIL backend user st subj body ids tid did w)
    as [Herr [Hnil Hcons]].
  destruct (determine_targets st ids (database w)) as [[err|[|c rest]]|e] eqn:Ht.
  - exists w, (Failure err). split; [apply Herr; reflexivity | reflexivity].
  - exists w, (Failure "No active cost centers found").
    split; [apply Hnil; reflexivity | reflexivity].
  - destruct (Hcons (c :: rest) eq_refl) as [w' [rs [sl [_ [_ [Hrun _]]]]]];
      [discriminate|].
    exists w', (Sent (summary_of rs sl)). split; [exact Hrun|].
    intros err Hc. discriminate.
  - exists w, (Failure (exception_str e)).
    split; [| reflexivity].
    apply (send_email_refused DEFAULT_FROM_EMAIL backend user st subj body ids
             tid did w e Ht).
Qed.

Lemma get_draft_some : forall pk user d x,
  get_draft pk user d = Some x ->
  In x (email_drafts d) /\ draft_pk x = pk /\ draft_user x = user_id user
  /\ draft_is_deleted x = false.
Proof.
  intros pk user d x H. unfold get_draft in H. apply find_some in H as [Hin Hb].
  apply andb_true_iff in Hb as [Hb Hu]. apply andb_true_iff in Hb as [Hd Hp].
  apply Z.eqb_eq in Hp, Hu. apply negb_true_iff in Hd. auto.
Qed.

Lemma get_draft_none : forall pk user d,
  (forall x, In x (email_drafts d) -> draft_pk x = pk ->
             draft_is_deleted x = true \/ draft_user x <> user_id user) ->
  get_draft pk user d = None.
Proof.
  intros pk user d H. unfold get_draft.
  destruct (find _ (email_drafts d)) as [x|] eqn:E; [| reflexivity].
  exfalso. apply find_some in E as [Hin Hb].
  apply andb_true_iff in Hb as [Hb Hu]. apply andb_true_iff in Hb as [Hd Hp].
  apply Z.eqb_eq in Hp, Hu. apply negb_true_iff in Hd.
  destruct (H x Hin Hp) as [Hc|Hc]; congruence.
Qed.

Lemma stored_ids_parse : forall draft ids,
  cost_center_ids draft = Some (join "," (map str ids)) ->
  get_cost_center_list draft = Ok ids.
Proof.
  intros draft ids Hs. unfold get_cost_center_list. rewrite Hs.
  destruct ids as [|n rest]; [reflexivity|].
  cbn [map]. rewrite PyProps.join_truthy by apply PyProps.str_shape. cbn [negb].
  rewrite (PyProps.split_join "," (str n :: map str rest)).
  - apply (ModelProps.parse_ids_str (n :: rest)).
  - change (str n :: map str rest) with (map str (n :: rest)).
    apply Forall_forall. intros x Hx. apply in_map_iff in Hx as [m [<- _]].
    apply PyProps.str_shape.
  - discriminate.
Qed.

(** [send_from_draft] once the draft is found. *)
Lemma send_from_draft_found : forall user pk overrides w draft,
  get_draft pk user (database w) = Some draft ->
  send_from_draft DEFAULT_FROM_EMAIL backend user pk overrides w
  = match (if String.eqb (draft_send_type draft) "SPECIFIC"
           then match get_cost_center_list draft with
                | Ok l => Ok (Some l)
                | Raise e => Raise e
                end
           else Ok None) with
    | Ok ids =>
        send_email DEFAULT_FROM_EMAIL backend user (draft_send_type draft)
          (override overrides ov_subject (draft_subject draft))
          (override overrides ov_body_html (draft_body_html draft))
          ids (draft_template draft) (Some pk) w
    | Raise e => (w, Ok (Failure (exception_str e)))
    end.
Proof.
  intros user pk overrides w draft Hget.
  destruct (get_draft_some _ _ _ _ Hget) as [_ [Hpk _]].
  unfold send_from_draft, try_except. unfold bind at 1. unfold query at 1.
  rewrite Hget. unfold bind at 1. rewrite Hpk.
  destruct (String.eqb (draft_send_type draft) "SPECIFIC").
  - unfold bind at 1. unfold lift at 1.
    destruct (get_cost_center_list draft) as [l|e]; [| reflexivity].
    unfold ret at 1.
    destruct (send_email_total user (draft_send_type draft)
                (override overrides ov_subject (draft_subject draft))
                (override overrides ov_body_html (draft_body_html draft))
                (Some l) (draft_template draft) (Some pk) w)
      as [w' [r [Hrun _]]].
    rewrite Hrun. reflexivity.
  - unfold ret at 1.
    destruct (send_email_total user (draft_send_type draft)
                (override overrides ov_subject (draft_subject draft))
                (override overrides ov_body_html (draft_body_html draft))
                None (draft_template draft) (Some pk) w)
      as [w' [r [Hrun _]]].
    rewrite Hrun. reflexivity.
Qed.

(** X15: [send_from_draft] answers 'Draft not found', and changes
    nothing, when every draft with the given key is soft-deleted or
    belongs to another user (in particular when there is none). *)
Theorem send_from_draft_not_found : forall user pk overrides w,
  (forall x, In x (email_drafts (database w)) -> draft_pk x = pk ->
             draft_is_deleted x = true \/ draft_user x <> user_id user) ->
  send_from_draft DEFAULT_FROM_EMAIL backend user pk overrides w
  = (w, Ok (Failure "Draft not found")).
Proof.
  intros user pk overrides w H.
  unfold send_from_draft, try_except. unfold bind at 1. unfold query at 1.
  rewrite (get_draft_none _ _ _ H). reflexivity.
Qed.

(** X16: sending a draft is sending its content.  For a draft of the
    user, a SPECIFIC draft whose ids were stored by
    [set_cost_center_list] is sent as [send_email] with those ids, the
    draft's template and the draft's key, subject and body being the
    overrides where given; a draft of any other send type is sent with
    no ids, whatever text its [cost_center_ids] holds. *)
Theorem send_from_draft_is_send_email : forall user pk overrides w draft ids,
  get_draft pk user (database w) = Some draft ->
  (draft_send_type draft = "SPECIFIC" ->
   cost_center_ids draft = Some (join "," (map str ids)) ->
   send_from_draft DEFAULT_FROM_EMAIL backend user pk overrides w
   = send_email DEFAULT_FROM_EMAIL backend user "SPECIFIC"
       (override overrides ov_subject (draft_subject draft))
       (override overrides ov_body_html (draft_body_html draft))
       (Some ids) (draft_template draft) (Some pk) w)
  /\ (draft_send_type draft <> "SPECIFIC" ->
      send_from_draft DEFAULT_FROM_EMAIL backend user pk overrides w
      = send_email DEFAULT_FROM_EMAIL backend user (draft_send_type draft)
          (override overrides ov_subject (draft_subject draft))
          (override overrides ov_body_html (draft_body_html draft))
          None (draft_template draft) (Some pk) w).
Proof.
  intros user pk overrides w draft ids Hget.
  rewrite (send_from_draft_found user pk overrides w draft Hget).
  split.
  - intros Hst Hids. rewrite Hst. cbn.
    rewrite (stored_ids_parse draft ids Hids). reflexivity.
  - intros Hst. apply String.eqb_neq in Hst. rewrite Hst. reflexivity.
Qed.

(** X17: [send_from_draft] never raises, and when it returns an error
    result (the dict with ['error'], not a summary) the state is as it
    was: nothing is stored and nothing is mailed.  In particular a
    SPECIFIC draft whose stored ids, ASCII text within the digit limit
    of [int], do not parse gives the error result carrying the text of
    the [ValueError].  (A summary with ['success'] false, every cost
    center having failed, is not an error result: its logs are
    stored.) *)
Theorem send_from_draft_error_leaves_state : forall user pk overrides w,
  exists w' result,
    send_from_draft DEFAULT_FROM_EMAIL backend user pk overrides w
    = (w', Ok result)
    /\ (forall err, result = Failure err -> w' = w)
    /\ (forall draft text e,
          get_draft pk user (database w) = Some draft ->
          draft_send_type draft = "SPECIFIC" ->
          cost_center_ids draft = Some text ->
          plain text = true ->
          get_cost_center_list draft = Raise e ->
          result = Failure (exception_str e) /\ w' = w).
Proof.
  intros user pk overrides w.
  destruct (get_draft pk user (database w)) as [draft|] eqn:Hget.
  - rewrite (send_from_draft_found user pk overrides w draft Hget).
    destruct (String.eqb (draft_send_type draft) "SPECIFIC") eqn:Hst.
    + destruct (get_cost_center_list draft) as [l|e] eqn:Hl.
      * destruct (send_email_total user (draft_send_type draft)
                    (override overrides ov_subject (draft_subject draft))
                    (override overrides ov_body_html (draft_body_html draft))
                    (Some l) (draft_template draft) (Some pk) w)
          as [w' [r [Hrun Hfail]]].
        exists w', r. split; [exact Hrun|]. split; [exact Hfail|].
        intros d0 text e Hd _ _ _ He. inversion Hd; subst d0. congruence.
      * exists w, (Failure (exception_str e)).
        split; [reflexivity|]. split; [reflexivity|].
        intros d0 text e0 Hd _ _ _ He. inversion Hd; subst d0.
        rewrite Hl in He. inversion He; subst. split; reflexivity.
    + destruct (send_email_total user (draft_send_type draft)
                  (override overrides ov_subject (draft_subject draft))
                  (override overrides ov_body_html (draft_body_html draft))
                  None (draft_template draft) (Some pk) w)
        as [w' [r [Hrun Hfail]]].
      exists w', r. split; [exact Hrun|]. split; [exact Hfail|].
      intros d0 text e Hd Hs _ _ _. inversion Hd; subst d0.
      rewrite Hs in Hst. discriminate.
  - exists w, (Failure "Draft not found").
    unfold send_from_draft, try_except. unfold bind at 1. unfold query at 1.
    rewrite Hget. split; [reflexivity|]. split; [reflexivity|].
    intros d0 text e Hd. discriminate.
Qed.

(** *** Drafts *)

(** The row [save_draft] inserts for a new draft. *)
Definition new_draft (new_pk : Z) (user : User) (st subj body : string)
    (ids : option (list Z)) (tid : option Z) (name : option string) (d : DB)
  : EmailDraft :=
  set_ids_if_given
    {| draft_pk := new_pk;
       draft_user := user_id user;
       draft_template := option_map tmpl_id (template_of tid d);
       draft_send_type := st;
       draft_subject := subj;
       draft_body_html := body;
       cost_center_ids := None;
       draft_name := name;
       draft_is_deleted := false |} ids.

(** The ids a draft holds after [save_draft] was given [ids]. *)
Definition given_ids (ids : option (list Z)) : list Z :=
  match ids with Some l => l | None => [] end.

Definition fresh_pk (pk : Z) (d : DB) : Prop :=
  forall x, In x (email_drafts d) -> draft_pk x <> pk.

Lemma replace_fresh : forall pk (self : EmailDraft) l,
  (forall x, In x l -> draft_pk x <> pk) ->
  map (fun x => if draft_pk x =? pk then self else x) l = l.
Proof.
  intros pk self l H. induction l as [|a l IH]; [reflexivity|].
  cbn [map]. rewrite IH by (intros x Hx; apply H; right; exact Hx).
  assert (E : (draft_pk a =? pk) = false)
    by (apply Z.eqb_neq, H; left; reflexivity).
  rewrite E. reflexivity.
Qed.

Lemma set_ids_if_given_pk : forall draft ids,
  draft_pk (set_ids_if_given draft ids) = draft_pk draft.
Proof. intros draft [[|n l]|]; reflexivity. Qed.

Lemma set_ids_if_given_list : forall draft ids,
  cost_center_ids draft = None ->
  get_cost_center_list (set_ids_if_given draft ids) = Ok (given_ids ids).
Proof.
  intros draft [[|n l]|] Hnone; cbn [set_ids_if_given given_ids nonempty].
  - unfold get_cost_center_list. rewrite Hnone. reflexivity.
  - apply stored_ids_parse. reflexivity.
  - unfold get_cost_center_list. rewrite Hnone. reflexivity.
Qed.

Lemma template_lookup : forall tid w,
  match tid with
  | Some i => if truthy_id tid then query (get_template i) else ret None
  | None => ret None
  end w = (w, Ok (template_of tid (database w))).
Proof.
  intros [i|] w; [| reflexivity]. unfold template_of.
  destruct (truthy_id (Some i)); reflexivity.
Qed.

Lemma save_draft_new_run : forall new_pk user st subj body ids tid name did w,
  truthy_id did = false ->
  fresh_pk new_pk (database w) ->
  save_draft new_pk user st subj body ids tid name did w
  = (with_database w
       (with_email_drafts (database w)
          (email_drafts (database w)
           ++ [new_draft new_pk user st subj body ids tid name (database w)])),
     Ok (DraftSaved (new_draft new_pk user st subj body ids tid name (database w)))).
Proof.
  intros new_pk user st subj body ids tid name did w Hd Hfresh.
  unfold save_draft, try_except. unfold bind at 1. rewrite template_lookup.
  unfold bind at 1.
  assert (Hex : match did with
                | Some i =>
                    if truthy_id did
                    then found <- query (get_draft i user) ;; ret (Some found)
                    else ret None
                | None => ret None
                end w = (w, Ok None)).
  { destruct did as [i|]; [rewrite Hd|]; reflexivity. }
  rewrite Hex. unfold bind at 1. unfold EmailDraft_create at 1.
  unfold new_draft.
  destruct ids as [[|n l]|]; cbn [set_ids_if_given nonempty];
    try reflexivity.
  unfold bind, ret, EmailDraft_save. cbn [database with_database with_email_drafts
    email_drafts draft_pk set_cost_center_list].
  rewrite existsb_app. cbn [existsb draft_pk]. rewrite Z.eqb_refl, orb_true_r.
  cbn [orb]. rewrite map_app. cbn [map draft_pk]. rewrite Z.eqb_refl.
  rewrite (replace_fresh new_pk _ _ Hfresh).
  reflexivity.
Qed.

Lemma get_draft_appended : forall pk user d row,
  (forall x, In x (email_drafts d) -> draft_pk x <> pk) ->
  draft_pk row = pk -> draft_user row = user_id user ->
  draft_is_deleted row = false ->
  get_draft pk user (with_email_drafts d (email_drafts d ++ [row])) = Some row.
Proof.
  intros pk user d row Hfresh Hpk Hu Hdel.
  unfold get_draft. cbn [email_drafts with_email_drafts].
  induction (email_drafts d) as [|a l IH].
  - cbn. rewrite Hdel, Hpk, Hu, !Z.eqb_refl. reflexivity.
  - cbn [List.app find].
    assert (E : (draft_pk a =? pk) = false)
      by (apply Z.eqb_neq, Hfresh; left; reflexivity).
    rewrite E, andb_false_r. cbn [andb].
    apply IH. intros x Hx. apply Hfresh. right. exact Hx.
Qed.

Lemma save_draft_update_run : forall new_pk user st subj body ids tid name i w old,
  i <> 0 ->
  get_draft i user (database w) = Some old ->
  save_draft new_pk user st subj body ids tid name (Some i) w
  = (with_database w
       (with_email_drafts (database w)
          (map (fun x => if draft_pk x =? i
                         then set_ids_if_given
                                (assign_draft old st subj body
                                   (template_of tid (database w)) name) ids
                         else x)
             (email_drafts (database w)))),
     Ok (DraftSaved
           (set_ids_if_given
              (assign_draft old st subj body (template_of tid (database w)) name)
              ids))).
Proof.
  intros new_pk user st subj body ids tid name i w old Hi Hget.
  destruct (get_draft_some _ _ _ _ Hget) as [Hin [Hpk _]].
  unfold save_draft, try_except. unfold bind at 1. rewrite template_lookup.
  unfold bind at 1.
  assert (Ht : truthy_id (Some i) = true)
    by (cbn; apply negb_true_iff, Z.eqb_neq; exact Hi).
  rewrite Ht. unfold bind at 1. unfold query at 1. rewrite Hget.
  unfold ret at 1. unfold bind at 1. unfold EmailDraft_save at 1.
  rewrite set_ids_if_given_pk. cbn [assign_draft draft_pk]. rewrite Hpk.
  assert (Hex : existsb (fun x => draft_pk x =? i) (email_drafts (database w)) = true).
  { apply existsb_exists. exists old. split; [exact Hin|].
    apply Z.eqb_eq. exact Hpk. }
  rewrite Hex. reflexivity.
Qed.

Lemma get_draft_replaced : forall i user d draft,
  (exists x, In x (email_drafts d) /\ draft_pk x = i) ->
  draft_pk draft = i -> draft_user draft = user_id user ->
  draft_is_deleted draft = false ->
  get_draft i user
    (with_email_drafts d
       (map (fun x => if draft_pk x =? i then draft else x) (email_drafts d)))
  = Some draft.
Proof.
  intros i user d draft Hex Hpk Hu Hdel.
  unfold get_draft. cbn [email_drafts with_email_drafts].
  induction (email_drafts d) as [|a l IH].
  - destruct Hex as [x [[] _]].
  - cbn [map find]. destruct (draft_pk a =? i) eqn:E.
    + rewrite Hdel, Hpk, Hu, !Z.eqb_refl. reflexivity.
    + rewrite E, andb_false_r. cbn [andb]. apply IH.
      destruct Hex as [x [[->|Hx] Hp]].
      * apply Z.eqb_neq in E. contradiction.
      * exists x. split; assumption.
Qed.

Lemma get_draft_others : forall i j u d draft,
  draft_pk draft = i -> j <> i ->
  get_draft j u
    (with_email_drafts d
       (map (fun x => if draft_pk x =? i then draft else x) (email_drafts d)))
  = get_draft j u d.
Proof.
  intros i j u d draft Hpk Hj.
  unfold get_draft. cbn [email_drafts with_email_drafts].
  induction (email_drafts d) as [|a l IH]; [reflexivity|].
  cbn [map find]. destruct (draft_pk a =? i) eqn:E.
  - apply Z.eqb_eq in E. rewrite Hpk, E.
    assert (F : (i =? j) = false) by (apply Z.eqb_neq; congruence).
    rewrite F, !andb_false_r. cbn [andb]. exact IH.
  - destruct (negb (draft_is_deleted a) && (draft_pk a =? j)
              && (draft_user a =? user_id u)); [reflexivity | exact IH].
Qed.

(** X18: [save_draft] without a draft id (or with id 0) inserts one
    draft and touches nothing else.  The new draft holds the given
    fields, reads back through
    [EmailDraft.objects.get(id=..., user=user)], is listed by
    [for_user] for its owner and for nobody else, and its cost center
    list reads back as the given ids, [[]] when none were given. *)
Theorem save_draft_creates : forall new_pk user st subj body ids tid name did w,
  truthy_id did = false ->
  fresh_pk new_pk (database w) ->
  exists w' draft,
    save_draft new_pk user st subj body ids tid name did w
    = (w', Ok (DraftSaved draft))
    /\ w' = with_database w
              (with_email_drafts (database w)
                 (email_drafts (database w) ++ [draft]))
    /\ get_draft new_pk user (database w') = Some draft
    /\ (forall u x, In x (for_user u (database w'))
                    <-> In x (for_user u (database w))
                        \/ (x = draft /\ user_id u = user_id user))
    /\ draft_send_type draft = st
    /\ draft_subject draft = subj
    /\ draft_body_html draft = body
    /\ draft_name draft = name
    /\ draft_template draft = option_map tmpl_id (template_of tid (database w))
    /\ get_cost_center_list draft = Ok (given_ids ids).
Proof.
  intros new_pk user st subj body ids tid name did w Hd Hfresh.
  exists (with_database w
            (with_email_drafts (database w)
               (email_drafts (database w)
                ++ [new_draft new_pk user st subj body ids tid name (database w)]))),
    (new_draft new_pk user st subj body ids tid name (database w)).
  split; [apply save_draft_new_run; assumption|].
  split; [reflexivity|].
  split.
  { cbn [database with_database]. apply get_draft_appended.
    - exact Hfresh.
    - unfold new_draft. rewrite set_ids_if_given_pk. reflexivity.
    - unfold new_draft. destruct ids as [[|n l]|]; reflexivity.
    - unfold new_draft. destruct ids as [[|n l]|]; reflexivity. }
  split.
  { intros u x. unfold for_user, drafts_queryset.
    cbn [database with_database email_drafts with_email_drafts].
    rewrite !filter_In, in_app_iff. cbn [In].
    assert (Hu : draft_user (new_draft new_pk user st subj body ids tid name (database w))
                 = user_id user)
      by (unfold new_draft; destruct ids as [[|n l]|]; reflexivity).
    assert (Hdel : draft_is_deleted
                     (new_draft new_pk user st subj body ids tid name (database w))
                   = false)
      by (unfold new_draft; destruct ids as [[|n l]|]; reflexivity).
    split.
    - intros [[[Hx|[Hx|[]]] Hq] Hp].
      + left. repeat split; assumption.
      + right. split; [symmetry; exact Hx|].
        subst x. rewrite Hu in Hp. apply andb_true_iff in Hp as [Hp _].
        apply Z.eqb_eq in Hp. symmetry. exact Hp.
    - intros [[[Hx Hq] Hp]|[-> Hsame]].
      + repeat split; try assumption. left. exact Hx.
      + rewrite Hu, Hdel, Hsame, Z.eqb_refl. repeat split. right. left. reflexivity. }
  unfold new_draft.
  repeat (split; [destruct ids as [[|n l]|]; reflexivity|]).
  apply set_ids_if_given_list. reflexivity.
Qed.

(** X19: saving a new draft and then sending it is sending what was
    saved: [send_from_draft] on the new draft is [send_email] with the
    saved send type, subject and body (or their overrides), the key of
    the saved template, the new draft's key, and, for SPECIFIC, the ids
    that were given ([[]] when none were given), otherwise no ids. *)
Theorem save_then_send : forall new_pk user st subj body ids tid name did w,
  truthy_id did = false ->
  fresh_pk new_pk (database w) ->
  exists w1 draft,
    save_draft new_pk user st subj body ids tid name did w
    = (w1, Ok (DraftSaved draft))
    /\ forall overrides,
         send_from_draft DEFAULT_FROM_EMAIL backend user new_pk overrides w1
         = send_email DEFAULT_FROM_EMAIL backend user st
             (override overrides ov_subject subj)
             (override overrides ov_body_html body)
             (if String.eqb st "SPECIFIC" then Some (given_ids ids) else None)
             (option_map tmpl_id (template_of tid (database w)))
             (Some new_pk) w1.
Proof.
  intros new_pk user st subj body ids tid name did w Hd Hfresh.
  exists (with_database w
            (with_email_drafts (database w)
               (email_drafts (database w)
                ++ [new_draft new_pk user st subj body ids tid name (database w)]))),
    (new_draft new_pk user st subj body ids tid name (database w)).
  split; [apply save_draft_new_run; assumption|].
  intros overrides.
  assert (Hget : get_draft new_pk user
                   (database
                      (with_database w
                         (with_email_drafts (database w)
                            (email_drafts (database w)
                             ++ [new_draft new_pk user st subj body ids tid name
                                   (database w)]))))
                 = Some (new_draft new_pk user st subj body ids tid name (database w))).
  { cbn [database with_database]. apply get_draft_appended.
    - exact Hfresh.
    - unfold new_draft. rewrite set_ids_if_given_pk. reflexivity.
    - unfold new_draft. destruct ids as [[|n l]|]; reflexivity.
    - unfold new_draft. destruct ids as [[|n l]|]; reflexivity. }
  rewrite (send_from_draft_found user new_pk overrides _ _ Hget).
  assert (Hl : get_cost_center_list
                 (new_draft new_pk user st subj body ids tid name (database w))
               = Ok (given_ids ids))
    by (apply set_ids_if_given_list; reflexivity).
  rewrite Hl.
  assert (Hf : draft_send_type
                 (new_draft new_pk user st subj body ids tid name (database w)) = st
               /\ draft_subject
                    (new_draft new_pk user st subj body ids tid name (database w)) = subj
               /\ draft_body_html
                    (new_draft new_pk user st subj body ids tid name (database w)) = body
               /\ draft_template
                    (new_draft new_pk user st subj body ids tid name (database w))
                  = option_map tmpl_id (template_of tid (database w))).
  { unfold new_draft. destruct ids as [[|n l]|]; repeat split. }
  destruct Hf as [-> [-> [-> ->]]].
  destruct (String.eqb st "SPECIFIC"); reflexivity.
Qed.

(** X20: [save_draft] with the id of one of the user's drafts rewrites
    that draft and no other: the user's lookup of the id gives the new
    content, every other lookup is as before, and no draft is added.
    The stored cost center ids are replaced only by a non-empty list:
    an update with no ids, or with [[]], keeps the ids the draft had. *)
Theorem save_draft_updates : forall new_pk user st subj body ids tid name i w old,
  i <> 0 ->
  get_draft i user (database w) = Some old ->
  exists w' draft,
    save_draft new_pk user st subj body ids tid name (Some i) w
    = (w', Ok (DraftSaved draft))
    /\ get_draft i user (database w') = Some draft
    /\ (forall j u, j <> i ->
          get_draft j u (database w') = get_draft j u (database w))
    /\ List.length (email_drafts (database w'))
       = List.length (email_drafts (database w))
    /\ email_logs (database w') = email_logs (database w)
    /\ recipient_views (database w') = recipient_views (database w)
    /\ mail_attempts w' = mail_attempts w
    /\ draft_send_type draft = st
    /\ draft_subject draft = subj
    /\ draft_body_html draft = body
    /\ draft_name draft = name
    /\ cost_center_ids draft
       = (if nonempty (given_ids ids)
          then Some (join "," (map str (given_ids ids)))
          else cost_center_ids old).
Proof.
  intros new_pk user st subj body ids tid name i w old Hi Hget.
  destruct (get_draft_some _ _ _ _ Hget) as [Hin [Hpk [Hu Hdel]]].
  eexists. eexists.
  split; [apply (save_draft_update_run new_pk user st subj body ids tid name i w old Hi Hget)|].
  cbn [database with_database mail_attempts].
  split.
  { apply get_draft_replaced.
    - exists old. split; assumption.
    - rewrite set_ids_if_given_pk. exact Hpk.
    - destruct ids as [[|n l]|]; exact Hu.
    - destruct ids as [[|n l]|]; exact Hdel. }
  split.
  { intros j u Hj. apply get_draft_others; [| exact Hj].
    rewrite set_ids_if_given_pk. exact Hpk. }
  split; [cbn [email_drafts with_email_drafts]; apply length_map|].
  destruct ids as [[|n l]|]; repeat split.
Qed.

(** X21: [save_draft] with a non-zero draft id that names no draft of
    the user (none at all, a soft-deleted one, or another user's)
    answers 'Draft not found' and changes nothing; no draft is
    created. *)
Theorem save_draft_not_found : forall new_pk user st subj body ids tid name i w,
  i <> 0 ->
  (forall x, In x (email_drafts (database w)) -> draft_pk x = i ->
             draft_is_deleted x = true \/ draft_user x <> user_id user) ->
  save_draft new_pk user st subj body ids tid name (Some i) w
  = (w, Ok (DraftFailure "Draft not found")).
Proof.
  intros new_pk user st subj body ids tid name i w Hi H.
  unfold save_draft, try_except. unfold bind at 1. rewrite template_lookup.
  unfold bind at 1.
  assert (Ht : truthy_id (Some i) = true)
    by (cbn; apply negb_true_iff, Z.eqb_neq; exact Hi).
  rewrite Ht. unfold bind at 1. unfold query at 1.
  rewrite (get_draft_none _ _ _ H). reflexivity.
Qed.

End Trace.


(** *** The theorems at a concrete database *)

(** The sender's draft for cost center 1, a soft-deleted draft of the
    sender, a draft of alice, and a draft of the sender whose stored
    ids do not parse. *)
Definition draft5 : EmailDraft :=
  {| draft_pk := 5; draft_user := 9; draft_template := None;
     draft_send_type := "SPECIFIC"; draft_subject := "Hi";
     draft_body_html := "<p>x</p>"; cost_center_ids := Some "1";
     draft_name := None; draft_is_deleted := false |}.
Definition draft6 : EmailDraft :=
  {| draft_pk := 6; draft_user := 9; draft_template := None;
     draft_send_type := "ANNOUNCEMENT"; draft_subject := "Old";
     draft_body_html := "<p>y</p>"; cost_center_ids := None;
     draft_name := None; draft_is_deleted := true |}.
Definition draft7 : EmailDraft :=
  {| draft_pk := 7; draft_user := 7; draft_template := None;
     draft_send_type := "ANNOUNCEMENT"; draft_subject := "Hers";
     draft_body_html := "<p>z</p>"; cost_center_ids := None;
     draft_name := None; draft_is_deleted := false |}.
Definition draft8 : EmailDraft :=
  {| draft_pk := 8; draft_user := 9; draft_template := None;
     draft_send_type := "SPECIFIC"; draft_subject := "Bad";
     draft_body_html := "<p>w</p>"; cost_center_ids := Some "1,x";
     draft_name := None; draft_is_deleted := false |}.

Definition w_drafts : World :=
  with_database w0 (with_email_drafts db0 [draft5; draft6; draft7; draft8]).

Lemma outbox_gains_one_entry_witness :
  determine_targets "ANNOUNCEMENT" None (database w0) = Ok (inr [cc1; cc2])
  /\ exists w' s entry,
       send_email "noreply@x.org" mail_ok sender "ANNOUNCEMENT" "Hi" "<p>x</p>"
         None None None w0 = (w', Ok (Sent s))
       /\ In entry (sent_by_user sender (database w'))
       /\ List.length (sent_by_user sender (database w')) = 1%nat
       /\ sent_log_id s = Some (log_id entry)
       /\ sent_by_user alice (database w') = [].
Proof.
  split; [reflexivity|].
  destruct (outbox_gains_one_entry "noreply@x.org" mail_ok sender "ANNOUNCEMENT"
              "Hi" "<p>x</p>" None None None w0 cc1 [cc2] eq_refl)
    as [w' [s [entry [Hrun [Hout [Hlen [Hid [_ Hothers]]]]]]]].
  exists w', s, entry. split; [exact Hrun|].
  split; [apply Hout; right; reflexivity|]. split; [exact Hlen|].
  split; [exact Hid|]. apply (Hothers alice). discriminate.
Defined.

Lemma outbox_entry_reflects_first_witness :
  determine_targets "ANNOUNCEMENT" None (database w0) = Ok (inr [cc1; cc2])
  /\ exists w' s entry first,
       send_email "noreply@x.org" mail_down sender "ANNOUNCEMENT" "Hi" "<p>x</p>"
         None None None w0 = (w', Ok (Sent s))
       /\ In entry (email_logs (database w'))
       /\ sent_log_id s = Some (log_id entry)
       /\ hd_error (details s) = Some first
       /\ email_status entry = (if r_success first then "SUCCESS" else "FAILED")
       /\ recipient_emails entry = "a@x.org".
Proof.
  split; [reflexivity|].
  destruct (outbox_entry_reflects_first "noreply@x.org" mail_down sender
              "ANNOUNCEMENT" "Hi" "<p>x</p>" None None None w0 cc1 [cc2] eq_refl)
    as [w' [s [entry [first [Hrun [Hin [Hid [_ [Hhd [_ [Hst [_ Hrc]]]]]]]]]]]].
  exists w', s, entry, first. split; [exact Hrun|]. split; [exact Hin|].
  split; [exact Hid|]. split; [exact Hhd|]. split; [exact Hst | exact Hrc].
Defined.

Lemma send_email_mails_witness :
  determine_targets "ANNOUNCEMENT" None (database w0) = Ok (inr [cc1; cc2])
  /\ exists w' s m,
       send_email "noreply@x.org" mail_ok sender "ANNOUNCEMENT" "Hi" "<p>x</p>"
         None None None w0 = (w', Ok (Sent s))
       /\ mail_attempts w' = [m]
       /\ msg_to m = ["a@x.org"]
       /\ msg_cc m = Some ["a@x.org"; "b@x.org"]
       /\ msg_from_email m = "noreply@x.org".
Proof.
  split; [reflexivity|].
  destruct (send_email_mails "noreply@x.org" mail_ok sender "ANNOUNCEMENT"
              "Hi" "<p>x</p>" None None None w0 cc1 [cc2] eq_refl)
    as [w' [s [mails [Hrun [Hm Hall]]]]].
  change (filter (has_recipients (database w0)) [cc1; cc2]) with [cc1] in Hall.
  inversion Hall as [|c m l ms [Hto [_ [Hcc [Hfrom _]]]] Hrest]; subst.
  inversion Hrest; subst.
  exists w', s, m. split; [exact Hrun|]. split; [exact Hm|].
  split; [exact Hto|]. split; [exact Hcc | exact Hfrom].
Defined.

Lemma send_email_unread_counts_witness :
  well_formed (database w0)
  /\ determine_targets "ANNOUNCEMENT" None (database w0) = Ok (inr [cc1; cc2])
  /\ exists w' s,
       send_email "noreply@x.org" mail_ok sender "ANNOUNCEMENT" "Hi" "<p>x</p>"
         None None None w0 = (w', Ok (Sent s))
       /\ forall u, In u (users (database w0)) ->
            unread_count u (database w')
            = unread_count u (database w0)
              + Z.of_nat (List.length (filter (counted (database w0) u)
                                         (combine [cc1; cc2] (details s)))).
Proof.
  split; [exact well_formed_db0|]. split; [reflexivity|].
  exact (send_email_unread_counts "noreply@x.org" mail_ok sender "ANNOUNCEMENT"
           "Hi" "<p>x</p>" None None None w0 cc1 [cc2] well_formed_db0 eq_refl).
Defined.

Lemma drafts_6_hidden : forall x,
  In x (email_drafts (database w_drafts)) -> draft_pk x = 6 ->
  draft_is_deleted x = true \/ draft_user x <> user_id sender.
Proof.
  intros x Hx Hp. cbn in Hx.
  destruct Hx as [<-|[<-|[<-|[<-|[]]]]]; try discriminate Hp.
  left. reflexivity.
Defined.

Lemma drafts_7_hidden : forall x,
  In x (email_drafts (database w_drafts)) -> draft_pk x = 7 ->
  draft_is_deleted x = true \/ draft_user x <> user_id sender.
Proof.
  intros x Hx Hp. cbn in Hx.
  destruct Hx as [<-|[<-|[<-|[<-|[]]]]]; try discriminate Hp.
  right. discriminate.
Defined.

Lemma fresh_9 : fresh_pk 9 (database w_drafts).
Proof.
  intros x Hx. cbn in Hx.
  destruct Hx as [<-|[<-|[<-|[<-|[]]]]]; discriminate.
Defined.

Lemma send_from_draft_not_found_witness :
  In draft6 (email_drafts (database w_drafts))
  /\ send_from_draft "noreply@x.org" mail_ok sender 6 None w_drafts
     = (w_drafts, Ok (Failure "Draft not found")).
Proof.
  split; [right; left; reflexivity|].
  exact (send_from_draft_not_found "noreply@x.org" mail_ok sender 6 None w_drafts
           drafts_6_hidden).
Defined.

Lemma send_from_draft_is_send_email_witness :
  get_draft 5 sender (database w_drafts) = Some draft5
  /\ send_from_draft "noreply@x.org" mail_ok sender 5 None w_drafts
     = send_email "noreply@x.org" mail_ok sender "SPECIFIC" "Hi" "<p>x</p>"
         (Some [1]) None (Some 5) w_drafts.
Proof.
  split; [reflexivity|].
  exact (proj1 (send_from_draft_is_send_email "noreply@x.org" mail_ok sender 5 None
                  w_drafts draft5 [1] eq_refl) eq_refl eq_refl).
Defined.

Lemma send_from_draft_error_leaves_state_witness :
  get_cost_center_list draft8
  = Raise (ValueError "invalid literal for int() with base 10: 'x'")
  /\ send_from_draft "noreply@x.org" mail_ok sender 8 None w_drafts
     = (w_drafts, Ok (Failure "invalid literal for int() with base 10: 'x'")).
Proof.
  split; [reflexivity|].
  destruct (send_from_draft_error_leaves_state "noreply@x.org" mail_ok sender 8
              None w_drafts) as [w' [r [Hrun [_ Hbad]]]].
  destruct (Hbad draft8 "1,x"
              (ValueError "invalid literal for int() with base 10: 'x'")
              eq_refl eq_refl eq_refl eq_refl eq_refl) as [-> ->].
  exact Hrun.
Defined.

Lemma save_draft_creates_witness :
  exists w' draft,
    save_draft 9 sender "SPECIFIC" "New" "<p>n</p>" (Some [1; 2]) None None None
      w_drafts = (w', Ok (DraftSaved draft))
    /\ get_draft 9 sender (database w') = Some draft
    /\ get_cost_center_list draft = Ok [1; 2].
Proof.
  destruct (save_draft_creates 9 sender "SPECIFIC" "New" "<p>n</p>" (Some [1; 2])
              None None None w_drafts eq_refl fresh_9)
    as [w' [draft [Hrun [_ [Hget [_ [_ [_ [_ [_ [_ Hids]]]]]]]]]]].
  exists w', draft. split; [exact Hrun|]. split; [exact Hget | exact Hids].
Defined.

Lemma save_then_send_witness :
  exists w1 draft,
    save_draft 9 sender "SPECIFIC" "New" "<p>n</p>" (Some [1; 2]) None None None
      w_drafts = (w1, Ok (DraftSaved draft))
    /\ send_from_draft "noreply@x.org" mail_ok sender 9 None w1
       = send_email "noreply@x.org" mail_ok sender "SPECIFIC" "New" "<p>n</p>"
           (Some [1; 2]) None (Some 9) w1.
Proof.
  destruct (save_then_send "noreply@x.org" mail_ok 9 sender "SPECIFIC" "New"
              "<p>n</p>" (Some [1; 2]) None None None w_drafts eq_refl fresh_9)
    as [w1 [draft [Hrun Hsend]]].
  exists w1, draft. split; [exact Hrun | exact (Hsend None)].
Defined.

Lemma save_draft_updates_witness :
  get_draft 5 sender (database w_drafts) = Some draft5
  /\ exists w' draft,
       save_draft 9 sender "SPECIFIC" "New" "<p>n</p>" (Some []) None None (Some 5)
         w_drafts = (w', Ok (DraftSaved draft))
       /\ get_draft 5 sender (database w') = Some draft
       /\ draft_subject draft = "New"
       /\ cost_center_ids draft = Some "1".
Proof.
  split; [reflexivity|].
  assert (H5 : 5 <> 0) by discriminate.
  destruct (save_draft_updates 9 sender "SPECIFIC" "New" "<p>n</p>" (Some []) None
              None 5 w_drafts draft5 H5 eq_refl)
    as [w' [draft [Hrun [Hget [_ [_ [_ [_ [_ [_ [Hs [_ [_ Hids]]]]]]]]]]]]].
  exists w', draft. split; [exact Hrun|]. split; [exact Hget|].
  split; [exact Hs | exact Hids].
Defined.

Lemma save_draft_not_found_witness :
  In draft7 (email_drafts (database w_drafts))
  /\ save_draft 9 sender "SPECIFIC" "New" "<p>n</p>" None None None (Some 7)
       w_drafts = (w_drafts, Ok (DraftFailure "Draft not found")).
Proof.
  split; [right; right; left; reflexivity|].
  assert (H7 : 7 <> 0) by discriminate.
  exact (save_draft_not_found 9 sender "SPECIFIC" "New" "<p>n</p>" None None None 7
           w_drafts H7 drafts_7_hidden).
Defined.
End ServiceExtras.

(** ** The RTL wrapper of the mail body *)

Module WrapExtras.
Import Py Email.

Lemma lower_app : forall a b, lower (a ++ b) = (lower a ++ lower b)%string.
Proof.
  induction a as [|c a IH]; intros b; [reflexivity|].
  cbn [String.append lower]. rewrite IH. reflexivity.
Qed.

Lemma startswith_app : forall p r, startswith p (p ++ r) = true.
Proof.
  induction p as [|c p IH]; intros r; [reflexivity|].
  cbn [String.append startswith]. rewrite Ascii.eqb_refl. apply IH.
Qed.

Lemma contains_of_startswith : forall p s,
  startswith p s = true -> contains p s = true.
Proof. intros p s H. destruct s; cbn [contains]; rewrite H; reflexivity. Qed.

Lemma string_length_app : forall a b,
  String.length (a ++ b) = (String.length a + String.length b)%nat.
Proof.
  induction a as [|c a IH]; intros b; [reflexivity|].
  cbn [String.append String.length]. rewrite IH. reflexivity.
Qed.

Lemma string_app_assoc : forall a b c : string,
  ((a ++ b) ++ c = a ++ (b ++ c))%string.
Proof.
  induction a as [|x a IH]; intros b c; [reflexivity|].
  cbn [String.append]. rewrite IH. reflexivity.
Qed.

Lemma rtl_head_opens :
  lower RTL_HEAD
  = ("<html" ++ substring 5 (String.length RTL_HEAD) (lower RTL_HEAD))%string.
Proof. vm_compute. reflexivity. Qed.

Lemma wrapped_has_html : forall b,
  contains "<html" (lower (RTL_HEAD ++ b ++ RTL_TAIL)) = true.
Proof.
  intros b. apply contains_of_startswith.
  rewrite lower_app, rtl_head_opens, string_app_assoc.
  apply startswith_app.
Qed.

(** X22: [wrap_html_with_rtl] wraps at most once.  Its result always
    carries an html tag and contains the given body; a body that
    already has an html tag, in any letter case, is returned as it is
    and no other body is; so wrapping a wrapped body changes
    nothing. *)
Theorem wrap_html_with_rtl_once : forall body_html,
  wrap_html_with_rtl (wrap_html_with_rtl body_html) = wrap_html_with_rtl body_html
  /\ contains "<html" (lower (wrap_html_with_rtl body_html)) = true
  /\ (wrap_html_with_rtl body_html = body_html
      <-> contains "<html" (lower body_html) = true)
  /\ exists before after,
       wrap_html_with_rtl body_html = (before ++ body_html ++ after)%string.
Proof.
  intros b.
  assert (Hhas : contains "<html" (lower (wrap_html_with_rtl b)) = true).
  { unfold wrap_html_with_rtl.
    destruct (contains "<html" (lower b)) eqn:E; [exact E | apply wrapped_has_html]. }
  split.
  { unfold wrap_html_with_rtl at 1. rewrite Hhas. reflexivity. }
  split; [exact Hhas|].
  split.
  { split.
    - intros H. rewrite <- H. exact Hhas.
    - intros H. unfold wrap_html_with_rtl. rewrite H. reflexivity. }
  unfold wrap_html_with_rtl. destruct (contains "<html" (lower b)).
  - exists EmptyString, EmptyString. cbn [String.append].
    clear. induction b as [|c b IH]; [reflexivity|].
    cbn [String.append]. rewrite <- IH. reflexivity.
  - exists RTL_HEAD, RTL_TAIL. reflexivity.
Qed.

End WrapExtras.

(** ** Pagination of the list views *)

Module PageExtras.
Import Py PyProps Email Views.

(** A query parameter that reads as the integer [n]: ASCII text within
    the digit limit that [int] converts to [n]. *)
Definition reads_as (param : string) (n : Z) : Prop :=
  plain param = true /\ int param = Ok n.

Section Pages.

Variable A : Type.

(** Rows [t * (k - 1)] to [t * k] of the queryset. *)
Definition chunk (t : nat) (queryset : list A) (k : nat) : list A :=
  firstn t (skipn ((k - 1) * t) queryset).

Lemma firstn_plus : forall (a b : nat) (l : list A),
  firstn (a + b) l = (firstn a l ++ firstn b (skipn a l))%list.
Proof.
  induction a as [|a IH]; intros b l; [reflexivity|].
  destruct l as [|x l]; [cbn; rewrite firstn_nil; reflexivity|].
  cbn [Nat.add firstn skipn List.app]. rewrite IH. reflexivity.
Qed.

Lemma chunks_concat : forall t queryset n m,
  List.concat (map (chunk t queryset) (seq (S m) n))
  = firstn (n * t) (skipn (m * t) queryset).
Proof.
  intros t q n. induction n as [|n IH]; intros m; [reflexivity|].
  cbn [seq map List.concat]. rewrite IH. unfold chunk.
  replace (S m - 1)%nat with m by lia.
  cbn [Nat.mul]. rewrite firstn_plus, skipn_skipn.
  replace (t + m * t)%nat with (S m * t)%nat by (cbn [Nat.mul]; lia).
  reflexivity.
Qed.

(** A request whose parameters read as integers. *)
Lemma paginate_ints : forall p ps k s (queryset : list A),
  int p = Ok k -> int ps = Ok s ->
  paginate (Some p) (Some ps) queryset
  = match slice ((k - 1) * s) ((k - 1) * s + s) queryset with
    | Raise e => Raise e
    | Ok rows =>
        Ok {| count := Z.of_nat (List.length queryset); page := k;
              page_size := s; results := rows |}
    end.
Proof.
  intros p ps k s q Hp Hps. unfold paginate, int_param. rewrite Hp, Hps.
  reflexivity.
Qed.

Lemma slice_rows : forall start stop (queryset : list A),
  0 <= start <= DB_INT_MAX -> 0 < stop - start <= DB_INT_MAX ->
  slice start stop queryset
  = Ok (firstn (Z.to_nat (stop - start)) (skipn (Z.to_nat start) queryset)).
Proof.
  intros start stop q Hs Hl. unfold slice.
  assert (H1 : (start <? 0) = false) by (apply Z.ltb_ge; lia).
  assert (H2 : (stop <? 0) = false) by (apply Z.ltb_ge; lia).
  assert (H3 : (stop <=? start) = false) by (apply Z.leb_gt; lia).
  assert (H4 : (DB_INT_MAX <? stop - start) = false) by (apply Z.ltb_ge; lia).
  assert (H5 : (DB_INT_MAX <? start) = false) by (apply Z.ltb_ge; lia).
  rewrite H1, H2, H3, H4, H5. reflexivity.
Qed.

Lemma paginate_chunk : forall p ps (k : nat) s (queryset : list A),
  int p = Ok (Z.of_nat k) -> int ps = Ok s ->
  (1 <= k)%nat -> 0 < s <= DB_INT_MAX ->
  (Z.of_nat k - 1) * s <= DB_INT_MAX ->
  paginate (Some p) (Some ps) queryset
  = Ok {| count := Z.of_nat (List.length queryset); page := Z.of_nat k;
          page_size := s; results := chunk (Z.to_nat s) queryset k |}.
Proof.
  intros p ps k s q Hp Hps Hk Hs Hoff.
  rewrite (paginate_ints p ps _ _ q Hp Hps).
  rewrite slice_rows by nia. unfold chunk.
  replace ((Z.of_nat k - 1) * s + s - (Z.of_nat k - 1) * s) with s by lia.
  replace (Z.to_nat ((Z.of_nat k - 1) * s)) with ((k - 1) * Z.to_nat s)%nat by nia.
  reflexivity.
Qed.

(** X23: walking the pages.  With a page size from 1 to the largest
    integer of the database, and n pages that start within those
    integers and are enough for the rows there are, the requests for
    pages 1 to n all succeed, however the numbers are written; each
    reports the total count and holds at most [page_size] rows; and
    their results in order are the queryset: every row is served
    exactly once. *)
Theorem paginate_walk : forall (queryset : list A) (ps : string) (s : Z) (n : nat),
  reads_as ps s ->
  0 < s <= DB_INT_MAX ->
  (Z.of_nat n - 1) * s <= DB_INT_MAX ->
  Z.of_nat (List.length queryset) <= Z.of_nat n * s ->
  exists pages,
    Forall2 (fun k pg =>
               forall p, reads_as p (Z.of_nat k) ->
                         paginate (Some p) (Some ps) queryset = Ok pg)
      (seq 1 n) pages
    /\ List.concat (map results pages) = queryset
    /\ Forall (fun pg => count pg = Z.of_nat (List.length queryset)
                         /\ page_size pg = s
                         /\ Z.of_nat (List.length (results pg)) <= s) pages.
Proof.
  intros q ps s n [_ Hps] Hs Hoff Hn.
  set (mk := fun k : nat =>
               {| count := Z.of_nat (List.length q); page := Z.of_nat k;
                  page_size := s; results := chunk (Z.to_nat s) q k |}).
  exists (map mk (seq 1 n)).
  split.
  { assert (Hall : forall k, In k (seq 1 n) -> (1 <= k <= n)%nat)
      by (intros k Hk; apply in_seq in Hk; lia).
    induction (seq 1 n) as [|k l IH]; [constructor|].
    cbn [map]. constructor.
    - intros p [_ Hp]. pose proof (Hall k (or_introl eq_refl)) as Hk.
      apply paginate_chunk; [exact Hp | exact Hps | lia | exact Hs | nia].
    - apply IH. intros j Hj. apply Hall. right. exact Hj. }
  split.
  { rewrite map_map. cbn [results mk].
    change (fun x : nat => chunk (Z.to_nat s) q x) with (chunk (Z.to_nat s) q).
    rewrite chunks_concat. cbn [Nat.mul skipn].
    apply firstn_all2. nia. }
  apply Forall_forall. intros pg Hpg. apply in_map_iff in Hpg as [k [<- _]].
  cbn [count page_size results mk]. split; [reflexivity|]. split; [reflexivity|].
  unfold chunk. pose proof (firstn_le_length (Z.to_nat s)
                              (skipn ((k - 1) * Z.to_nat s) q)). lia.
Qed.


End Pages.

Lemma paginate_walk_witness :
  reads_as " 3" 3
  /\ exists pages,
       Forall2 (fun p pg =>
                  paginate (Some p) (Some " 3") [10; 20; 30; 40; 50; 60; 70] = Ok pg)
         ["1"; "+2"; "0_3"] pages
       /\ List.concat (map results pages) = [10; 20; 30; 40; 50; 60; 70].
Proof.
  assert (Hps : reads_as " 3" 3) by (split; reflexivity).
  split; [exact Hps|].
  assert (H3 : 0 < 3 <= DB_INT_MAX) by (unfold DB_INT_MAX; lia).
  assert (Hoff : (Z.of_nat 3 - 1) * 3 <= DB_INT_MAX) by (unfold DB_INT_MAX; cbn; lia).
  assert (Hn : Z.of_nat (List.length [10; 20; 30; 40; 50; 60; 70])
               <= Z.of_nat 3 * 3) by (cbn; lia).
  destruct (paginate_walk Z [10; 20; 30; 40; 50; 60; 70] " 3" 3 3 Hps H3 Hoff Hn)
    as [pages [Hp [Hc _]]].
  exists pages. split; [| exact Hc].
  cbn [seq] in Hp.
  inversion Hp as [|k1 g1 l1 r1 P1 Q1]; subst.
  inversion Q1 as [|k2 g2 l2 r2 P2 Q2]; subst.
  inversion Q2 as [|k3 g3 l3 r3 P3 Q3]; subst.
  inversion Q3; subst.
  constructor; [apply P1; split; reflexivity|].
  constructor; [apply P2; split; reflexivity|].
  constructor; [apply P3; split; reflexivity | constructor].
Defined.


End PageExtras.

(** ** The send view *)

Module SendViewExtras.
Import Py Email ServiceProps Views.
Local Open Scope py_scope.

Section SendView.

Variable DEFAULT_FROM_EMAIL : string.
Variable backend : list EmailMessage -> EmailMessage -> bool.



End SendView.



End SendViewExtras.
